(** * Heart-rate driven actuator bridge: a shallow embedding of main.js and bp.js

    The development follows the two source modules.

    - [Js] holds the fragment of the JavaScript runtime the code relies on:
      values produced by [JSON.parse], property access, truthiness,
      [ToString] and [parseInt(_, 10)].
    - [Eff] is the effect layer: module-level variables of both files, the
      trace of calls made to the outside world, exceptions with
      [try/catch/finally], and [process.exit].
    - [Bp] embeds bp.js (the actuator client wrapper and its connection
      status), [Main] embeds main.js (configuration, control loop, protocol
      handler, retry logic, shutdown).

    Every call into a library (the buttplug client, the device, the socket
    server, the child process) takes its outcome from an explicit environment
    record, one field per call site, so that a theorem can quantify over what the
    outside world does.

    What the model takes for granted:
    - an operation runs from call to return without another callback
      writing the variables in between; the variables as they stand at each
      [await] on a library promise are recorded in the trace, which is what
      a callback running meanwhile would read;
    - what is thrown is an [Error] object (it has a [message]), and
      constructing the client does not throw;
    - a number is held as the mathematical value of the double JavaScript
      computes with, and only integer-valued numbers occur; [Js.infinity]
      stands for [Infinity]. *)

From Stdlib Require Import ZArith List String Ascii Bool Lia DecimalString.
From Stdlib Require Import DecimalPos.
Import ListNotations.
Local Open Scope string_scope.
Local Open Scope list_scope.
Local Open Scope Z_scope.
Set Warnings "-register-all".

(* ===================================================================== *)
(** ** JavaScript values *)
(* ===================================================================== *)

Module Js.

(** What [JSON.parse] can return.  Numbers are restricted to integer
    literals (the protocol only carries opcodes and status codes as numbers,
    heart rates travel as text): [JNum n] is the Number value the literal
    [n] denotes, which is [n] itself up to 2^53 and the nearest double
    beyond.  [JObj] lists the own properties of the parsed object, each key
    once. *)
Inductive json : Type :=
| JNull
| JBool (b : bool)
| JNum (n : Z)
| JStr (s : string)
| JArr (items : list json)
| JObj (fields : list (string * json)).

(** A JavaScript value that came out of parsed JSON; [None] is [undefined]. *)
Definition value : Type := option json.

Fixpoint lookup (k : string) (fields : list (string * json)) : value :=
  match fields with
  | [] => None
  | (k', v) :: rest => if String.eqb k k' then Some v else lookup k rest
  end.

(** [v.k]: reading a property of [undefined] or [null] is a TypeError
    ([None] here); primitives and arrays have none of the property names the
    program reads, so they answer [undefined]. *)
Definition getProp (v : value) (k : string) : option value :=
  match v with
  | None => None
  | Some JNull => None
  | Some (JObj fields) => Some (lookup k fields)
  | Some _ => Some None
  end.

(** [v?.k] *)
Definition getPropOpt (v : value) (k : string) : value :=
  match v with
  | Some (JObj fields) => lookup k fields
  | _ => None
  end.

(** ToBoolean *)
Definition truthy (v : value) : bool :=
  match v with
  | None => false
  | Some JNull => false
  | Some (JBool b) => b
  | Some (JNum n) => negb (n =? 0)
  | Some (JStr s) => negb (String.eqb s "")
  | Some (JArr _) => true
  | Some (JObj _) => true
  end.

(** [v === n] and [v === s] for a number and a string literal. *)
Definition strictEqNum (v : value) (n : Z) : bool :=
  match v with Some (JNum m) => m =? n | _ => false end.

Definition strictEqStr (v : value) (s : string) : bool :=
  match v with Some (JStr t) => String.eqb t s | _ => false end.

Fixpoint join (sep : string) (parts : list string) : string :=
  match parts with
  | [] => ""
  | [p] => p
  | p :: rest => append p (append sep (join sep rest))
  end.

(** *** Numbers *)

(** Stands for [Infinity]: above every finite double. *)
Definition infinity : Z := 2 ^ 1024.

(** The Number value for a mathematical integer: the nearest double, ties
    going to the even significand, [Infinity] from 2^1024 - 2^970 on. *)
Definition double (m : Z) : Z :=
  let a := Z.abs m in
  let bits := Z.log2 a + 1 in
  let r :=
    if bits <=? 53 then a else
    let e := bits - 53 in
    let q := Z.shiftr a e in
    let rest := a - Z.shiftl q e in
    let half := Z.shiftl 1 (e - 1) in
    Z.shiftl (if (half <? rest) || ((rest =? half) && Z.odd q) then q + 1 else q) e in
  Z.sgn m * (if infinity <=? r then infinity else r).

Definition integerText (n : Z) : string := NilZero.string_of_int (Z.to_int n).

(** Number of decimal digits. *)
Definition width (a : Z) : Z := Z.of_nat (String.length (integerText a)).

Fixpoint stripZeros (fuel : nat) (c : Z) : Z :=
  match fuel with
  | O => c
  | S f => if (c mod 10 =? 0) && negb (c =? 0) then stripZeros f (c / 10) else c
  end.

(** Whether the integer [c] has the double [x] (at least 2^53) as its
    Number value: [c] lies between the midpoints to the neighbours of [x],
    the midpoints included when the significand of [x] is even. *)
Definition roundsTo (x c : Z) : bool :=
  let e := Z.log2 x + 1 - 53 in
  let q := Z.shiftr x e in
  let hi := 2 * x + Z.shiftl 1 e in
  let lo := 2 * x - (if q =? Z.shiftl 1 52 then Z.shiftl 1 (e - 1) else Z.shiftl 1 e) in
  if Z.even q then (lo <=? 2 * c) && (2 * c <=? hi)
  else (lo <? 2 * c) && (2 * c <? hi).

(** The multiple of the greatest power of ten (from [p] downwards) that
    still has [x] as its Number value; of two such multiples the one nearer
    to [x], the even one when they are as near. *)
Fixpoint shortest (fuel : nat) (x p : Z) : Z :=
  match fuel with
  | O => x
  | S f =>
      let below := (x / p) * p in
      let above := below + p in
      if roundsTo x below && roundsTo x above then
        if x - below <? above - x then below
        else if above - x <? x - below then above
        else if Z.even (below / p) then below else above
      else if roundsTo x below then below
      else if roundsTo x above then above
      else shortest f x (p / 10)
  end.

(** Number::toString for an integer-valued double: the fewest significant
    digits that denote it, written out in full below 10^21 and in exponent
    form from there on. *)
Definition numberToString (x : Z) : string :=
  let a := Z.abs x in
  let sign := if x <? 0 then "-" else "" in
  if infinity <=? a then append sign "Infinity" else
  if a <? 2 ^ 53 then integerText x else
  let c := shortest (Z.to_nat (width a)) a (10 ^ (width a - 1)) in
  let n := width c in
  if n <=? 21 then append sign (integerText c) else
  match integerText (stripZeros (Z.to_nat n) c) with
  | String d EmptyString =>
      append sign (String d (append "e+" (integerText (n - 1))))
  | String d more =>
      append sign (String d (append "." (append more (append "e+" (integerText (n - 1))))))
  | EmptyString => EmptyString
  end.

(** ToString; [None] is the TypeError thrown for an object that cannot be
    converted to a primitive.  An object whose own property [toString] holds
    a parsed value (never a function) is such an object; any other object
    prints through [Object.prototype.toString].  An array joins its
    elements with a comma, [null] elements printing as the empty string. *)
Fixpoint jsonToString (v : json) : option string :=
  match v with
  | JNull => Some "null"
  | JBool true => Some "true"
  | JBool false => Some "false"
  | JNum n => Some (numberToString (double n))
  | JStr s => Some s
  | JArr items =>
      match
        (fix elements (xs : list json) : option (list string) :=
           match xs with
           | [] => Some []
           | x :: rest =>
               match (match x with JNull => Some "" | _ => jsonToString x end),
                     elements rest with
               | Some p, Some ps => Some (p :: ps)
               | _, _ => None
               end
           end) items
      with
      | Some parts => Some (join "," parts)
      | None => None
      end
  | JObj fields =>
      match lookup "toString" fields with
      | None => Some "[object Object]"
      | Some _ => None
      end
  end.

Definition toString (v : value) : option string :=
  match v with
  | None => Some "undefined"
  | Some j => jsonToString j
  end.

(** *** parseInt(text, 10) *)

(** StrWhiteSpaceChar, for code units below 256. *)
Definition isWhiteSpace (c : ascii) : bool :=
  let n := nat_of_ascii c in
  (Nat.leb 9 n && Nat.leb n 13) || Nat.eqb n 32 || Nat.eqb n 160.

Fixpoint trimStart (s : string) : string :=
  match s with
  | EmptyString => EmptyString
  | String c rest => if isWhiteSpace c then trimStart rest else s
  end.

Definition digitValue (c : ascii) : option Z :=
  let n := nat_of_ascii c in
  if Nat.leb 48 n && Nat.leb n 57 then Some (Z.of_nat n - 48) else None.

(** Value of the longest prefix of decimal digits, [None] when it is
    empty. *)
Fixpoint digits (s : string) (acc : option Z) : option Z :=
  match s with
  | EmptyString => acc
  | String c rest =>
      match digitValue c with
      | Some d =>
          digits rest (Some (10 * (match acc with Some a => a | None => 0 end) + d))
      | None => acc
      end
  end.

Definition leadingMinus (s : string) : bool :=
  match trimStart s with
  | String "-" _ => true
  | _ => false
  end.

(** [parseInt(s, 10)]; [None] is [NaN].  The result is the Number value
    of the integer the digits denote. *)
Definition parseInt10 (s : string) : option Z :=
  let t := trimStart s in
  let '(sign, body) :=
    match t with
    | String "-" rest => (-1, rest)
    | String "+" rest => (1, rest)
    | _ => (1, t)
    end in
  match digits body None with
  | Some m => Some (double (sign * m))
  | None => None
  end.

(** [JSON.stringify] drops the properties whose value is [undefined]. *)
Fixpoint object (props : list (string * value)) : list (string * json) :=
  match props with
  | [] => []
  | (k, Some v) :: rest => (k, v) :: object rest
  | (_, None) :: rest => object rest
  end.

End Js.

(* ===================================================================== *)
(** ** Effects: module variables, calls to the outside, exceptions *)
(* ===================================================================== *)

Module Eff.

(** A thrown [Error], identified by its message. *)
Definition Error : Type := string.

(** How a call into a library ends: the promise resolves (or the call
    returns) or it rejects (or the call throws). *)
Inductive Outcome : Type :=
| Resolves
| Rejects (e : Error).

(** [state.vibrationState], only ever assigned ['on'] or ['off']. *)
Inductive VibrationState : Type := On | Off.

Definition VibrationState_eqb (a b : VibrationState) : bool :=
  match a, b with
  | On, On => true
  | Off, Off => true
  | _, _ => false
  end.

(** bp.js: the library's client object (the part the code reads) and the
    device handle. *)
Record Client : Type := { connected : bool }.
Record Device : Type := { name : string }.

Record ConnectionStatus : Type := {
  isConnecting : bool;
  isConnected : bool;
  lastError : option Error
}.

(** main.js: [state]. *)
Record State : Type := {
  heartRate : Z;
  vibrationState : VibrationState;
  connectRetries : Z;
  shutdownInProgress : bool
}.

(** The module-level variables of bp.js ([client], [device],
    [connectionStatus]) and of main.js ([state], and whether [buttplugProc]
    holds a process handle). *)
Record Vars : Type := {
  client : option Client;
  device : option Device;
  connectionStatus : ConnectionStatus;
  state : State;
  buttplugProc : bool
}.

(** What the program does to the outside world.  [Suspended v] marks an
    [await] on a pending promise: [v] is what any other callback scheduled
    meanwhile finds in the variables.  Console output is left out. *)
Inductive Event : Type :=
| ClientConnect (url : string)
| ClientStartScanning
| ClientStopScanning
| ClientRemoveAllListeners
| ClientDisconnect
| DeviceVibrate
| DeviceStop
| WsSend (payload : Js.json)
| UpdateUIStatus (hr : Z) (vs : VibrationState)
| SetTimeout (delay : Z)
| ClearInterval
| WssClose
| ProcKill
| ProcessExit (code : Z)
| Suspended (seen : Vars).

(** What becomes of a promise the code builds around a callback: it
    settles, or the callback is never called and it stays pending. *)
Inductive Settlement : Type :=
| Settles (o : Outcome)
| StaysPending.

(** How a piece of code ends: normally, by a thrown error, because the
    process exited, or not at all: it is suspended on a promise that stays
    pending, while the event loop goes on delivering callbacks. *)
Inductive Res (A : Type) : Type :=
| Ok (a : A)
| Throw (e : Error)
| Exit (code : Z)
| Pending.
Arguments Ok {A} a.
Arguments Throw {A} e.
Arguments Exit {A} code.
Arguments Pending {A}.

Definition M (A : Type) : Type := Vars -> Res A * Vars * list Event.

Definition ret {A} (a : A) : M A := fun v => (Ok a, v, []).

Definition bind {A B} (m : M A) (k : A -> M B) : M B :=
  fun v =>
    match m v with
    | (Ok a, v1, t1) => let '(r, v2, t2) := k a v1 in (r, v2, t1 ++ t2)
    | (Throw e, v1, t1) => (Throw e, v1, t1)
    | (Exit c, v1, t1) => (Exit c, v1, t1)
    | (Pending, v1, t1) => (Pending, v1, t1)
    end.

Definition throw {A} (e : Error) : M A := fun v => (Throw e, v, []).

(** [process.exit(code)] does not return and no handler runs after it. *)
Definition processExit {A} (code : Z) : M A :=
  fun v => (Exit code, v, [ProcessExit code]).

Definition tryCatch {A} (body : M A) (handler : Error -> M A) : M A :=
  fun v =>
    match body v with
    | (Throw e, v1, t1) => let '(r, v2, t2) := handler e v1 in (r, v2, t1 ++ t2)
    | out => out
    end.

(** [try { body } finally { fin }]: [fin] runs after a normal or an
    exceptional end of [body]; what [body] returned or threw stands unless
    [fin] itself ends abruptly. *)
Definition tryFinally {A} (body : M A) (fin : M unit) : M A :=
  fun v =>
    match body v with
    | (Exit c, v1, t1) => (Exit c, v1, t1)
    | (Pending, v1, t1) => (Pending, v1, t1)
    | (r, v1, t1) =>
        match fin v1 with
        | (Ok _, v2, t2) => (r, v2, t1 ++ t2)
        | (Throw e, v2, t2) => (Throw e, v2, t1 ++ t2)
        | (Exit c, v2, t2) => (Exit c, v2, t1 ++ t2)
        | (Pending, v2, t2) => (Pending, v2, t1 ++ t2)
        end
    end.

Definition read {A} (f : Vars -> A) : M A := fun v => (Ok (f v), v, []).
Definition write (f : Vars -> Vars) : M unit := fun v => (Ok tt, f v, []).
Definition emit (e : Event) : M unit := fun v => (Ok tt, v, [e]).

Definition settle (o : Outcome) : M unit :=
  match o with
  | Resolves => ret tt
  | Rejects e => throw e
  end.

(** A synchronous library call. *)
Definition call (e : Event) (o : Outcome) : M unit :=
  bind (emit e) (fun _ => settle o).

(** The caller yields to the event loop with the variables as they are. *)
Definition suspend : M unit := fun v => (Ok tt, v, [Suspended v]).

(** [await] on a library call: the call is made, the caller is suspended,
    and resumes with the outcome. *)
Definition await (e : Event) (o : Outcome) : M unit :=
  bind (emit e) (fun _ => bind suspend (fun _ => settle o)).

(** The caller never resumes. *)
Definition pending {A} : M A := fun v => (Pending, v, []).

(** [await new Promise(resolve => call(resolve))]: the call is made with
    [resolve] as its callback and the caller is suspended; it resumes when
    the callback is called (or the call itself threw), if ever. *)
Definition awaitCallback (e : Event) (s : Settlement) : M unit :=
  bind (emit e) (fun _ =>
  bind suspend (fun _ =>
  match s with
  | Settles o => settle o
  | StaysPending => pending
  end)).

Declare Scope eff_scope.
Delimit Scope eff_scope with eff.
Notation "x <- c1 ;; c2" := (bind c1 (fun x => c2))
  (at level 61, c1 at next level, right associativity) : eff_scope.
Notation "c1 ;; c2" := (bind c1 (fun _ => c2))
  (at level 61, right associativity) : eff_scope.

(** Assignments to the module variables. *)
Definition set_client (c : option Client) (v : Vars) : Vars :=
  {| client := c; device := device v; connectionStatus := connectionStatus v;
     state := state v; buttplugProc := buttplugProc v |}.

Definition set_device (d : option Device) (v : Vars) : Vars :=
  {| client := client v; device := d; connectionStatus := connectionStatus v;
     state := state v; buttplugProc := buttplugProc v |}.

Definition set_connectionStatus (cs : ConnectionStatus) (v : Vars) : Vars :=
  {| client := client v; device := device v; connectionStatus := cs;
     state := state v; buttplugProc := buttplugProc v |}.

Definition set_state (s : State) (v : Vars) : Vars :=
  {| client := client v; device := device v; connectionStatus := connectionStatus v;
     state := s; buttplugProc := buttplugProc v |}.

Definition set_isConnecting (b : bool) (v : Vars) : Vars :=
  set_connectionStatus
    {| isConnecting := b; isConnected := isConnected (connectionStatus v);
       lastError := lastError (connectionStatus v) |} v.

Definition set_isConnected (b : bool) (v : Vars) : Vars :=
  set_connectionStatus
    {| isConnecting := isConnecting (connectionStatus v); isConnected := b;
       lastError := lastError (connectionStatus v) |} v.

Definition set_lastError (e : option Error) (v : Vars) : Vars :=
  set_connectionStatus
    {| isConnecting := isConnecting (connectionStatus v);
       isConnected := isConnected (connectionStatus v); lastError := e |} v.

Definition set_heartRate (hr : Z) (v : Vars) : Vars :=
  set_state
    {| heartRate := hr; vibrationState := vibrationState (state v);
       connectRetries := connectRetries (state v);
       shutdownInProgress := shutdownInProgress (state v) |} v.

Definition set_vibrationState (vs : VibrationState) (v : Vars) : Vars :=
  set_state
    {| heartRate := heartRate (state v); vibrationState := vs;
       connectRetries := connectRetries (state v);
       shutdownInProgress := shutdownInProgress (state v) |} v.

Definition set_connectRetries (n : Z) (v : Vars) : Vars :=
  set_state
    {| heartRate := heartRate (state v); vibrationState := vibrationState (state v);
       connectRetries := n;
       shutdownInProgress := shutdownInProgress (state v) |} v.

Definition set_shutdownInProgress (b : bool) (v : Vars) : Vars :=
  set_state
    {| heartRate := heartRate (state v); vibrationState := vibrationState (state v);
       connectRetries := connectRetries (state v);
       shutdownInProgress := b |} v.

(** The states other callbacks can see while an operation is suspended. *)
Fixpoint observed (t : list Event) : list Vars :=
  match t with
  | [] => []
  | Suspended v :: rest => v :: observed rest
  | _ :: rest => observed rest
  end.

Definition result {A} (o : Res A * Vars * list Event) : Res A := fst (fst o).
Definition final {A} (o : Res A * Vars * list Event) : Vars := snd (fst o).
Definition events {A} (o : Res A * Vars * list Event) : list Event := snd o.

End Eff.

(* ===================================================================== *)
(** ** bp.js *)
(* ===================================================================== *)

Module Bp.
Import Eff.
Local Open Scope eff_scope.

(** What the library does during [safeDisconnect]. *)
Record DisconnectEnv : Type := {
  stop_result : Outcome;          (* device.stop() *)
  disconnect_result : Outcome     (* client.disconnect() *)
}.

(** What the library does during one [connectToButtplug]. *)
Record ConnectEnv : Type := {
  connect_result : Outcome;       (* client.connect(connector) *)
  startScanning_result : Outcome; (* client.startScanning() *)
  discovery : option Device;      (* 'deviceadded' before the timer, or not *)
  cleanup : DisconnectEnv         (* the safeDisconnect of the catch block *)
}.

(** [let client = null; let device = null; let connectionStatus = ...] *)
Definition initialStatus : ConnectionStatus :=
  {| isConnecting := false; isConnected := false; lastError := None |}.

(** [client && client.connected], as a condition. *)
Definition clientConnected (v : Vars) : bool :=
  match client v with
  | Some c => connected c
  | None => false
  end.

(** [client.connect(connector)]: once it resolves the library reports the
    client as connected. *)
Definition clientConnect (url : string) (o : Outcome) : M unit :=
  await (ClientConnect url) o ;;
  write (set_client (Some {| connected := true |})).

(** [client.disconnect()]: once it resolves the client is no longer
    connected. *)
Definition clientDisconnect (o : Outcome) : M unit :=
  await ClientDisconnect o ;;
  write (set_client (Some {| connected := false |})).

(** [waitForDevice(timeoutMs)]: the promise settles when the first
    ['deviceadded'] arrives or when the timer fires, whichever is first. *)
Definition waitForDevice (timeoutMs : Z) (found : option Device) : M unit :=
  suspend ;;
  match found with
  | Some d =>
      emit ClientStopScanning ;;
      write (set_device (Some d))
  | None =>
      emit ClientRemoveAllListeners ;;
      emit ClientStopScanning ;;
      throw "No device found within timeout"
  end.

(** [safeDisconnect()] *)
Definition safeDisconnect (env : DisconnectEnv) : M unit :=
  c <- read client ;;
  match c with
  | None => ret tt
  | Some _ =>
      tryFinally
        (tryCatch
           (d <- read device ;;
            match d with
            | Some _ =>
                tryCatch (await DeviceStop (stop_result env)) (fun _ => ret tt)
            | None => ret tt
            end ;;
            isUp <- read clientConnected ;;
            if isUp then clientDisconnect (disconnect_result env) else ret tt)
           (fun _ => ret tt))
        (write (set_client None) ;;
         write (set_device None) ;;
         write (set_isConnected false))
  end.

(** [connectToButtplug(url, timeoutMs)] *)
Definition connectToButtplug (url : string) (timeoutMs : Z) (env : ConnectEnv)
  : M unit :=
  busy <- read (fun v => isConnecting (connectionStatus v)) ;;
  if busy then throw "Connection already in progress" else
  up <- read clientConnected ;;
  if up then ret tt else
  write (set_isConnecting true) ;;
  write (set_lastError None) ;;
  tryFinally
    (tryCatch
       (write (set_client (Some {| connected := false |})) ;;
        clientConnect url (connect_result env) ;;
        await ClientStartScanning (startScanning_result env) ;;
        waitForDevice timeoutMs (discovery env) ;;
        write (set_isConnected true))
       (fun error =>
          write (set_lastError (Some error)) ;;
          safeDisconnect (cleanup env) ;;
          throw error))
    (write (set_isConnecting false)).

(** The value of [client && client.connected && device !== null]: [null]
    when there is no client, a boolean otherwise. *)
Definition isReady_value (v : Vars) : Js.json :=
  match client v with
  | None => Js.JNull
  | Some c =>
      if connected c
      then Js.JBool (match device v with Some _ => true | None => false end)
      else Js.JBool false
  end.

(** [isReady()] as its callers use it, in a condition. *)
Definition isReady (v : Vars) : bool := Js.truthy (Some (isReady_value v)).

(** [on()] *)
Definition on (vibrate_result : Outcome) : M unit :=
  ready <- read isReady ;;
  if negb ready then throw "Device not connected" else
  tryCatch (await DeviceVibrate vibrate_result) (fun error => throw error).

(** [off()] *)
Definition off (stop_result : Outcome) : M unit :=
  ready <- read isReady ;;
  if negb ready then throw "Device not connected" else
  tryCatch (await DeviceStop stop_result) (fun error => throw error).

(** [disconnectButtplug()] *)
Definition disconnectButtplug (env : DisconnectEnv) : M unit :=
  safeDisconnect env.

(** Not code of bp.js: the actuator service or the network closes the
    socket, after which the library's [client.connected] reads false.  The
    guard [client && client.connected] of [connectToButtplug] is there for
    a client in that condition. *)
Definition connectionLost (v : Vars) : Vars :=
  match client v with
  | Some _ => set_client (Some {| connected := false |}) v
  | None => v
  end.

End Bp.

(* ===================================================================== *)
(** ** main.js *)
(* ===================================================================== *)

Module Main.
Import Eff.
Local Open Scope eff_scope.

Record Config : Type := {
  OBS_PORT : Z;
  BUTTPLUG_URL : string;
  CONNECTION_RETRIES : Z;
  RETRY_DELAY_MS : Z;
  HR_THRESHOLD : Z;
  UPDATE_INTERVAL_MS : Z;
  WEB_UI_PORT : Z
}.

Definition CONFIG : Config := {|
  OBS_PORT := 4456;
  BUTTPLUG_URL := "ws://localhost:12345";
  CONNECTION_RETRIES := 5;
  RETRY_DELAY_MS := 5000;
  HR_THRESHOLD := 100;
  UPDATE_INTERVAL_MS := 500;
  WEB_UI_PORT := 3000
|}.

(** [const state = { heartRate: 0, vibrationState: 'off', ... }] *)
Definition initialState : State := {|
  heartRate := 0;
  vibrationState := Off;
  connectRetries := 0;
  shutdownInProgress := false
|}.

(** The variables of both modules when main.js has been loaded;
    [proc] tells whether [startButtplugServer()] returned a handle. *)
Definition initialVars (proc : bool) : Vars := {|
  client := None;
  device := None;
  connectionStatus := Bp.initialStatus;
  state := initialState;
  buttplugProc := proc
|}.

(** The function [setupWebUI] returns: it forwards the pair to the
    dashboard clients. *)
Definition updateUIStatus : M unit :=
  hr <- read (fun v => heartRate (state v)) ;;
  vs <- read (fun v => vibrationState (state v)) ;;
  emit (UpdateUIStatus hr vs).

(** [connectWithRetry()]: one invocation.  [SetTimeout] in its trace is
    the [setTimeout(connectWithRetry, RETRY_DELAY_MS)] that schedules the
    next one. *)
Definition connectWithRetry (env : Bp.ConnectEnv) : M unit :=
  stopping <- read (fun v => shutdownInProgress (state v)) ;;
  if stopping then ret tt else
  tryCatch
    (Bp.connectToButtplug (BUTTPLUG_URL CONFIG) 10000 env ;;
     write (set_connectRetries 0))
    (fun _ =>
       write (fun v => set_connectRetries (connectRetries (state v) + 1) v) ;;
       n <- read (fun v => connectRetries (state v)) ;;
       if n <? CONNECTION_RETRIES CONFIG
       then emit (SetTimeout (RETRY_DELAY_MS CONFIG))
       else ret tt).

(** What the device answers to the commands of one tick or of one manual
    control. *)
Record CommandEnv : Type := {
  vibrate_outcome : Outcome;      (* device.vibrate(1.0) *)
  stop_outcome : Outcome          (* device.stop() *)
}.

(** [handleUIControl(action)] *)
Definition handleUIControl (action : string) (env : CommandEnv) : M bool :=
  ready <- read Bp.isReady ;;
  if negb ready then ret false else
  tryCatch
    ((if String.eqb action "on" then
        Bp.on (vibrate_outcome env) ;;
        write (set_vibrationState On)
      else if String.eqb action "off" then
        Bp.off (stop_outcome env) ;;
        write (set_vibrationState Off)
      else ret tt) ;;
     updateUIStatus ;;
     ret true)
    (fun _ => ret false).

(** [processHeartRate()]: one tick of the control loop. *)
Definition processHeartRate (env : CommandEnv) : M unit :=
  ready <- read Bp.isReady ;;
  stopping <- read (fun v => shutdownInProgress (state v)) ;;
  if negb ready || stopping then ret tt else
  tryCatch
    (hr <- read (fun v => heartRate (state v)) ;;
     vs <- read (fun v => vibrationState (state v)) ;;
     if (hr <? HR_THRESHOLD CONFIG) && negb (VibrationState_eqb vs On) then
       Bp.on (vibrate_outcome env) ;;
       write (set_vibrationState On) ;;
       updateUIStatus
     else if (hr >=? HR_THRESHOLD CONFIG) && negb (VibrationState_eqb vs Off) then
       Bp.off (stop_outcome env) ;;
       write (set_vibrationState Off) ;;
       updateUIStatus
     else ret tt)
    (fun _ => ret tt).

(** *** The protocol handler *)

(** The text of one inbound frame: not JSON, or the value [JSON.parse]
    returns. *)
Inductive Frame : Type :=
| Malformed
| Parsed (msg : Js.json).

(** [{ op: 0, d: { obsWebSocketVersion: '5.4.2', rpcVersion: 1 } }] *)
Definition helloMessage : Js.json :=
  Js.JObj [("op", Js.JNum 0);
           ("d", Js.JObj [("obsWebSocketVersion", Js.JStr "5.4.2");
                          ("rpcVersion", Js.JNum 1)])].

(** [{ op: 2, d: { negotiatedRpcVersion: 1 } }] *)
Definition identifiedMessage : Js.json :=
  Js.JObj [("op", Js.JNum 2);
           ("d", Js.JObj [("negotiatedRpcVersion", Js.JNum 1)])].

(** [{ op: 7, d: { requestType, requestId, requestStatus: { result: true,
    code: 100 } } }] as [JSON.stringify] writes it. *)
Definition requestResponse (requestType requestId : Js.value) : Js.json :=
  Js.JObj [("op", Js.JNum 7);
           ("d", Js.JObj (Js.object
              [("requestType", requestType);
               ("requestId", requestId);
               ("requestStatus",
                Some (Js.JObj [("result", Js.JBool true); ("code", Js.JNum 100)]))]))].

(** Property access that throws on [undefined] and [null]. *)
Definition prop (v : Js.value) (k : string) : M Js.value :=
  match Js.getProp v k with
  | Some x => ret x
  | None => throw "TypeError: Cannot read properties of undefined or null"
  end.

(** The conversion of an argument to a string, which throws for an object
    that has no primitive value. *)
Definition toString (v : Js.value) : M string :=
  match Js.toString v with
  | Some s => ret s
  | None => throw "TypeError: Cannot convert object to primitive value"
  end.

(** [wss.on('connection', ws => ...)]: what is sent when a client
    connects. *)
Definition onConnection : M unit := emit (WsSend helloMessage).

(** [ws.on('message', data => ...)] *)
Definition onMessage (data : Frame) : M unit :=
  match data with
  | Malformed => ret tt
  | Parsed msg =>
      op <- prop (Some msg) "op" ;;
      d <- prop (Some msg) "d" ;;
      if Js.strictEqNum op 1 then
        emit (WsSend identifiedMessage)
      else if Js.strictEqNum op 6 then
        requestType <- prop d "requestType" ;;
        if Js.strictEqStr requestType "SetInputSettings" then
          requestData <- prop d "requestData" ;;
          inputName <- prop requestData "inputName" ;;
          inputSettings <- prop requestData "inputSettings" ;;
          (if Js.strictEqStr inputName "heartrate"
              && Js.truthy (Js.getPropOpt inputSettings "text")
           then
             text <- prop inputSettings "text" ;;
             s <- toString text ;;
             match Js.parseInt10 s with
             | Some hr =>
                 write (set_heartRate hr) ;;
                 updateUIStatus
             | None => ret tt
             end
           else ret tt) ;;
          requestId <- prop d "requestId" ;;
          emit (WsSend (requestResponse requestType requestId))
        else ret tt
      else ret tt
  end.

(** *** Shutdown *)

Record ShutdownEnv : Type := {
  off_outcome : Outcome;               (* device.stop() inside off() *)
  disconnect_env : Bp.DisconnectEnv;   (* disconnectButtplug() *)
  close_outcome : Settlement;          (* wss.close(resolve) *)
  kill_outcome : Outcome               (* buttplugProc.kill() *)
}.

(** [gracefulShutdown()].  The promise around [wss.close(resolve)] settles
    when the listener has closed, which the library reports only once no
    telemetry client is connected any more. *)
Definition gracefulShutdown (env : ShutdownEnv) : M unit :=
  stopping <- read (fun v => shutdownInProgress (state v)) ;;
  if stopping then ret tt else
  write (set_shutdownInProgress true) ;;
  emit ClearInterval ;;
  tryCatch
    (ready <- read Bp.isReady ;;
     vs <- read (fun v => vibrationState (state v)) ;;
     (if ready && VibrationState_eqb vs On
      then Bp.off (off_outcome env)
      else ret tt) ;;
     Bp.disconnectButtplug (disconnect_env env) ;;
     awaitCallback WssClose (close_outcome env) ;;
     proc <- read buttplugProc ;;
     (if proc then call ProcKill (kill_outcome env) else ret tt) ;;
     processExit 0)
    (fun _ => processExit 1).

(** *** The event loop *)

(** The callbacks main.js registers: the interval timer, the socket's
    message event, the dashboard's manual controls, the (re)connection
    timer, and the three shutdown triggers (SIGINT, SIGTERM and
    uncaughtException all call [gracefulShutdown]). *)
Inductive Callback : Type :=
| Tick (env : CommandEnv)
| Message (data : Frame) (env : ShutdownEnv)
| UIControl (action : string) (env : CommandEnv)
| Connect (env : Bp.ConnectEnv)
| Shutdown (env : ShutdownEnv).

Definition forget {A} (o : Res A * Vars * list Event) : Vars * list Event :=
  (final o, events o).

(** One callback run from the event loop.  An exception that escapes the
    message listener is an uncaught exception, whose handler calls
    [gracefulShutdown]. *)
Definition dispatch (cb : Callback) (v : Vars) : Vars * list Event :=
  match cb with
  | Tick env => forget (processHeartRate env v)
  | Message data env =>
      match onMessage data v with
      | (Throw _, v1, t1) =>
          let '(v2, t2) := forget (gracefulShutdown env v1) in (v2, t1 ++ t2)
      | out => forget out
      end
  | UIControl action env => forget (handleUIControl action env v)
  | Connect env => forget (connectWithRetry env v)
  | Shutdown env => forget (gracefulShutdown env v)
  end.

(** Callbacks delivered one after the other.  Delivery goes on after a
    [ProcessExit], which lets the same definition speak about the callbacks
    that fire while a shutdown is still on its way to the exit. *)
Fixpoint dispatchAll (cbs : list Callback) (v : Vars) : Vars * list Event :=
  match cbs with
  | [] => (v, [])
  | cb :: rest =>
      let '(v1, t1) := dispatch cb v in
      let '(v2, t2) := dispatchAll rest v1 in
      (v2, t1 ++ t2)
  end.

(** [n] ticks of the interval timer, the device answering [envs i] at
    tick [i]. *)
Fixpoint ticks (n : nat) (envs : nat -> CommandEnv) (v : Vars) : Vars * list Event :=
  match n with
  | O => (v, [])
  | S m =>
      let '(v1, t1) := forget (processHeartRate (envs O) v) in
      let '(v2, t2) := ticks m (fun i => envs (S i)) v1 in
      (v2, t1 ++ t2)
  end.

Definition isSetTimeout (e : Event) : bool :=
  match e with SetTimeout _ => true | _ => false end.

(** The chain of [connectWithRetry] invocations started at load time: each
    invocation that set the timer is followed by the next one.  The answer
    is the number of invocations, the final variables and the whole trace;
    [None] when [fuel] invocations were not enough to see the chain end. *)
Fixpoint retryChain (fuel : nat) (envs : nat -> Bp.ConnectEnv) (v : Vars)
  : option (nat * Vars * list Event) :=
  match fuel with
  | O => None
  | S fuel' =>
      let '(v1, t1) := forget (connectWithRetry (envs O) v) in
      if existsb isSetTimeout t1 then
        match retryChain fuel' (fun i => envs (S i)) v1 with
        | Some (n, v2, t2) => Some (S n, v2, t1 ++ t2)
        | None => None
        end
      else Some (1%nat, v1, t1)
  end.

End Main.

(* ===================================================================== *)
(** ** Vocabulary of the statements *)
(* ===================================================================== *)

Import Eff.

(** The state the control loop is driving towards for a sample. *)
Definition desired (hr : Z) : VibrationState :=
  if hr <? Main.HR_THRESHOLD Main.CONFIG then On else Off.

Definition count (p : Event -> bool) (t : list Event) : nat :=
  List.length (filter p t).

Definition isDeviceCommand (e : Event) : bool :=
  match e with DeviceVibrate | DeviceStop => true | _ => false end.

Definition isResponse (e : Event) : bool :=
  match e with
  | WsSend (Js.JObj (("op", Js.JNum 7) :: _)) => true
  | _ => false
  end.


(** A connection attempt the library lets down: the transport does not
    connect, scanning does not start, or no device shows up in time. *)
Definition rejects (env : Bp.ConnectEnv) : bool :=
  match Bp.connect_result env, Bp.startScanning_result env, Bp.discovery env with
  | Resolves, Resolves, Some _ => false
  | _, _, _ => true
  end.

Definition isClientConnect (e : Event) : bool :=
  match e with ClientConnect _ => true | _ => false end.

(** At most one of [isConnecting] and [isConnected]. *)
Definition mutex (v : Vars) : bool :=
  negb (isConnecting (connectionStatus v) && isConnected (connectionStatus v)).

(** The variables after a connection attempt that went through, and after
    one that was let down with error [e]. *)
Definition connectedVars (d : Device) (v : Vars) : Vars := {|
  client := Some {| connected := true |};
  device := Some d;
  connectionStatus :=
    {| isConnecting := false; isConnected := true; lastError := None |};
  state := state v;
  buttplugProc := buttplugProc v
|}.

Definition idleVars (e : Error) (v : Vars) : Vars := {|
  client := None;
  device := None;
  connectionStatus :=
    {| isConnecting := false; isConnected := false; lastError := Some e |};
  state := state v;
  buttplugProc := buttplugProc v
|}.

(** What a callback sees of the status while a connection attempt started
    in [v] is suspended in [s]: the attempt is flagged, [isConnected] is
    what it was. *)
Definition inFlight (v s : Vars) : bool :=
  isConnecting (connectionStatus s)
  && Bool.eqb (isConnected (connectionStatus s)) (isConnected (connectionStatus v)).

(** Events by kind. *)
Definition isWssClose (e : Event) : bool :=
  match e with WssClose => true | _ => false end.

Definition isProcKill (e : Event) : bool :=
  match e with ProcKill => true | _ => false end.

Definition isClientDisconnect (e : Event) : bool :=
  match e with ClientDisconnect => true | _ => false end.

Definition isClearInterval (e : Event) : bool :=
  match e with ClearInterval => true | _ => false end.

Definition isProcessExit (e : Event) : bool :=
  match e with ProcessExit _ => true | _ => false end.

(** The events only the teardown sequence produces. *)
Definition isTeardown (e : Event) : bool :=
  match e with
  | ClearInterval | WssClose | ProcKill | ProcessExit _ => true
  | _ => false
  end.

Definition calm (e : Event) : Prop := isTeardown e = false.

(** Each teardown action happens at most once in a trace. *)
Definition once (t : list Event) : Prop :=
  (count isClearInterval t <= 1)%nat /\ (count isWssClose t <= 1)%nat /\
  (count isProcKill t <= 1)%nat /\ (count isProcessExit t <= 1)%nat.

Definition failed (o : Outcome) : bool :=
  match o with Rejects _ => true | Resolves => false end.

(** The steps of [gracefulShutdown] that throw into its [catch]: [off()]
    (called only on a ready, vibrating device), closing the listener,
    killing the server process (when there is one); and the step it can be
    left waiting on for ever: the listener's close callback. *)
Definition offFails (env : Main.ShutdownEnv) (v : Vars) : bool :=
  Bp.isReady v && VibrationState_eqb (vibrationState (state v)) On
  && failed (Main.off_outcome env).

Definition closeFails (env : Main.ShutdownEnv) : bool :=
  match Main.close_outcome env with
  | Settles o => failed o
  | StaysPending => false
  end.

Definition closePending (env : Main.ShutdownEnv) : bool :=
  match Main.close_outcome env with
  | Settles _ => false
  | StaysPending => true
  end.

Definition killFails (env : Main.ShutdownEnv) (v : Vars) : bool :=
  buttplugProc v && failed (Main.kill_outcome env).

(** Relations between the variables before and after an operation. *)
Definition sameLatch (v v' : Vars) : Prop :=
  shutdownInProgress (state v') = shutdownInProgress (state v).

Definition sameSample (v v' : Vars) : Prop :=
  heartRate (state v') = heartRate (state v).

Definition sameLatchAndSample (v v' : Vars) : Prop :=
  sameLatch v v' /\ sameSample v v'.

Definition anyEvent (e : Event) : Prop := True.

(** [preserves I E m]: whatever the variables, running [m] relates them to
    the final ones by [I] and emits only events in [E]. *)
Definition preserves (I : Vars -> Vars -> Prop) (E : Event -> Prop) {A}
  (m : M A) : Prop :=
  forall v, I v (final (m v)) /\ Forall E (events (m v)).

(** The string [parseInt] is given by the handler, for a frame that is an
    update of the heart-rate field: a [Request] of type ['SetInputSettings']
    for the field ['heartrate'] whose text is truthy and can be converted to
    a string.  [None] for any other frame. *)
Definition acceptedText (data : Main.Frame) : option string :=
  match data with
  | Main.Malformed => None
  | Main.Parsed msg =>
      let d := Js.getPropOpt (Some msg) "d" in
      let requestData := Js.getPropOpt d "requestData" in
      let text := Js.getPropOpt (Js.getPropOpt requestData "inputSettings") "text" in
      if Js.strictEqNum (Js.getPropOpt (Some msg) "op") 6
         && Js.strictEqStr (Js.getPropOpt d "requestType") "SetInputSettings"
         && Js.strictEqStr (Js.getPropOpt requestData "inputName") "heartrate"
         && Js.truthy text
      then Js.toString text
      else None
  end.

(** The sample an accepted update carries: what [parseInt] reads in its
    text, when it reads a number. *)
Definition acceptedSample (data : Main.Frame) : option Z :=
  match acceptedText data with
  | Some s => Js.parseInt10 s
  | None => None
  end.

(** An accepted update whose text starts (after white space) with a minus
    sign. *)
Definition signedUpdate (data : Main.Frame) : bool :=
  match acceptedText data with
  | Some s =>
      match Js.parseInt10 s with
      | Some _ => Js.leadingMinus s
      | None => false
      end
  | None => false
  end.

(** No frame among the callbacks is such an update. *)
Fixpoint unsignedUpdates (cbs : list Main.Callback) : bool :=
  match cbs with
  | [] => true
  | Main.Message data _ :: rest => negb (signedUpdate data) && unsignedUpdates rest
  | _ :: rest => unsignedUpdates rest
  end.

(** The sample after a callback that found [hr]. *)
Definition sampleAfter (cb : Main.Callback) (hr : Z) : Z :=
  match cb with
  | Main.Message data _ =>
      match acceptedSample data with
      | Some hr' => hr'
      | None => hr
      end
  | _ => hr
  end.

(** The text of an update of the heart-rate field cannot be converted to a
    string: [parseInt] throws. *)
Definition textThrows (inputName inputSettings : Js.value) : bool :=
  Js.strictEqStr inputName "heartrate"
  && Js.truthy (Js.getPropOpt inputSettings "text")
  && match Js.toString (Js.getPropOpt inputSettings "text") with
     | Some _ => false
     | None => true
     end.

(** The states of the bp.js variables a caller of the module can bring
    about, whatever it calls and in whatever order: at load time, after an
    exported operation has run, and at the suspension points of one.  With
    [drops], the actuator service may also close the connection at any
    time.  (main.js is one such caller; the states it goes through are
    [running] below.) *)
Inductive reachable (drops : bool) : Vars -> Prop :=
| reach_init (proc : bool) :
    reachable drops (Main.initialVars proc)
| reach_connect url timeoutMs env v :
    reachable drops v ->
    reachable drops (final (Bp.connectToButtplug url timeoutMs env v))
| reach_connect_suspended url timeoutMs env v s :
    reachable drops v ->
    In s (observed (events (Bp.connectToButtplug url timeoutMs env v))) ->
    reachable drops s
| reach_disconnect env v :
    reachable drops v ->
    reachable drops (final (Bp.disconnectButtplug env v))
| reach_disconnect_suspended env v s :
    reachable drops v ->
    In s (observed (events (Bp.disconnectButtplug env v))) ->
    reachable drops s
| reach_on o v :
    reachable drops v -> reachable drops (final (Bp.on o v))
| reach_off o v :
    reachable drops v -> reachable drops (final (Bp.off o v))
| reach_lost v :
    drops = true -> reachable drops v -> reachable drops (Bp.connectionLost v).

(** The callback is the connection timer. *)
Definition isConnect (cb : Main.Callback) : bool :=
  match cb with Main.Connect _ => true | _ => false end.

(** The states main.js goes through, the actuator service being free to
    close the connection at any time.  [connectWithRetry] is called once
    when the module is loaded and after that only by the timer it sets
    itself after a failed attempt; the boolean tells whether such a call is
    due.  The other callbacks come at any time.  The states an operation is
    suspended in are among them. *)
Inductive running : Vars -> bool -> Prop :=
| run_load (proc : bool) :
    running (Main.initialVars proc) true
| run_connect env v :
    running v true ->
    running (final (Main.connectWithRetry env v))
            (existsb Main.isSetTimeout (events (Main.connectWithRetry env v)))
| run_connect_suspended env v s :
    running v true ->
    In s (observed (events (Main.connectWithRetry env v))) ->
    running s false
| run_callback cb v due :
    running v due ->
    isConnect cb = false ->
    running (fst (Main.dispatch cb v)) due
| run_callback_suspended cb v s due :
    running v due ->
    isConnect cb = false ->
    In s (observed (snd (Main.dispatch cb v))) ->
    running s due
| run_lost v due :
    running v due -> running (Bp.connectionLost v) due.

(** What an operation other than a connection attempt does to the status:
    it leaves [isConnecting] alone and does not set [isConnected]. *)
Definition statusShrinks (v v' : Vars) : Prop :=
  isConnecting (connectionStatus v') = isConnecting (connectionStatus v) /\
  (isConnected (connectionStatus v') = true ->
   isConnected (connectionStatus v) = true).

(** What holds of the status in every state main.js goes through: no
    connection attempt is due or in flight while [isConnected] is set. *)
Definition settled (v : Vars) (due : bool) : Prop :=
  (due = true ->
   isConnected (connectionStatus v) = false /\
   isConnecting (connectionStatus v) = false) /\
  (isConnected (connectionStatus v) = true ->
   isConnecting (connectionStatus v) = false).

(* ===================================================================== *)
(** ** Sample states and environments *)
(* ===================================================================== *)

Definition readyVars (hr : Z) (vs : VibrationState) : Vars := {|
  client := Some {| connected := true |};
  device := Some {| name := "toy" |};
  connectionStatus :=
    {| isConnecting := false; isConnected := true; lastError := None |};
  state := {| heartRate := hr; vibrationState := vs; connectRetries := 0;
              shutdownInProgress := false |};
  buttplugProc := true
|}.

Definition obeys : Main.CommandEnv :=
  {| Main.vibrate_outcome := Resolves; Main.stop_outcome := Resolves |}.

Definition cleanDisconnect : Bp.DisconnectEnv :=
  {| Bp.stop_result := Resolves; Bp.disconnect_result := Resolves |}.

Definition brokenDisconnect : Bp.DisconnectEnv :=
  {| Bp.stop_result := Rejects "device gone";
     Bp.disconnect_result := Rejects "socket closed" |}.

(** The server answers and a device shows up. *)
Definition serverUp : Bp.ConnectEnv :=
  {| Bp.connect_result := Resolves; Bp.startScanning_result := Resolves;
     Bp.discovery := Some {| name := "toy" |}; Bp.cleanup := cleanDisconnect |}.

(** Nobody listens on the port. *)
Definition serverDown : Bp.ConnectEnv :=
  {| Bp.connect_result := Rejects "ECONNREFUSED";
     Bp.startScanning_result := Resolves;
     Bp.discovery := None; Bp.cleanup := cleanDisconnect |}.

(** The server answers but no device is found in time. *)
Definition noDevice : Bp.ConnectEnv :=
  {| Bp.connect_result := Resolves; Bp.startScanning_result := Resolves;
     Bp.discovery := None; Bp.cleanup := cleanDisconnect |}.

Definition smoothShutdown : Main.ShutdownEnv :=
  {| Main.off_outcome := Resolves; Main.disconnect_env := cleanDisconnect;
     Main.close_outcome := Settles Resolves; Main.kill_outcome := Resolves |}.

(** [device.stop()] fails when [gracefulShutdown] calls [off()]. *)
Definition stuckDevice : Main.ShutdownEnv :=
  {| Main.off_outcome := Rejects "stop failed"; Main.disconnect_env := cleanDisconnect;
     Main.close_outcome := Settles Resolves; Main.kill_outcome := Resolves |}.

(** Everything inside [disconnectButtplug] fails. *)
Definition brokenLink : Main.ShutdownEnv :=
  {| Main.off_outcome := Resolves; Main.disconnect_env := brokenDisconnect;
     Main.close_outcome := Settles Resolves; Main.kill_outcome := Resolves |}.

(** A telemetry client stays connected: the listener's close callback is
    not called. *)
Definition clientLingers : Main.ShutdownEnv :=
  {| Main.off_outcome := Resolves; Main.disconnect_env := cleanDisconnect;
     Main.close_outcome := StaysPending; Main.kill_outcome := Resolves |}.

(** A [Request] frame. *)
Definition request (requestType : string) (requestId : Js.value)
  (inputName text : string) : Js.json :=
  Js.JObj [("op", Js.JNum 6);
           ("d", Js.JObj (Js.object
              [("requestType", Some (Js.JStr requestType));
               ("requestId", requestId);
               ("requestData",
                Some (Js.JObj [("inputName", Js.JStr inputName);
                               ("inputSettings", Js.JObj [("text", Js.JStr text)])]))]))].

(** A heart-rate update carrying [text]. *)
Definition sample (text : string) : Main.Callback :=
  Main.Message
    (Main.Parsed (request "SetInputSettings" (Some (Js.JStr "r")) "heartrate" text))
    smoothShutdown.

(** A [Request] frame whose text is any parsed value. *)
Definition requestWith (requestId : Js.value) (inputName : string) (text : Js.json)
  : Js.json :=
  Js.JObj [("op", Js.JNum 6);
           ("d", Js.JObj (Js.object
              [("requestType", Some (Js.JStr "SetInputSettings"));
               ("requestId", requestId);
               ("requestData",
                Some (Js.JObj [("inputName", Js.JStr inputName);
                               ("inputSettings", Js.JObj [("text", text)])]))]))].

(** A run of nines. *)
Fixpoint nines (n : nat) : string :=
  match n with
  | O => EmptyString
  | S k => String "9" (nines k)
  end.

(** [{"toString": 1}]: an object with no primitive value. *)
Definition noPrimitive : Js.json := Js.JObj [("toString", Js.JNum 1)].

(* ===================================================================== *)
(** ** bp.js: the status report *)
(* ===================================================================== *)

Module Report.

(** [{ ...connectionStatus, deviceName }] *)
Record ConnectionReport : Type := {
  status : ConnectionStatus;
  deviceName : option string
}.

(** [getConnectionStatus()]: [deviceName] is [device.name], or [null]
    ([None]) without a device. *)
Definition getConnectionStatus (v : Vars) : ConnectionReport :=
  {| status := connectionStatus v;
     deviceName := match device v with
                   | Some d => Some (name d)
                   | None => None
                   end |}.

End Report.

(* ===================================================================== *)
(** ** web_ui.js: the dashboard server *)
(* ===================================================================== *)

Module WebUi.

(** [const state = { heartRate: 0, vibrationState: 'off', connections: 0 }]
    inside [setupWebUI]. *)
Record UiState : Type := {
  heartRate : Z;
  vibrationState : VibrationState;
  connections : Z
}.

Definition initial : UiState :=
  {| heartRate := 0; vibrationState := Off; connections := 0 |}.

(** What goes out on a socket: ['status'] with [{ heartRate, vibrator }],
    or ['error'] with [{ message }]. *)
Inductive Payload : Type :=
| Status (heartRate : Z) (vibrator : VibrationState)
| Failure (message : string).

(** [socket.emit] to one dashboard client, [io.emit] to all of them. *)
Inductive Out : Type :=
| ToSocket (socket : nat) (p : Payload)
| ToAll (p : Payload).

(** [io.on('connection', socket => ...)]: count the client, send it the
    current status. *)
Definition onConnection (socket : nat) (u : UiState) : UiState * list Out :=
  let u' := {| heartRate := heartRate u; vibrationState := vibrationState u;
               connections := connections u + 1 |} in
  (u', [ToSocket socket (Status (heartRate u') (vibrationState u'))]).

(** [socket.on('disconnect', ...)] *)
Definition onDisconnect (u : UiState) : UiState :=
  {| heartRate := heartRate u; vibrationState := vibrationState u;
     connections := connections u - 1 |}.

(** The function [setupWebUI] returns. *)
Definition update (hr : Z) (vs : VibrationState) (u : UiState) : UiState * list Out :=
  ({| heartRate := hr; vibrationState := vs; connections := connections u |},
   [ToAll (Status hr vs)]).

(** main.js holds that function as [updateUIStatus]: each [UpdateUIStatus]
    in a trace of main.js is one call of it, in order. *)
Fixpoint replay (t : list Event) (u : UiState) : UiState * list Out :=
  match t with
  | [] => (u, [])
  | UpdateUIStatus hr vs :: rest =>
      let '(u1, o1) := update hr vs u in
      let '(u2, o2) := replay rest u1 in
      (u2, o1 ++ o2)
  | _ :: rest => replay rest u
  end.

(** [socket.on('manualOn', async () => { const success = await
    controlCallback('on'); if (!success) socket.emit('error', ...) })],
    and the same for ['manualOff']. *)
Definition manual (action message : string) (controlCallback : string -> M bool)
  (socket : nat) (v : Vars) (u : UiState) : Vars * UiState * list Event * list Out :=
  let '(r, v1, t) := controlCallback action v in
  let '(u1, outs) := replay t u in
  (v1, u1, t,
   outs ++ match r with
           | Ok false => [ToSocket socket (Failure message)]
           | _ => []
           end).

Definition onManualOn : (string -> M bool) -> nat -> Vars -> UiState ->
                        Vars * UiState * list Event * list Out :=
  manual "on" "Failed to turn device on".

Definition onManualOff : (string -> M bool) -> nat -> Vars -> UiState ->
                         Vars * UiState * list Event * list Out :=
  manual "off" "Failed to turn device off".

End WebUi.

(* ===================================================================== *)
(** ** main.js and web_ui.js together *)
(* ===================================================================== *)

Module App.

(** What the event loop delivers once the dashboard is wired in
    ([setupWebUI((action) => handleUIControl(action), ...)]): dashboard
    sockets connecting, leaving and asking for manual control, and the
    callbacks of main.js. *)
Inductive Callback : Type :=
| SocketConnect (socket : nat)
| SocketDisconnect (socket : nat)
| ManualOn (socket : nat) (env : Main.CommandEnv)
| ManualOff (socket : nat) (env : Main.CommandEnv)
| Backend (cb : Main.Callback).

Definition dispatch (c : Callback) (v : Vars) (u : WebUi.UiState)
  : Vars * WebUi.UiState * list Event * list WebUi.Out :=
  match c with
  | SocketConnect socket =>
      let '(u1, outs) := WebUi.onConnection socket u in (v, u1, [], outs)
  | SocketDisconnect _ => (v, WebUi.onDisconnect u, [], [])
  | ManualOn socket env =>
      WebUi.onManualOn (fun action => Main.handleUIControl action env) socket v u
  | ManualOff socket env =>
      WebUi.onManualOff (fun action => Main.handleUIControl action env) socket v u
  | Backend cb =>
      let '(v1, t) := Main.dispatch cb v in
      let '(u1, outs) := WebUi.replay t u in
      (v1, u1, t, outs)
  end.

Fixpoint dispatchAll (cs : list Callback) (v : Vars) (u : WebUi.UiState)
  : Vars * WebUi.UiState * list Event * list WebUi.Out :=
  match cs with
  | [] => (v, u, [], [])
  | c :: rest =>
      let '(v1, u1, t1, o1) := dispatch c v u in
      let '(v2, u2, t2, o2) := dispatchAll rest v1 u1 in
      (v2, u2, t1 ++ t2, o1 ++ o2)
  end.

End App.

(* ===================================================================== *)
(** ** More vocabulary *)
(* ===================================================================== *)

(** Everything but [state.vibrationState] is the same. *)
Definition sameButVibration (v v' : Vars) : Prop :=
  client v' = client v /\ device v' = device v /\
  connectionStatus v' = connectionStatus v /\
  buttplugProc v' = buttplugProc v /\
  heartRate (state v') = heartRate (state v) /\
  connectRetries (state v') = connectRetries (state v) /\
  shutdownInProgress (state v') = shutdownInProgress (state v).

(** Everything but [state.heartRate] is the same. *)
Definition sameButSample (v v' : Vars) : Prop :=
  client v' = client v /\ device v' = device v /\
  connectionStatus v' = connectionStatus v /\
  buttplugProc v' = buttplugProc v /\
  vibrationState (state v') = vibrationState (state v) /\
  connectRetries (state v') = connectRetries (state v) /\
  shutdownInProgress (state v') = shutdownInProgress (state v).

(** The sample and the vibration state are the same. *)
Definition sameDisplay (v v' : Vars) : Prop :=
  heartRate (state v') = heartRate (state v) /\
  vibrationState (state v') = vibrationState (state v).

(** What the protocol handler may emit: a frame to its client, a status
    for the dashboard. *)
Definition isProtocolEvent (e : Event) : Prop :=
  match e with
  | WsSend _ | UpdateUIStatus _ _ => True
  | _ => False
  end.

Definition isStatusUpdate (e : Event) : bool :=
  match e with UpdateUIStatus _ _ => true | _ => false end.

Definition noStatusUpdate (e : Event) : Prop := isStatusUpdate e = false.

Definition isDeviceStop (e : Event) : bool :=
  match e with DeviceStop => true | _ => false end.

(** The dashboard shows what main.js holds. *)
Definition mirrors (u : WebUi.UiState) (v : Vars) : Prop :=
  WebUi.heartRate u = heartRate (state v) /\
  WebUi.vibrationState u = vibrationState (state v).

(** Sockets connecting and leaving among dashboard callbacks. *)
Definition isSocketConnect (c : App.Callback) : bool :=
  match c with App.SocketConnect _ => true | _ => false end.

Definition isSocketDisconnect (c : App.Callback) : bool :=
  match c with App.SocketDisconnect _ => true | _ => false end.

(** No device is held and the module is not ready. *)
Definition unready (s : Vars) : bool :=
  negb (Bp.isReady s) && match device s with None => true | Some _ => false end.

(** What the status report says agrees with [isReady()]. *)
Definition consistent (v : Vars) : Prop :=
  isConnected (connectionStatus v) = Bp.isReady v /\
  (Bp.isReady v = false -> device v = None) /\
  (Bp.isReady v = true -> isConnecting (connectionStatus v) = false).

(** A frame with opcode [op] and payload [d]. *)
Definition frame (op : Z) (d : Js.value) : Js.json :=
  Js.JObj (Js.object [("op", Some (Js.JNum op)); ("d", d)]).

(** The decimal text of an integer. *)
Definition decimal (n : Z) : string := NilZero.string_of_int (Z.to_int n).

(** A call made to the outside, as opposed to a suspension mark. *)
Definition isCall (e : Event) : bool :=
  match e with Suspended _ => false | _ => true end.

(** The steps of a shutdown: the teardown events and the calls that stop
    the device and close the actuator connection. *)
Definition isStep (e : Event) : bool :=
  isTeardown e || isDeviceStop e || isClientDisconnect e.

(** A text made of white space only. *)
Fixpoint blank (s : string) : bool :=
  match s with
  | EmptyString => true
  | String c rest => Js.isWhiteSpace c && blank rest
  end.

(** A text that does not start with a decimal digit. *)
Definition inert (s : string) : bool :=
  match s with
  | EmptyString => true
  | String c _ => match Js.digitValue c with Some _ => false | None => true end
  end.

(** The variables and the dashboard state out of a run of [App]. *)
Definition appVars (x : Vars * WebUi.UiState * list Event * list WebUi.Out) : Vars :=
  fst (fst (fst x)).

Definition appUi (x : Vars * WebUi.UiState * list Event * list WebUi.Out)
  : WebUi.UiState :=
  snd (fst (fst x)).

Definition appOuts (x : Vars * WebUi.UiState * list Event * list WebUi.Out)
  : list WebUi.Out :=
  snd x.

(** A dashboard that shows sample [hr] and state [vs] to [n] clients. *)
Definition showing (hr : Z) (vs : VibrationState) (n : Z) : WebUi.UiState :=
  {| WebUi.heartRate := hr; WebUi.vibrationState := vs; WebUi.connections := n |}.

(** The first two servers are down, the third answers. *)
Definition thirdTimeLucky (i : nat) : Bp.ConnectEnv :=
  match i with
  | O | S O => serverDown
  | _ => serverUp
  end.

(** Where the first attempt against [serverDown] is suspended. *)
Definition firstAttempt : Vars := {|
  client := Some {| connected := false |};
  device := None;
  connectionStatus :=
    {| isConnecting := true; isConnected := false; lastError := None |};
  state := Main.initialState;
  buttplugProc := true
|}.

(* ===================================================================== *)
(** ** Proof support *)
(* ===================================================================== *)

(** Compute an operation on variables whose shape is known, keeping
    integer comparisons as they are. *)
Ltac run := cbv -[Z.ltb Z.geb Z.add] in *.

Lemma geb_ltb (a b : Z) : (a >=? b) = negb (a <? b).
Proof. rewrite Z.geb_leb, Z.ltb_antisym. now rewrite negb_involutive. Qed.

Lemma isReady_inv (v : Vars) :
  Bp.isReady v = true ->
  exists d, client v = Some {| connected := true |} /\ device v = Some d.
Proof.
  destruct v as [[[[|]]|] [d|] cs st bp]; cbn; try discriminate.
  intros _. now exists d.
Qed.

(* ===================================================================== *)
(** ** Rules for what an operation keeps *)
(* ===================================================================== *)

(** One rule per construct of the effect layer. *)
Section Preserves.
Variable I : Vars -> Vars -> Prop.
Variable E : Event -> Prop.
Hypothesis I_refl : forall v, I v v.
Hypothesis I_trans : forall a b c, I a b -> I b c -> I a c.
Hypothesis E_suspended : forall v, E (Suspended v).

Local Abbreviation preserves := (preserves I E).

Lemma pres_ret {A} (a : A) : preserves (ret a).
Proof. intros v. split; [apply I_refl | constructor]. Qed.

Lemma pres_throw {A} (e : Error) : preserves (@throw A e).
Proof. intros v. split; [apply I_refl | constructor]. Qed.

Lemma pres_read {A} (f : Vars -> A) : preserves (read f).
Proof. intros v. split; [apply I_refl | constructor]. Qed.

Lemma pres_write (f : Vars -> Vars) : (forall v, I v (f v)) -> preserves (write f).
Proof. intros H v. split; [apply H | constructor]. Qed.

Lemma pres_emit (e : Event) : E e -> preserves (emit e).
Proof. intros H v. split; [apply I_refl | repeat constructor; exact H]. Qed.

Lemma pres_suspend : preserves suspend.
Proof. intros v. split; [apply I_refl | repeat constructor; apply E_suspended]. Qed.

Lemma pres_exit {A} (c : Z) : E (ProcessExit c) -> preserves (@processExit A c).
Proof. intros H v. split; [apply I_refl | repeat constructor; exact H]. Qed.

Lemma pres_bind {A B} (m : M A) (k : A -> M B) :
  preserves m -> (forall a, preserves (k a)) -> preserves (bind m k).
Proof.
  intros Hm Hk v. specialize (Hm v). unfold bind, final, events in *.
  destruct (m v) as [[[a|e|c|] v1] t1]; cbn in *; trivial.
  specialize (Hk a v1). unfold final, events in Hk.
  destruct (k a v1) as [[r v2] t2]; cbn in *.
  destruct Hm, Hk. split; [eauto | now apply Forall_app].
Qed.

Lemma pres_tryCatch {A} (m : M A) (h : Error -> M A) :
  preserves m -> (forall e, preserves (h e)) -> preserves (tryCatch m h).
Proof.
  intros Hm Hh v. specialize (Hm v). unfold tryCatch, final, events in *.
  destruct (m v) as [[[a|e|c|] v1] t1]; cbn in *; trivial.
  specialize (Hh e v1). unfold final, events in Hh.
  destruct (h e v1) as [[r v2] t2]; cbn in *.
  destruct Hm, Hh. split; [eauto | now apply Forall_app].
Qed.

Lemma pres_tryFinally {A} (m : M A) (f : M unit) :
  preserves m -> preserves f -> preserves (tryFinally m f).
Proof.
  intros Hm Hf v. specialize (Hm v). unfold tryFinally, final, events in *.
  destruct (m v) as [[[a|e|c|] v1] t1]; cbn in *; trivial;
    specialize (Hf v1); unfold final, events in Hf;
    destruct (f v1) as [[[[]|e2|c2|] v2] t2]; cbn in *;
    destruct Hm, Hf; (split; [eauto | now apply Forall_app]).
Qed.

Lemma pres_settle (o : Outcome) : preserves (settle o).
Proof. destruct o; [apply pres_ret | apply pres_throw]. Qed.

Lemma pres_await (e : Event) (o : Outcome) : E e -> preserves (await e o).
Proof.
  intros H. unfold await.
  apply pres_bind; [now apply pres_emit|intros _].
  apply pres_bind; [apply pres_suspend|intros _]. apply pres_settle.
Qed.

Lemma pres_call (e : Event) (o : Outcome) : E e -> preserves (call e o).
Proof.
  intros H. unfold call. apply pres_bind; [now apply pres_emit|intros _].
  apply pres_settle.
Qed.

Lemma pres_pending {A} : preserves (@pending A).
Proof. intros v. split; [apply I_refl | constructor]. Qed.

Lemma pres_awaitCallback (e : Event) (s : Settlement) :
  E e -> preserves (awaitCallback e s).
Proof.
  intros H. unfold awaitCallback.
  apply pres_bind; [now apply pres_emit|intros _].
  apply pres_bind; [apply pres_suspend|intros _].
  destruct s; [apply pres_settle | apply pres_pending].
Qed.

End Preserves.

Lemma sameLatch_refl v : sameLatch v v.
Proof. reflexivity. Qed.

Lemma sameLatch_trans a b c : sameLatch a b -> sameLatch b c -> sameLatch a c.
Proof. unfold sameLatch. congruence. Qed.

Lemma sameSample_refl v : sameSample v v.
Proof. reflexivity. Qed.

Lemma sameSample_trans a b c : sameSample a b -> sameSample b c -> sameSample a c.
Proof. unfold sameSample. congruence. Qed.

Lemma sameLatchAndSample_refl v : sameLatchAndSample v v.
Proof. split; reflexivity. Qed.

Lemma sameLatchAndSample_trans a b c :
  sameLatchAndSample a b -> sameLatchAndSample b c -> sameLatchAndSample a c.
Proof. unfold sameLatchAndSample, sameLatch, sameSample. intuition congruence. Qed.

Lemma calm_suspended v : calm (Suspended v).
Proof. reflexivity. Qed.

Lemma anyEvent_suspended v : anyEvent (Suspended v).
Proof. exact Logic.I. Qed.

#[local] Hint Resolve sameLatch_refl sameLatch_trans sameSample_refl
  sameSample_trans sameLatchAndSample_refl sameLatchAndSample_trans
  calm_suspended anyEvent_suspended : core.

Ltac pres_side :=
  solve [eauto | reflexivity | exact Logic.I | intros; split; reflexivity].

Ltac pres_step :=
  first
    [ apply pres_bind; [pres_side .. | | intros ?]
    | apply pres_tryCatch; [pres_side .. | | intros ?]
    | apply pres_tryFinally; [pres_side .. | | ]
    | apply pres_ret; pres_side
    | apply pres_throw; pres_side
    | apply pres_read; pres_side
    | apply pres_suspend; pres_side
    | apply pres_settle; pres_side
    | apply pres_await; pres_side
    | apply pres_awaitCallback; pres_side
    | apply pres_call; pres_side
    | apply pres_emit; pres_side
    | apply pres_exit; pres_side
    | apply pres_write; pres_side
    | match goal with
      | |- preserves _ _ (if ?b then _ else _) => destruct b
      | |- preserves _ _ (match ?x with _ => _ end) => destruct x
      end ].

Ltac pres := repeat pres_step.

(** Outside [gracefulShutdown] nothing writes the latch or tears anything
    down, and only the message handler writes the sample. *)
Lemma connectToButtplug_keeps url timeoutMs env :
  preserves sameLatchAndSample calm (Bp.connectToButtplug url timeoutMs env).
Proof.
  unfold Bp.connectToButtplug, Bp.safeDisconnect, Bp.clientConnect,
    Bp.clientDisconnect, Bp.waitForDevice.
  pres.
Qed.

Lemma connectWithRetry_keeps env :
  preserves sameLatchAndSample calm (Main.connectWithRetry env).
Proof. unfold Main.connectWithRetry. pres. Qed.

Lemma processHeartRate_keeps env :
  preserves sameLatchAndSample calm (Main.processHeartRate env).
Proof. unfold Main.processHeartRate, Main.updateUIStatus, Bp.on, Bp.off. pres. Qed.

Lemma handleUIControl_keeps action env :
  preserves sameLatchAndSample calm (Main.handleUIControl action env).
Proof. unfold Main.handleUIControl, Main.updateUIStatus, Bp.on, Bp.off. pres. Qed.

Lemma onMessage_keeps data : preserves sameLatch calm (Main.onMessage data).
Proof. unfold Main.onMessage, Main.updateUIStatus, Main.prop, Main.toString. pres. Qed.

Lemma gracefulShutdown_keeps env :
  preserves sameSample anyEvent (Main.gracefulShutdown env).
Proof.
  unfold Main.gracefulShutdown, Bp.disconnectButtplug, Bp.safeDisconnect,
    Bp.clientDisconnect, Bp.off.
  pres.
Qed.

(* ===================================================================== *)
(** ** The control loop *)
(* ===================================================================== *)

(** One tick leaves everything but [vibrationState] alone. *)
Lemma tick_frame (env : Main.CommandEnv) (v : Vars) :
  let v' := final (Main.processHeartRate env v) in
  client v' = client v /\ device v' = device v /\
  connectionStatus v' = connectionStatus v /\
  heartRate (state v') = heartRate (state v) /\
  shutdownInProgress (state v') = shutdownInProgress (state v) /\
  connectRetries (state v') = connectRetries (state v) /\
  buttplugProc v' = buttplugProc v.
Proof.
  destruct env as [[|e1] [|e2]];
  destruct v as [[[[|]]|] [d|] cs [hr vs cr [|]] bp]; run;
    try (repeat split; reflexivity);
    rewrite geb_ltb; destruct (hr <? 100), vs; cbn; repeat split; reflexivity.
Qed.

(** With a ready actuator, no shutdown and a device that obeys, one tick
    puts [vibrationState] where the sample wants it. *)
Lemma tick_desired (env : Main.CommandEnv) (v : Vars) :
  Bp.isReady v = true ->
  shutdownInProgress (state v) = false ->
  Main.vibrate_outcome env = Resolves ->
  Main.stop_outcome env = Resolves ->
  vibrationState (state (final (Main.processHeartRate env v)))
  = desired (heartRate (state v)).
Proof.
  destruct env as [vo so].
  destruct v as [[[[|]]|] [d|] cs [hr vs cr sd] bp]; intros Hr Hs Hv Ho;
    try discriminate; cbn in Hs, Hv, Ho; subst.
  unfold desired. run. rewrite geb_ltb.
  destruct (hr <? 100), vs; reflexivity.
Qed.

(** C1. For every heart-rate sample, one tick of [processHeartRate] with a
    ready actuator, no shutdown in progress and device commands that succeed
    ends with [vibrationState] 'on' when the sample is below the threshold
    and 'off' when it is at or above it.  The decision is taken afresh at
    every tick from the current sample and state: the sample is not touched
    by the tick, and whatever an earlier tick's command did (any [env0],
    failing commands included), the following tick reaches the same
    state. *)
Theorem tick_follows_threshold :
  forall (env : Main.CommandEnv) (v : Vars),
    Bp.isReady v = true ->
    shutdownInProgress (state v) = false ->
    Main.vibrate_outcome env = Resolves ->
    Main.stop_outcome env = Resolves ->
    let v' := final (Main.processHeartRate env v) in
    (heartRate (state v) < Main.HR_THRESHOLD Main.CONFIG ->
     vibrationState (state v') = On) /\
    (heartRate (state v) >= Main.HR_THRESHOLD Main.CONFIG ->
     vibrationState (state v') = Off) /\
    heartRate (state v') = heartRate (state v) /\
    (forall env0 : Main.CommandEnv,
       vibrationState
         (state (final (Main.processHeartRate env
                          (final (Main.processHeartRate env0 v)))))
       = vibrationState (state v')).
Proof.
  intros env v Hr Hs Hv Ho v'.
  pose proof (tick_desired env v Hr Hs Hv Ho) as Hd. fold v' in Hd.
  unfold desired in Hd.
  repeat split.
  - intros Hlt. apply Z.ltb_lt in Hlt. now rewrite Hlt in Hd.
  - intros Hge. destruct (Z.ltb_spec (heartRate (state v)) (Main.HR_THRESHOLD Main.CONFIG)) as [H|H];
      [lia | exact Hd].
  - apply (tick_frame env v).
  - intros env0.
    destruct (tick_frame env0 v) as (Hc & Hdv & _ & Hh & Hsd & _).
    rewrite tick_desired; trivial.
    + subst v'. rewrite (tick_desired env v); trivial. now rewrite Hh.
    + destruct (isReady_inv v Hr) as (d & H1 & H2).
      unfold Bp.isReady, Bp.isReady_value. rewrite Hc, Hdv, H1, H2. reflexivity.
    + now rewrite Hsd.
Qed.

Lemma tick_follows_threshold_witness :
  vibrationState (state (final (Main.processHeartRate obeys (readyVars 95 Off)))) = On.
Proof.
  apply (tick_follows_threshold obeys (readyVars 95 Off)
           eq_refl eq_refl eq_refl eq_refl).
  reflexivity.
Defined.

(** A tick whose sample already agrees with the state does nothing. *)
Lemma tick_noop (env : Main.CommandEnv) (v : Vars) :
  vibrationState (state v) = desired (heartRate (state v)) ->
  Main.forget (Main.processHeartRate env v) = (v, []).
Proof.
  destruct env as [vo so].
  destruct v as [[[[|]]|] [d|] cs [hr vs cr [|]] bp]; unfold desired; cbn [state heartRate vibrationState];
    intros H; run; try reflexivity.
  rewrite geb_ltb. destruct (hr <? 100); subst vs; reflexivity.
Qed.

(** C5. Tick idempotence: for every N, N consecutive ticks over a sample
    whose desired state is the current [vibrationState] issue no device
    command (the trace is empty) and leave every variable as it was,
    whatever the device would have answered. *)
Theorem ticks_idempotent :
  forall (n : nat) (envs : nat -> Main.CommandEnv) (v : Vars),
    vibrationState (state v) = desired (heartRate (state v)) ->
    Main.ticks n envs v = (v, []) /\
    count isDeviceCommand (snd (Main.ticks n envs v)) = 0%nat.
Proof.
  intros n envs v H.
  assert (E : Main.ticks n envs v = (v, [])).
  { revert envs. induction n as [|n IH]; intros envs; cbn [Main.ticks].
    - reflexivity.
    - rewrite (tick_noop (envs O) v H). rewrite IH. reflexivity. }
  rewrite E. split; reflexivity.
Qed.

Lemma ticks_idempotent_witness :
  Main.ticks 7 (fun _ => obeys) (readyVars 120 Off) = (readyVars 120 Off, []) /\
  count isDeviceCommand (snd (Main.ticks 7 (fun _ => obeys) (readyVars 120 Off))) = 0%nat.
Proof.
  apply (ticks_idempotent 7 (fun _ => obeys) (readyVars 120 Off)).
  reflexivity.
Defined.


(* ===================================================================== *)
(** ** bp.js: the four ways [connectToButtplug] goes *)
(* ===================================================================== *)

Section Connect.
Variables (url : string) (timeoutMs : Z) (env : Bp.ConnectEnv) (v : Vars).

Lemma connect_busy :
  isConnecting (connectionStatus v) = true ->
  Bp.connectToButtplug url timeoutMs env v
  = (Throw "Connection already in progress", v, []).
Proof.
  intros H. unfold Bp.connectToButtplug, bind, read. rewrite H. reflexivity.
Qed.

Lemma connect_already :
  isConnecting (connectionStatus v) = false ->
  Bp.clientConnected v = true ->
  Bp.connectToButtplug url timeoutMs env v = (Ok tt, v, []).
Proof.
  intros H1 H2. unfold Bp.connectToButtplug, bind, read. rewrite H1. cbn.
  rewrite H2. reflexivity.
Qed.

Lemma connect_accepted :
  isConnecting (connectionStatus v) = false ->
  Bp.clientConnected v = false ->
  rejects env = false ->
  exists d t,
    Bp.discovery env = Some d /\
    Bp.connectToButtplug url timeoutMs env v = (Ok tt, connectedVars d v, t) /\
    forallb (inFlight v) (observed t) = true /\
    count isClientConnect t = 1%nat /\
    existsb Main.isSetTimeout t = false.
Proof.
  intros Hi Hc Hr.
  destruct env as [[|e1] [|e2] [dv|] cl]; try discriminate Hr.
  destruct v as [c dd [ic icd le] st bp]. cbn in Hi. subst ic.
  exists dv. eexists. split; [reflexivity|].
  destruct c as [[[|]]|]; try discriminate Hc; destruct icd;
    (split; [reflexivity|]); repeat split; reflexivity.
Qed.

Lemma connect_rejected :
  isConnecting (connectionStatus v) = false ->
  Bp.clientConnected v = false ->
  rejects env = true ->
  exists e t,
    Bp.connectToButtplug url timeoutMs env v = (Throw e, idleVars e v, t) /\
    forallb (inFlight v) (observed t) = true /\
    count isClientConnect t = 1%nat /\
    existsb Main.isSetTimeout t = false.
Proof.
  intros Hi Hc Hr.
  destruct v as [c dd [ic icd le] st bp]. cbn in Hi. subst ic.
  destruct c as [[[|]]|]; try discriminate Hc;
    destruct env as [[|e1] [|e2] [dv|] [[|e3] [|e4]]]; try discriminate Hr;
    destruct dd, icd;
    (do 2 eexists; split; [reflexivity|]; repeat split; reflexivity).
Qed.

(** The four cases together: how the call ends, in which variables, and
    what it never does. *)
Lemma connect_cases :
  let o := Bp.connectToButtplug url timeoutMs env v in
  (o = (Throw "Connection already in progress", v, []) /\
   isConnecting (connectionStatus v) = true)
  \/ (o = (Ok tt, v, []) /\ isConnecting (connectionStatus v) = false /\
      Bp.clientConnected v = true)
  \/ (exists d, result o = Ok tt /\ final o = connectedVars d v /\
      isConnecting (connectionStatus v) = false /\ Bp.clientConnected v = false /\
      rejects env = false)
  \/ (exists e, result o = Throw e /\ final o = idleVars e v /\
      isConnecting (connectionStatus v) = false /\ Bp.clientConnected v = false /\
      rejects env = true).
Proof.
  intros o. subst o.
  destruct (isConnecting (connectionStatus v)) eqn:Hi.
  { left. now rewrite connect_busy. }
  destruct (Bp.clientConnected v) eqn:Hc.
  { right; left. now rewrite connect_already. }
  destruct (rejects env) eqn:Hr.
  - destruct (connect_rejected Hi Hc Hr) as (e & t & E & _).
    right; right; right. exists e. rewrite E. auto.
  - destruct (connect_accepted Hi Hc Hr) as (d & t & _ & E & _).
    right; right; left. exists d. rewrite E. auto.
Qed.

End Connect.

(* ===================================================================== *)
(** ** Connection retries *)
(* ===================================================================== *)

Lemma count_app (p : Event -> bool) (a b : list Event) :
  count p (a ++ b) = (count p a + count p b)%nat.
Proof. unfold count. now rewrite filter_app, length_app. Qed.

(** [connectWithRetry] in terms of what [connectToButtplug] did. *)
Lemma connectWithRetry_eq (env : Bp.ConnectEnv) (v : Vars) :
  shutdownInProgress (state v) = false ->
  Main.connectWithRetry env v
  = match Bp.connectToButtplug (Main.BUTTPLUG_URL Main.CONFIG) 10000 env v with
    | (Ok _, v1, t1) => (Ok tt, set_connectRetries 0 v1, t1)
    | (Throw _, v1, t1) =>
        (Ok tt, set_connectRetries (connectRetries (state v1) + 1) v1,
         t1 ++ (if connectRetries (state v1) + 1 <? Main.CONNECTION_RETRIES Main.CONFIG
                then [SetTimeout (Main.RETRY_DELAY_MS Main.CONFIG)] else []))
    | (Exit c, v1, t1) => (Exit c, v1, t1)
    | (Pending, v1, t1) => (Pending, v1, t1)
    end.
Proof.
  intros Hs. unfold Main.connectWithRetry, tryCatch, bind, read. rewrite Hs.
  cbn -[Bp.connectToButtplug Z.ltb Z.add].
  destruct (Bp.connectToButtplug _ _ env v) as [[[[]|e|c|] v1] t1];
    cbn -[Z.ltb Z.add]; rewrite ?app_nil_r; try reflexivity.
  destruct (connectRetries (state v1) + 1 <? 5); cbn; rewrite ?app_nil_r; reflexivity.
Qed.

Lemma existsb_app_false (p : Event -> bool) (a b : list Event) :
  existsb p a = false -> existsb p (a ++ b) = existsb p b.
Proof. intros H. now rewrite existsb_app, H. Qed.

(** One invocation of [connectWithRetry] that finds the module idle and
    whose attempt is let down. *)
Lemma retry_step (env : Bp.ConnectEnv) (v : Vars) :
  shutdownInProgress (state v) = false ->
  Bp.clientConnected v = false ->
  isConnecting (connectionStatus v) = false ->
  rejects env = true ->
  let o := Main.connectWithRetry env v in
  connectRetries (state (final o)) = connectRetries (state v) + 1 /\
  shutdownInProgress (state (final o)) = false /\
  Bp.clientConnected (final o) = false /\
  isConnecting (connectionStatus (final o)) = false /\
  count isClientConnect (events o) = 1%nat /\
  existsb Main.isSetTimeout (events o)
  = (connectRetries (state v) + 1 <? Main.CONNECTION_RETRIES Main.CONFIG) /\
  count Main.isSetTimeout (events o)
  = (if connectRetries (state v) + 1 <? Main.CONNECTION_RETRIES Main.CONFIG
     then 1%nat else 0%nat).
Proof.
  intros Hs Hc Hi Hr o. subst o. rewrite (connectWithRetry_eq env v Hs).
  destruct (connect_rejected (Main.BUTTPLUG_URL Main.CONFIG) 10000 env v Hi Hc Hr)
    as (e & t & E & _ & Hcc & Hst).
  rewrite E. unfold final, events. cbn -[Z.ltb Z.add count existsb].
  rewrite count_app, Hcc, (existsb_app_false _ _ _ Hst). rewrite count_app.
  assert (Hz : count Main.isSetTimeout t = 0%nat).
  { unfold count. clear -Hst. induction t as [|x t IH]; [reflexivity|].
    cbn in *. destruct (Main.isSetTimeout x); [discriminate|]. now apply IH. }
  rewrite Hz.
  destruct (connectRetries (state v) + 1 <? 5); cbn; repeat split; auto.
Qed.

(** The chain of retries from a counter below the maximum. *)
Lemma retry_chain_from (fuel : nat) :
  forall (envs : nat -> Bp.ConnectEnv) (v : Vars),
    0 <= connectRetries (state v) < Main.CONNECTION_RETRIES Main.CONFIG ->
    (Z.to_nat (Main.CONNECTION_RETRIES Main.CONFIG - connectRetries (state v)) <= fuel)%nat ->
    shutdownInProgress (state v) = false ->
    Bp.clientConnected v = false ->
    isConnecting (connectionStatus v) = false ->
    (forall i, rejects (envs i) = true) ->
    exists v' t,
      Main.retryChain fuel envs v
      = Some (Z.to_nat (Main.CONNECTION_RETRIES Main.CONFIG - connectRetries (state v)), v', t) /\
      connectRetries (state v') = Main.CONNECTION_RETRIES Main.CONFIG /\
      count isClientConnect t
      = Z.to_nat (Main.CONNECTION_RETRIES Main.CONFIG - connectRetries (state v)) /\
      S (count Main.isSetTimeout t)
      = Z.to_nat (Main.CONNECTION_RETRIES Main.CONFIG - connectRetries (state v)).
Proof.
  change (Main.CONNECTION_RETRIES Main.CONFIG) with 5.
  induction fuel as [|fuel IH]; intros envs v Hr Hf Hs Hc Hi Hrej.
  - lia.
  - cbn [Main.retryChain]. unfold Main.forget.
    destruct (retry_step (envs O) v Hs Hc Hi (Hrej O))
      as (H1 & H2 & H3 & H4 & H5 & H6 & H7).
    change (Main.CONNECTION_RETRIES Main.CONFIG) with 5 in H6, H7.
    rewrite H6.
    destruct (Z.ltb_spec (connectRetries (state v) + 1) 5) as [Hlt|Hge].
    + destruct (IH (fun i => envs (S i)) (final (Main.connectWithRetry (envs O) v)))
        as (v' & t & E & Hn & Hcc & Hst); trivial; try (rewrite H1; lia).
      rewrite E, H1.
      exists v', (events (Main.connectWithRetry (envs O) v) ++ t).
      rewrite !count_app, H5, H7, Hcc. rewrite H1 in Hst.
      repeat split; trivial; try lia.
      f_equal. f_equal. f_equal. lia.
    + exists (final (Main.connectWithRetry (envs O) v)),
        (events (Main.connectWithRetry (envs O) v)).
      rewrite H5, H7.
      replace (5 - connectRetries (state v)) with 1 by lia.
      repeat split; trivial; lia.
Qed.

(** C7. Retry bound.  Started with the counter at zero, no shutdown in
    progress and no connection, a chain of [connectWithRetry] invocations
    whose every attempt is let down makes exactly [CONNECTION_RETRIES]
    attempts ([CONNECTION_RETRIES] invocations, as many [client.connect]
    calls, one timer fewer) and then stops with no timer set: any fuel of
    at least [CONNECTION_RETRIES] sees the chain end.  Each failed attempt
    adds one to the counter and sets the timer exactly when the new count
    is below [CONNECTION_RETRIES]; a successful attempt puts the counter
    back to zero and sets no timer. *)
Theorem retry_bound :
  forall (envs : nat -> Bp.ConnectEnv) (v : Vars) (fuel : nat),
    shutdownInProgress (state v) = false ->
    connectRetries (state v) = 0 ->
    Bp.clientConnected v = false ->
    isConnecting (connectionStatus v) = false ->
    (forall i, rejects (envs i) = true) ->
    (Z.to_nat (Main.CONNECTION_RETRIES Main.CONFIG) <= fuel)%nat ->
    (exists v' t,
       Main.retryChain fuel envs v
       = Some (Z.to_nat (Main.CONNECTION_RETRIES Main.CONFIG), v', t) /\
       connectRetries (state v') = Main.CONNECTION_RETRIES Main.CONFIG /\
       count isClientConnect t = Z.to_nat (Main.CONNECTION_RETRIES Main.CONFIG) /\
       S (count Main.isSetTimeout t) = Z.to_nat (Main.CONNECTION_RETRIES Main.CONFIG)) /\
    (forall (env : Bp.ConnectEnv) (w : Vars) (e : Error),
       shutdownInProgress (state w) = false ->
       result (Bp.connectToButtplug (Main.BUTTPLUG_URL Main.CONFIG) 10000 env w) = Throw e ->
       connectRetries (state (final (Main.connectWithRetry env w)))
       = connectRetries (state w) + 1 /\
       existsb Main.isSetTimeout (events (Main.connectWithRetry env w))
       = (connectRetries (state w) + 1 <? Main.CONNECTION_RETRIES Main.CONFIG)) /\
    (forall (env : Bp.ConnectEnv) (w : Vars),
       shutdownInProgress (state w) = false ->
       result (Bp.connectToButtplug (Main.BUTTPLUG_URL Main.CONFIG) 10000 env w) = Ok tt ->
       connectRetries (state (final (Main.connectWithRetry env w))) = 0 /\
       existsb Main.isSetTimeout (events (Main.connectWithRetry env w)) = false).
Proof.
  intros envs v fuel Hs H0 Hc Hi Hrej Hf. split; [|split].
  - destruct (retry_chain_from fuel envs v) as (v' & t & E & H1 & H2 & H3);
      trivial; rewrite ?H0; try (cbn; lia).
    + now rewrite Z.sub_0_r.
    + rewrite H0, Z.sub_0_r in *. now exists v', t.
  - intros env w e Hw Hko. rewrite (connectWithRetry_eq env w Hw).
    destruct (connect_cases (Main.BUTTPLUG_URL Main.CONFIG) 10000 env w)
      as [[E Hb]|[[E _]|[(d & R & _)|(e' & R & F & Hi' & Hc' & Hr')]]];
      try (rewrite E in Hko; discriminate); try (rewrite R in Hko; discriminate).
    + rewrite E. unfold final, events. cbn -[Z.ltb Z.add].
      split; [reflexivity|]. destruct (connectRetries (state w) + 1 <? 5); reflexivity.
    + destruct (connect_rejected (Main.BUTTPLUG_URL Main.CONFIG) 10000 env w Hi' Hc' Hr')
        as (e2 & t & E & _ & _ & Hst).
      rewrite E. unfold final, events. cbn -[Z.ltb Z.add existsb].
      rewrite (existsb_app_false _ _ _ Hst).
      split; [reflexivity|]. destruct (connectRetries (state w) + 1 <? 5); reflexivity.
  - intros env w Hw Hok. rewrite (connectWithRetry_eq env w Hw).
    destruct (connect_cases (Main.BUTTPLUG_URL Main.CONFIG) 10000 env w)
      as [[E Hb]|[[E _]|[(d & R & F & Hi' & Hc' & Hr')|(e' & R & _)]]];
      try (rewrite E in Hok; discriminate); try (rewrite R in Hok; discriminate).
    + rewrite E. split; reflexivity.
    + destruct (connect_accepted (Main.BUTTPLUG_URL Main.CONFIG) 10000 env w Hi' Hc' Hr')
        as (d2 & t & _ & E & _ & _ & Hst).
      rewrite E. unfold final, events. cbn -[existsb]. split; [reflexivity|exact Hst].
Qed.

(* ===================================================================== *)
(** ** Shutdown *)
(* ===================================================================== *)

(** A first call of [gracefulShutdown], step by step. *)
Lemma shutdown_run (env : Main.ShutdownEnv) (v : Vars) :
  shutdownInProgress (state v) = false ->
  let o := Main.gracefulShutdown env v in
  result o
  = (if offFails env v then Exit 1
     else if closePending env then Pending
     else Exit (if closeFails env || killFails env v then 1 else 0)) /\
  count isClearInterval (events o) = 1%nat /\
  count isClientDisconnect (events o)
  = (if offFails env v || negb (Bp.clientConnected v) then 0%nat else 1%nat) /\
  client (final o) = (if offFails env v then client v else None) /\
  count isWssClose (events o) = (if offFails env v then 0%nat else 1%nat) /\
  count isProcKill (events o)
  = (if offFails env v || closePending env || closeFails env || negb (buttplugProc v)
     then 0%nat else 1%nat) /\
  count isProcessExit (events o)
  = (if negb (offFails env v) && closePending env then 0%nat else 1%nat) /\
  shutdownInProgress (state (final o)) = true /\
  forallb (fun s => shutdownInProgress (state s)) (observed (events o)) = true.
Proof.
  intros Hs.
  destruct env as [[|e1] [[|e2] [|e3]] [[|e4]|] [|e5]];
    destruct v as [[[[|]]|] [d|] cs [hr [|] cr [|]] [|]]; try discriminate Hs;
    repeat split; reflexivity.
Qed.

(** A later call of [gracefulShutdown]. *)
Lemma shutdown_again (env : Main.ShutdownEnv) (v : Vars) :
  shutdownInProgress (state v) = true ->
  Main.gracefulShutdown env v = (Ok tt, v, []).
Proof.
  intros H. unfold Main.gracefulShutdown, bind, read. rewrite H. reflexivity.
Qed.

Lemma calm_count (t : list Event) : Forall calm t -> count isTeardown t = 0%nat.
Proof.
  unfold count, calm. induction 1 as [|e t He _ IH]; cbn; [reflexivity|].
  now rewrite He.
Qed.

Lemma quiet_counts (t : list Event) :
  count isTeardown t = 0%nat ->
  count isClearInterval t = 0%nat /\ count isWssClose t = 0%nat /\
  count isProcKill t = 0%nat /\ count isProcessExit t = 0%nat.
Proof.
  unfold count. induction t as [|e t IH]; cbn; [auto|].
  destruct e; cbn; try discriminate; exact IH.
Qed.

Lemma quiet_once (t : list Event) : count isTeardown t = 0%nat -> once t.
Proof.
  intros H. destruct (quiet_counts t H) as (H1 & H2 & H3 & H4).
  unfold once. lia.
Qed.

Lemma once_app_l (a b : list Event) :
  count isTeardown a = 0%nat -> once b -> once (a ++ b).
Proof.
  intros Ha Hb. destruct (quiet_counts a Ha) as (H1 & H2 & H3 & H4).
  unfold once in *. rewrite !count_app. lia.
Qed.

Lemma once_app_r (a b : list Event) :
  once a -> count isTeardown b = 0%nat -> once (a ++ b).
Proof.
  intros Ha Hb. destruct (quiet_counts b Hb) as (H1 & H2 & H3 & H4).
  unfold once in *. rewrite !count_app. lia.
Qed.

(** One callback: the latch stays, nothing is torn down while it is set,
    and a callback that tears down does it once and leaves the latch set. *)
Lemma dispatch_latch (cb : Main.Callback) (v : Vars) :
  (shutdownInProgress (state v) = true ->
   shutdownInProgress (state (fst (Main.dispatch cb v))) = true /\
   count isTeardown (snd (Main.dispatch cb v)) = 0%nat) /\
  (count isTeardown (snd (Main.dispatch cb v)) = 0%nat \/
   (shutdownInProgress (state (fst (Main.dispatch cb v))) = true /\
    once (snd (Main.dispatch cb v)))).
Proof.
  assert (Quiet : forall (A : Type) (m : M A),
             preserves sameLatch calm m ->
             sameLatch v (final (m v)) /\ count isTeardown (events (m v)) = 0%nat).
  { intros A m Hm. destruct (Hm v) as [H1 H2]. split; [exact H1|now apply calm_count]. }
  assert (Weaken : forall (A : Type) (m : M A),
             preserves sameLatchAndSample calm m -> preserves sameLatch calm m).
  { intros A m Hm w. destruct (Hm w) as [[H1 _] H2]. now split. }
  assert (Down : forall env w,
             sameLatch v w ->
             (shutdownInProgress (state v) = true ->
              shutdownInProgress (state (final (Main.gracefulShutdown env w))) = true /\
              count isTeardown (events (Main.gracefulShutdown env w)) = 0%nat) /\
             (count isTeardown (events (Main.gracefulShutdown env w)) = 0%nat \/
              (shutdownInProgress (state (final (Main.gracefulShutdown env w))) = true /\
               once (events (Main.gracefulShutdown env w))))).
  { intros env w Hw. unfold sameLatch in Hw.
    destruct (shutdownInProgress (state w)) eqn:Ew.
    - rewrite (shutdown_again env w Ew). cbn. rewrite Ew. auto.
    - split; [intros Hv; congruence|]. right.
      destruct (shutdown_run env w Ew) as (_ & H1 & _ & _ & H2 & H3 & H4 & H5 & _).
      split; [exact H5|]. unfold once. rewrite H1, H2, H3, H4.
      repeat split; try lia;
        repeat match goal with |- context [if ?b then _ else _] => destruct b end; lia. }
  destruct cb as [env|data env|action env|env|env]; cbn [Main.dispatch].
  - destruct (Quiet _ _ (Weaken _ _ (processHeartRate_keeps env))) as [H1 H2].
    unfold Main.forget; cbn [fst snd]. unfold sameLatch in H1.
    split; [intros Hv; split; congruence | now left].
  - destruct (Quiet _ _ (onMessage_keeps data)) as [H1 H2].
    unfold final, events in H1, H2.
    destruct (Main.onMessage data v) as [[[[]|e|c|] v1] t1]; cbn [fst snd] in *;
      try (unfold Main.forget, final, events; cbn [fst snd]; unfold sameLatch in H1;
           split; [intros Hv; split; congruence | now left]).
    destruct (Down env v1 H1) as [D1 D2].
    unfold Main.forget. cbn [fst snd].
    split.
    + intros Hv. destruct (D1 Hv) as [D3 D4]. split; [exact D3|].
      now rewrite count_app, H2, D4.
    + destruct D2 as [D2|[D2 D3]].
      * left. now rewrite count_app, H2, D2.
      * right. split; [exact D2|]. now apply once_app_l.
  - destruct (Quiet _ _ (Weaken _ _ (handleUIControl_keeps action env))) as [H1 H2].
    unfold Main.forget; cbn [fst snd]. unfold sameLatch in H1.
    split; [intros Hv; split; congruence | now left].
  - destruct (Quiet _ _ (Weaken _ _ (connectWithRetry_keeps env))) as [H1 H2].
    unfold Main.forget; cbn [fst snd]. unfold sameLatch in H1.
    split; [intros Hv; split; congruence | now left].
  - unfold Main.forget; cbn [fst snd]. apply Down. reflexivity.
Qed.

(** Any sequence of callbacks. *)
Lemma dispatchAll_latch (cbs : list Main.Callback) :
  forall v : Vars,
    (shutdownInProgress (state v) = true ->
     shutdownInProgress (state (fst (Main.dispatchAll cbs v))) = true /\
     count isTeardown (snd (Main.dispatchAll cbs v)) = 0%nat) /\
    once (snd (Main.dispatchAll cbs v)).
Proof.
  induction cbs as [|cb rest IH]; intros v; cbn [Main.dispatchAll].
  - cbn. split; [auto|]. unfold once, count. cbn. lia.
  - destruct (dispatch_latch cb v) as [D1 D2].
    destruct (Main.dispatch cb v) as [v1 t1]. cbn [fst snd] in *.
    destruct (IH v1) as [I1 I2].
    destruct (Main.dispatchAll rest v1) as [v2 t2]. cbn [fst snd] in *.
    split.
    + intros Hv. destruct (D1 Hv) as [D3 D4]. destruct (I1 D3) as [I3 I4].
      split; [exact I3|]. now rewrite count_app, D4, I4.
    + destruct D2 as [D2|[D2 D3]].
      * now apply once_app_l.
      * destruct (I1 D2) as [_ I4]. now apply once_app_r.
Qed.

(** C2 (as the code has it).  A first call of [gracefulShutdown] stops the
    tick timer and then runs its steps inside a single [try]: the first step
    that throws ([off()], closing the listener, killing the server process)
    ends the sequence, so that no later step is attempted, and the process
    exits with code 1.  What fails inside the disconnect step
    ([device.stop()], [client.disconnect()]) is caught by [safeDisconnect]:
    it neither stops the sequence nor changes the exit code, which is 0 when
    no step throws.  After the disconnect step the listener is closed and
    the function waits for the close callback: as long as that callback is
    not called the function stays suspended there, the server process is
    not killed and the process does not exit. *)
Theorem shutdown_stops_at_first_failure :
  forall (env : Main.ShutdownEnv) (v : Vars),
    shutdownInProgress (state v) = false ->
    let o := Main.gracefulShutdown env v in
    result o
    = (if offFails env v then Exit 1
       else if closePending env then Pending
       else Exit (if closeFails env || killFails env v then 1 else 0)) /\
    count isClearInterval (events o) = 1%nat /\
    count isClientDisconnect (events o)
    = (if offFails env v || negb (Bp.clientConnected v) then 0%nat else 1%nat) /\
    client (final o) = (if offFails env v then client v else None) /\
    count isWssClose (events o) = (if offFails env v then 0%nat else 1%nat) /\
    count isProcKill (events o)
    = (if offFails env v || closePending env || closeFails env || negb (buttplugProc v)
       then 0%nat else 1%nat) /\
    count isProcessExit (events o)
    = (if negb (offFails env v) && closePending env then 0%nat else 1%nat).
Proof.
  intros env v Hs o.
  destruct (shutdown_run env v Hs) as (H1 & H2 & H3 & H4 & H5 & H6 & H7 & _).
  repeat split; assumption.
Qed.

Lemma shutdown_stops_at_first_failure_witness :
  result (Main.gracefulShutdown stuckDevice (readyVars 95 On)) = Exit 1 /\
  count isWssClose (events (Main.gracefulShutdown stuckDevice (readyVars 95 On))) = 0%nat.
Proof.
  destruct (shutdown_stops_at_first_failure stuckDevice (readyVars 95 On) eq_refl)
    as (H1 & _ & _ & _ & H5 & _).
  split; [exact H1 | exact H5].
Defined.

(** C2 as stated fails.  When [off()] throws during shutdown the process
    does exit with code 1, but the actuator connection is not torn down, the
    listener is not closed and the server process is not killed; and when
    the disconnect itself fails the exit code is 0, not 1. *)
Lemma shutdown_skips_remaining_steps :
  result (Main.gracefulShutdown stuckDevice (readyVars 95 On)) = Exit 1 /\
  count isDeviceCommand (events (Main.gracefulShutdown stuckDevice (readyVars 95 On))) = 1%nat /\
  count isClientDisconnect (events (Main.gracefulShutdown stuckDevice (readyVars 95 On))) = 0%nat /\
  count isWssClose (events (Main.gracefulShutdown stuckDevice (readyVars 95 On))) = 0%nat /\
  count isProcKill (events (Main.gracefulShutdown stuckDevice (readyVars 95 On))) = 0%nat /\
  Bp.isReady (final (Main.gracefulShutdown stuckDevice (readyVars 95 On))) = true /\
  result (Main.gracefulShutdown brokenLink (readyVars 120 Off)) = Exit 0.
Proof. repeat split; reflexivity. Qed.

(** C4.  The latch [shutdownInProgress] is one-way: through any sequence of
    callbacks (ticks, messages, manual controls, connection attempts,
    shutdown triggers) it stays set once it is set, and nothing is torn down
    while it is set; a call of [gracefulShutdown] that finds it set returns
    at once, with no event and no change; a call that finds it clear sets it
    before its first suspension, so that a trigger arriving while the
    teardown is suspended finds it set; and over any sequence of callbacks
    each teardown action (clearing the timer, closing the listener, killing
    the server process, exiting) happens at most once. *)
Theorem shutdown_runs_once :
  forall (env : Main.ShutdownEnv) (cbs : list Main.Callback) (v : Vars),
    (shutdownInProgress (state v) = true ->
     shutdownInProgress (state (fst (Main.dispatchAll cbs v))) = true /\
     count isTeardown (snd (Main.dispatchAll cbs v)) = 0%nat) /\
    (shutdownInProgress (state v) = true ->
     Main.gracefulShutdown env v = (Ok tt, v, [])) /\
    shutdownInProgress (state (final (Main.gracefulShutdown env v))) = true /\
    forallb (fun s => shutdownInProgress (state s))
      (observed (events (Main.gracefulShutdown env v))) = true /\
    once (snd (Main.dispatchAll cbs v)).
Proof.
  intros env cbs v.
  destruct (dispatchAll_latch cbs v) as [H1 H2].
  split; [exact H1|]. split; [apply shutdown_again|].
  destruct (shutdownInProgress (state v)) eqn:Hs.
  - rewrite (shutdown_again env v Hs). cbn. auto.
  - destruct (shutdown_run env v Hs) as (_ & _ & _ & _ & _ & _ & _ & H8 & H9). auto.
Qed.

Lemma shutdown_runs_once_witness :
  once (snd (Main.dispatchAll
               [Main.Shutdown smoothShutdown; Main.Tick obeys; Main.Shutdown smoothShutdown]
               (readyVars 95 On))) /\
  count isClearInterval
    (snd (Main.dispatchAll
            [Main.Shutdown smoothShutdown; Main.Tick obeys; Main.Shutdown smoothShutdown]
            (readyVars 95 On))) = 1%nat.
Proof.
  split; [|reflexivity].
  apply (shutdown_runs_once smoothShutdown
           [Main.Shutdown smoothShutdown; Main.Tick obeys; Main.Shutdown smoothShutdown]
           (readyVars 95 On)).
Defined.

(* ===================================================================== *)
(** ** The protocol handler *)
(* ===================================================================== *)

Lemma double_nonneg (m : Z) : 0 <= m -> 0 <= Js.double m.
Proof.
  intros Hm. unfold Js.double. cbv zeta.
  apply Z.mul_nonneg_nonneg; [now apply Z.sgn_nonneg|].
  assert (Hinf : 0 <= Js.infinity) by (unfold Js.infinity; apply Z.pow_nonneg; lia).
  match goal with |- 0 <= (if ?c then _ else _) => destruct c; [exact Hinf|] end.
  destruct (_ <=? 53); [apply Z.abs_nonneg|].
  apply Z.shiftl_nonneg.
  assert (0 <= Z.shiftr (Z.abs m) (Z.log2 (Z.abs m) + 1 - 53))
    by (apply Z.shiftr_nonneg; apply Z.abs_nonneg).
  destruct (_ || _); lia.
Qed.

Lemma double_safe (m : Z) : Z.abs m < 2 ^ 53 -> Js.double m = m.
Proof.
  intros H. unfold Js.double. cbv zeta.
  assert (Hb : (Z.log2 (Z.abs m) + 1 <=? 53) = true).
  { apply Z.leb_le. destruct (Z.eq_dec (Z.abs m) 0) as [E|E].
    - rewrite E. cbn. lia.
    - assert (Z.log2 (Z.abs m) < 53) by (apply Z.log2_lt_pow2; lia). lia. }
  rewrite Hb.
  assert (Hi : (Js.infinity <=? Z.abs m) = false).
  { apply Z.leb_gt. eapply Z.lt_trans; [exact H|].
    unfold Js.infinity. apply Z.pow_lt_mono_r; lia. }
  rewrite Hi. lia.
Qed.

Ltac msg_unfold :=
  unfold Main.onMessage, Main.updateUIStatus, Main.prop, Main.toString, bind, ret,
    throw, read, write, emit, final, events, result in *.

Ltac msg_simpl :=
  cbn -[Js.parseInt10 Js.toString Js.truthy Js.lookup Main.requestResponse
        Main.identifiedMessage set_heartRate isResponse String.eqb Z.eqb] in *.

Ltac quiet_case :=
  right; split; [reflexivity|]; do 2 eexists;
  split; [reflexivity|]; split; [reflexivity|]; split; [reflexivity|];
  intros; (reflexivity || discriminate).

Ltac field k f :=
  destruct (Js.lookup k f) as [[| | | | |?]|]; msg_simpl; try quiet_case.

(** The handler either stores the sample of an accepted update, notifies
    the dashboard and answers, or leaves the variables alone and notifies
    nobody; it never suspends, and when it throws it has sent nothing. *)
Lemma onMessage_cases (data : Main.Frame) (v : Vars) :
  (exists hr w,
     acceptedSample data = Some hr /\
     Main.onMessage data v
     = (Ok tt, set_heartRate hr v,
        [UpdateUIStatus hr (vibrationState (state v)); WsSend w])) \/
  (acceptedSample data = None /\
   exists r t, Main.onMessage data v = (r, v, t) /\
               filter isStatusUpdate t = [] /\
               observed t = [] /\
               (forall e, r = Throw e -> t = [])).
Proof.
  destruct data as [|msg]; [quiet_case|].
  destruct msg as [| | | | |fields]; try quiet_case.
  unfold acceptedSample, acceptedText, Js.strictEqNum, Js.strictEqStr.
  msg_unfold. msg_simpl.
  destruct (Js.lookup "op" fields) as [[| |n| | |]|]; msg_simpl.
  all: try (destruct (Js.lookup "d" fields) as [[| | | | |?]|]; quiet_case).
  destruct (Z.eqb_spec n 1) as [->|_]; msg_simpl.
  { destruct (Js.lookup "d" fields) as [[| | | | |?]|]; quiet_case. }
  destruct (n =? 6); msg_simpl.
  2: { destruct (Js.lookup "d" fields) as [[| | | | |?]|]; quiet_case. }
  destruct (Js.lookup "d" fields) as [[| | | | |dfields]|]; msg_simpl; try quiet_case.
  destruct (Js.lookup "requestType" dfields) as [[| | |rt| |]|]; msg_simpl; try quiet_case.
  destruct (String.eqb rt "SetInputSettings"); msg_simpl; [|quiet_case].
  destruct (Js.lookup "requestData" dfields) as [[| | | | |rdfields]|]; msg_simpl;
    try quiet_case.
  destruct (Js.lookup "inputSettings" rdfields) as [[| | | | |isfields]|]; msg_simpl.
  all: destruct (Js.lookup "inputName" rdfields) as [[| | |name| |]|]; msg_simpl;
    try quiet_case.
  all: destruct (String.eqb name "heartrate"); msg_simpl; try quiet_case.
  destruct (Js.truthy (Js.lookup "text" isfields)); msg_simpl; [|quiet_case].
  destruct (Js.toString (Js.lookup "text" isfields)) as [s|]; msg_simpl; [|quiet_case].
  destruct (Js.parseInt10 s) as [hr|]; msg_simpl; [|quiet_case].
  left. do 2 eexists. split; reflexivity.
Qed.

(** The handler either leaves the variables alone or overwrites the
    sample with what [parseInt] makes of the text of an accepted update. *)
Lemma onMessage_sample (data : Main.Frame) (v : Vars) :
  final (Main.onMessage data v)
  = match acceptedSample data with
    | Some hr => set_heartRate hr v
    | None => v
    end.
Proof.
  destruct (onMessage_cases data v) as [(hr & w & Ea & E)|(Ea & r & t & E & _)];
    rewrite Ea, E; reflexivity.
Qed.

(** When the handler throws, nothing was sent and nothing was written. *)
Lemma onMessage_throw (data : Main.Frame) (v : Vars) (e : Error) :
  result (Main.onMessage data v) = Throw e ->
  Main.onMessage data v = (Throw e, v, []).
Proof.
  destruct (onMessage_cases data v) as [(hr & w & _ & E)|(_ & r & t & E & _ & _ & Ht)];
    rewrite E; unfold result; cbn [fst]; intros H; [discriminate H|].
  subst r. now rewrite (Ht e eq_refl).
Qed.

Lemma digitValue_nonneg (c : ascii) (d : Z) : Js.digitValue c = Some d -> 0 <= d.
Proof.
  unfold Js.digitValue.
  destruct (Nat.leb 48 (nat_of_ascii c)) eqn:E; cbn; [|discriminate].
  destruct (Nat.leb (nat_of_ascii c) 57); [|discriminate].
  intros [= <-]. apply Nat.leb_le in E.
  remember (nat_of_ascii c) as n. clear Heqn. lia.
Qed.

Lemma digits_nonneg (s : string) :
  forall (acc : option Z) (m : Z),
    (forall a, acc = Some a -> 0 <= a) -> Js.digits s acc = Some m -> 0 <= m.
Proof.
  induction s as [|c s IH]; intros acc m Hacc; cbn [Js.digits].
  - apply Hacc.
  - destruct (Js.digitValue c) as [d|] eqn:Ed; [|apply Hacc].
    apply IH. intros a Ha. apply digitValue_nonneg in Ed.
    assert (Hm : 0 <= match acc with Some a1 => a1 | None => 0 end).
    { destruct acc as [a0|]; [now apply Hacc | lia]. }
    assert (a = 10 * match acc with Some a1 => a1 | None => 0 end + d) by congruence.
    lia.
Qed.

(** [parseInt] gives a negative number only to a text with a minus sign
    in front. *)
Lemma parseInt10_sign (s : string) (z : Z) :
  Js.parseInt10 s = Some z -> Js.leadingMinus s = false -> 0 <= z.
Proof.
  unfold Js.parseInt10, Js.leadingMinus.
  destruct (Js.trimStart s) as [|c r].
  - cbn. discriminate.
  - destruct c as [[|] [|] [|] [|] [|] [|] [|] [|]];
      try (intros _ H; discriminate H);
      match goal with
      | |- context [Js.digits ?body None] =>
          destruct (Js.digits body None) as [m|] eqn:Em
      end; try discriminate;
      intros H _;
      apply digits_nonneg in Em; try discriminate;
      assert (Hz : z = Js.double (1 * m)) by congruence;
      rewrite Hz; apply double_nonneg; lia.
Qed.

Ltac req_simpl :=
  cbn -[Js.getProp Js.getPropOpt Js.parseInt10 Js.toString Js.strictEqStr
        Js.truthy Js.lookup Main.requestResponse set_heartRate isResponse] in *.

Lemma isResponse_requestResponse (requestType requestId : Js.value) :
  isResponse (WsSend (Main.requestResponse requestType requestId)) = true.
Proof. reflexivity. Qed.

(** C3 (as the code has it).  A [Request] (op 6) is answered according to
    its request type.  When the type is ['SetInputSettings'] and
    [requestData] can be destructured (it is neither missing nor null), the
    handler returns normally and sends exactly one [RequestResponse],
    carrying the request's type, its [requestId] as it came (left out of the
    response when the request had none) and the success status, whatever
    the field name and whether or not the text parsed, provided the text of
    a 'heartrate' update can be converted to a string for [parseInt] to
    read.  A request of any other type gets no response and changes
    nothing, with or without a request id. *)
Theorem request_response :
  forall (msg : Js.json) (d requestType requestId : Js.value) (v : Vars),
    Js.getProp (Some msg) "op" = Some (Some (Js.JNum 6)) ->
    Js.getProp (Some msg) "d" = Some d ->
    Js.getProp d "requestType" = Some requestType ->
    Js.getProp d "requestId" = Some requestId ->
    let o := Main.onMessage (Main.Parsed msg) v in
    (Js.strictEqStr requestType "SetInputSettings" = true ->
     forall requestData inputName inputSettings : Js.value,
       Js.getProp d "requestData" = Some requestData ->
       Js.getProp requestData "inputName" = Some inputName ->
       Js.getProp requestData "inputSettings" = Some inputSettings ->
       textThrows inputName inputSettings = false ->
       result o = Ok tt /\
       filter isResponse (events o)
       = [WsSend (Main.requestResponse requestType requestId)]) /\
    (Js.strictEqStr requestType "SetInputSettings" = false ->
     o = (Ok tt, v, [])).
Proof.
  intros msg d rt rid v Hop Hd Hrt Hid o. subst o.
  unfold Main.onMessage, Main.prop, Main.toString, bind. rewrite Hop, Hd. req_simpl.
  rewrite Hrt. req_simpl.
  split.
  - intros Hset rd inputName inputSettings Hrd Hin His Hconv.
    rewrite Hset, Hrd. req_simpl. rewrite Hin, His. req_simpl. rewrite Hid.
    unfold textThrows in Hconv.
    destruct (Js.strictEqStr inputName "heartrate"
              && Js.truthy (Js.getPropOpt inputSettings "text")) eqn:Eup; req_simpl.
    + assert (Htx : Js.getProp inputSettings "text"
                    = Some (Js.getPropOpt inputSettings "text")).
      { apply andb_prop in Eup. destruct Eup as [_ Eup].
        destruct inputSettings as [[| | | | |f]|]; try discriminate Eup; reflexivity. }
      rewrite Htx. req_simpl.
      destruct (Js.toString (Js.getPropOpt inputSettings "text")) as [s|]; req_simpl.
      * destruct (Js.parseInt10 s) as [hr|]; req_simpl;
          rewrite ?isResponse_requestResponse; split; reflexivity.
      * discriminate Hconv.
    + rewrite ?isResponse_requestResponse; split; reflexivity.
  - intros Hset. rewrite Hset. reflexivity.
Qed.

Lemma request_response_witness :
  filter isResponse
    (events (Main.onMessage
               (Main.Parsed (request "SetInputSettings" (Some (Js.JStr "r1")) "heartrate" "87"))
               (readyVars 120 Off)))
  = [WsSend (Main.requestResponse (Some (Js.JStr "SetInputSettings")) (Some (Js.JStr "r1")))].
Proof.
  exact (proj2 (proj1
    (request_response
       (request "SetInputSettings" (Some (Js.JStr "r1")) "heartrate" "87")
       _ _ _ (readyVars 120 Off) eq_refl eq_refl eq_refl eq_refl) eq_refl
       _ _ _ eq_refl eq_refl eq_refl eq_refl)).
Defined.

(** C3 as stated fails.  A request that carries a request id but is not a
    ['SetInputSettings'] gets no [RequestResponse], a ['SetInputSettings']
    request without a request id gets one, and a ['SetInputSettings']
    request with a request id whose text is the object [{"toString": 1}]
    makes the handler throw with nothing sent. *)
Lemma response_follows_type_not_id :
  events (Main.onMessage
            (Main.Parsed (request "GetVersion" (Some (Js.JStr "r1")) "heartrate" "87"))
            (readyVars 120 Off)) = [] /\
  filter isResponse
    (events (Main.onMessage
               (Main.Parsed (request "SetInputSettings" None "heartrate" "87"))
               (readyVars 120 Off)))
  = [WsSend (Main.requestResponse (Some (Js.JStr "SetInputSettings")) None)] /\
  Main.onMessage
    (Main.Parsed (requestWith (Some (Js.JStr "r1")) "heartrate" noPrimitive))
    (readyVars 120 Off)
  = (Throw "TypeError: Cannot convert object to primitive value", readyVars 120 Off, []).
Proof. repeat split; reflexivity. Qed.



(** What a callback does to the sample: only an accepted update writes
    it. *)
Lemma dispatch_sample (cb : Main.Callback) (v : Vars) :
  heartRate (state (fst (Main.dispatch cb v))) = sampleAfter cb (heartRate (state v)).
Proof.
  assert (Same : forall (A : Type) (m : M A),
             preserves sameLatchAndSample calm m ->
             heartRate (state (final (m v))) = heartRate (state v)).
  { intros A m Hm. destruct (Hm v) as [[_ H] _]. exact H. }
  destruct cb as [env|data env|action env|env|env]; cbn [Main.dispatch sampleAfter].
  - unfold Main.forget; cbn [fst]. now rewrite (Same _ _ (processHeartRate_keeps env)).
  - destruct (onMessage_cases data v) as [(hr & w & Ea & E)|(Ea & r & t & E & _)];
      rewrite Ea, E.
    + reflexivity.
    + destruct r as [[]|e|c|]; try reflexivity.
      destruct (gracefulShutdown_keeps env v) as [Hk _]. unfold sameSample in Hk.
      unfold Main.forget. cbn [fst]. exact Hk.
  - unfold Main.forget; cbn [fst]. now rewrite (Same _ _ (handleUIControl_keeps action env)).
  - unfold Main.forget; cbn [fst]. now rewrite (Same _ _ (connectWithRetry_keeps env)).
  - destruct (gracefulShutdown_keeps env v) as [Hk _]. unfold sameSample in Hk.
    unfold Main.forget. cbn [fst]. now rewrite Hk.
Qed.

Lemma unsignedUpdates_cons (cb : Main.Callback) (rest : list Main.Callback) :
  unsignedUpdates (cb :: rest) = unsignedUpdates [cb] && unsignedUpdates rest.
Proof. destruct cb; cbn; rewrite ?andb_true_r; reflexivity. Qed.

Lemma sampleAfter_nonneg (cb : Main.Callback) (hr : Z) :
  0 <= hr -> unsignedUpdates [cb] = true -> 0 <= sampleAfter cb hr.
Proof.
  intros Hhr Hu. destruct cb as [env|data env|action env|env|env]; cbn in *; trivial.
  rewrite andb_true_r in Hu. apply negb_true_iff in Hu.
  unfold signedUpdate in Hu. unfold acceptedSample.
  destruct (acceptedText data) as [s|]; [|exact Hhr].
  destruct (Js.parseInt10 s) as [z|] eqn:Ep; [|exact Hhr].
  exact (parseInt10_sign s z Ep Hu).
Qed.

(** C9 (as the code has it).  [state.heartRate] holds a number, starting
    at 0.  The message handler overwrites it with the number [parseInt]
    reads in the text of an accepted update, whatever it held before, and
    leaves it alone on any other frame; no other callback writes it.
    [parseInt] reads a negative number only in a text with a minus sign in
    front (after leading white space), so the sample is non-negative in
    every state reached through callbacks none of whose accepted updates
    carries such a text. *)
Theorem heart_rate_sample :
  forall (data : Main.Frame) (cb : Main.Callback) (cbs : list Main.Callback) (v : Vars),
    final (Main.onMessage data v)
    = match acceptedSample data with
      | Some hr => set_heartRate hr v
      | None => v
      end /\
    heartRate (state (fst (Main.dispatch cb v))) = sampleAfter cb (heartRate (state v)) /\
    (forall (s : string) (hr : Z),
       Js.parseInt10 s = Some hr -> hr < 0 -> Js.leadingMinus s = true) /\
    (0 <= heartRate (state v) ->
     unsignedUpdates cbs = true ->
     0 <= heartRate (state (fst (Main.dispatchAll cbs v)))).
Proof.
  intros data cb cbs v.
  split; [apply onMessage_sample|]. split; [apply dispatch_sample|]. split.
  - intros s hr Hp Hneg. destruct (Js.leadingMinus s) eqn:El; [reflexivity|].
    pose proof (parseInt10_sign s hr Hp El). lia.
  - revert v. induction cbs as [|c rest IH]; intros v Hv Hu; cbn [Main.dispatchAll].
    + exact Hv.
    + rewrite unsignedUpdates_cons in Hu. apply andb_prop in Hu. destruct Hu as [H1 H2].
      pose proof (dispatch_sample c v) as Hd.
      pose proof (sampleAfter_nonneg c _ Hv H1) as Hn. rewrite <- Hd in Hn.
      destruct (Main.dispatch c v) as [v1 t1]. cbn [fst] in Hn.
      specialize (IH v1 Hn H2).
      destruct (Main.dispatchAll rest v1) as [v2 t2]. exact IH.
Qed.

Lemma heart_rate_sample_witness :
  0 <= heartRate (state (fst (Main.dispatchAll
         [Main.Message
            (Main.Parsed (request "SetInputSettings" (Some (Js.JStr "r1")) "heartrate" "87"))
            smoothShutdown;
          Main.Message
            (Main.Parsed (request "SetInputSettings" (Some (Js.JStr "r2")) "title" "-5"))
            smoothShutdown;
          Main.Tick obeys]
         (Main.initialVars true)))).
Proof.
  refine (proj2 (proj2 (proj2
    (heart_rate_sample Main.Malformed (Main.Tick obeys)
       [Main.Message
          (Main.Parsed (request "SetInputSettings" (Some (Js.JStr "r1")) "heartrate" "87"))
          smoothShutdown;
        Main.Message
          (Main.Parsed (request "SetInputSettings" (Some (Js.JStr "r2")) "title" "-5"))
          smoothShutdown;
        Main.Tick obeys]
       (Main.initialVars true)))) _ _).
  - cbn. lia.
  - vm_compute. reflexivity.
Defined.

(** C9 as stated fails: an update whose text is ["-5"] makes the sample
    negative, and an update whose text is 309 nines makes it [Infinity],
    which is no integer. *)
Lemma negative_sample_accepted :
  heartRate (state (final (Main.onMessage
     (Main.Parsed (request "SetInputSettings" (Some (Js.JStr "r1")) "heartrate" "-5"))
     (Main.initialVars true)))) = -5 /\
  heartRate (state (final (Main.onMessage
     (Main.Parsed (request "SetInputSettings" (Some (Js.JStr "r1")) "heartrate" (nines 309)))
     (Main.initialVars true)))) = Js.infinity.
Proof. split; vm_compute; reflexivity. Qed.

(* ===================================================================== *)
(** ** bp.js: connection status *)
(* ===================================================================== *)

(** C10.  When [connectToButtplug] rejects for another reason than the
    attempt already in flight, the module is left disconnected: [client]
    and [device] are null, [isConnected] and [isConnecting] are false,
    [lastError] holds the error, and [isReady()] is false in every
    condition (its value is the [null] client). *)
Theorem failed_connect_leaves_nothing :
  forall (url : string) (timeoutMs : Z) (env : Bp.ConnectEnv) (v : Vars) (e : Error),
    result (Bp.connectToButtplug url timeoutMs env v) = Throw e ->
    isConnecting (connectionStatus v) = false \/ e <> "Connection already in progress" ->
    let v' := final (Bp.connectToButtplug url timeoutMs env v) in
    client v' = None /\ device v' = None /\
    isConnected (connectionStatus v') = false /\
    isConnecting (connectionStatus v') = false /\
    lastError (connectionStatus v') = Some e /\
    Bp.isReady v' = false /\ Bp.isReady_value v' = Js.JNull.
Proof.
  intros url timeoutMs env v e Hko Hwhy v'. subst v'.
  destruct (connect_cases url timeoutMs env v)
    as [[E Hb]|[[E _]|[(d & R & _)|(e' & R & F & _)]]].
  - rewrite E in Hko. injection Hko as <-.
    destruct Hwhy as [Hi|Hne]; [congruence | now elim Hne].
  - rewrite E in Hko. discriminate.
  - rewrite R in Hko. discriminate.
  - rewrite R in Hko. injection Hko as ->. rewrite F. repeat split.
Qed.

Lemma failed_connect_leaves_nothing_witness :
  client (final (Bp.connectToButtplug "ws://localhost:12345" 10000 noDevice
                   (Main.initialVars true))) = None /\
  Bp.isReady (final (Bp.connectToButtplug "ws://localhost:12345" 10000 noDevice
                       (Main.initialVars true))) = false.
Proof.
  destruct (failed_connect_leaves_nothing "ws://localhost:12345" 10000 noDevice
              (Main.initialVars true) "No device found within timeout"
              eq_refl (or_introl eq_refl))
    as (H1 & _ & _ & _ & _ & H6 & _).
  split; [exact H1 | exact H6].
Defined.

(** [safeDisconnect]: what it leaves and what it shows while suspended. *)
Lemma safeDisconnect_final (env : Bp.DisconnectEnv) (v : Vars) :
  final (Bp.safeDisconnect env v) = v \/
  (isConnected (connectionStatus (final (Bp.safeDisconnect env v))) = false /\
   isConnecting (connectionStatus (final (Bp.safeDisconnect env v)))
   = isConnecting (connectionStatus v)).
Proof.
  destruct env as [[|e1] [|e2]];
    destruct v as [[[[|]]|] [d|] cs st bp]; try (now left); right; split; reflexivity.
Qed.

Lemma safeDisconnect_observed (env : Bp.DisconnectEnv) (v s : Vars) :
  In s (observed (events (Bp.safeDisconnect env v))) -> s = v.
Proof.
  destruct env as [[|e1] [|e2]];
    destruct v as [[[[|]]|] [d|] cs st bp]; cbn; intuition.
Qed.

Lemma on_final (o : Outcome) (v : Vars) : final (Bp.on o v) = v.
Proof.
  unfold Bp.on, bind, read, final. cbv beta.
  destruct (Bp.isReady v); destruct o; reflexivity.
Qed.

Lemma off_final (o : Outcome) (v : Vars) : final (Bp.off o v) = v.
Proof.
  unfold Bp.off, bind, read, final. cbv beta.
  destruct (Bp.isReady v); destruct o; reflexivity.
Qed.

Lemma statusShrinks_refl (v : Vars) : statusShrinks v v.
Proof. split; trivial. Qed.

Lemma statusShrinks_same (v v' : Vars) :
  connectionStatus v' = connectionStatus v -> statusShrinks v v'.
Proof. intros H. unfold statusShrinks. rewrite H. split; trivial. Qed.

(** What the callbacks other than a connection attempt do to the status,
    where they end and where they are suspended. *)
Lemma shutdown_status (env : Main.ShutdownEnv) (v s : Vars) :
  statusShrinks v (final (Main.gracefulShutdown env v)) /\
  (In s (observed (events (Main.gracefulShutdown env v))) -> statusShrinks v s).
Proof.
  destruct env as [[|e1] [[|e2] [|e3]] [[|e4]|] [|e5]];
    destruct v as [[[[|]]|] [d|] cs [hr [|] cr [|]] [|]];
    unfold statusShrinks; cbn;
    intuition (subst; cbn in *; congruence).
Qed.

Lemma tick_observed (env : Main.CommandEnv) (v s : Vars) :
  In s (observed (events (Main.processHeartRate env v))) -> s = v.
Proof.
  destruct env as [[|e1] [|e2]];
    destruct v as [[[[|]]|] [d|] cs [hr vs cr [|]] bp]; run;
    try tauto;
    rewrite geb_ltb; destruct (hr <? 100), vs; cbn; intuition.
Qed.

Lemma handleUIControl_status (action : string) (env : Main.CommandEnv) (v s : Vars) :
  connectionStatus (final (Main.handleUIControl action env v)) = connectionStatus v /\
  (In s (observed (events (Main.handleUIControl action env v))) -> s = v).
Proof.
  unfold Main.handleUIControl, bind, read, tryCatch. cbv beta.
  destruct (String.eqb action "on"); [|destruct (String.eqb action "off")];
    destruct env as [[|e1] [|e2]];
    destruct v as [[[[|]]|] [d|] cs [hr vs cr sd] bp]; cbn; intuition.
Qed.

(** A callback other than a connection attempt leaves [isConnecting] alone
    and does not set [isConnected], where it ends and where it is
    suspended. *)
Lemma dispatch_status (cb : Main.Callback) (v s : Vars) :
  isConnect cb = false ->
  statusShrinks v (fst (Main.dispatch cb v)) /\
  (In s (observed (snd (Main.dispatch cb v))) -> statusShrinks v s).
Proof.
  destruct cb as [env|data env|action env|env|env]; cbn [Main.dispatch isConnect];
    intros Hc; try discriminate Hc; unfold Main.forget; cbn [fst snd].
  - split.
    + apply statusShrinks_same. apply (tick_frame env v).
    + intros Hin. rewrite (tick_observed env v s Hin). apply statusShrinks_refl.
  - destruct (onMessage_cases data v) as [(hr & w & _ & E)|(_ & r & t & E & _ & Ho & Ht)];
      rewrite E.
    + cbn. split; [apply statusShrinks_same; reflexivity | tauto].
    + destruct r as [[]|e|c|]; unfold final, events; cbn [fst snd];
        try (rewrite Ho; split; [apply statusShrinks_refl | cbn; tauto]).
      rewrite (Ht e eq_refl). cbn [app].
      pose proof (shutdown_status env v s) as H. unfold final, events in H.
      destruct (Main.gracefulShutdown env v) as [[r2 v2] t2]. exact H.
  - destruct (handleUIControl_status action env v s) as [H1 H2]. split.
    + now apply statusShrinks_same.
    + intros Hin. rewrite (H2 Hin). apply statusShrinks_refl.
  - apply shutdown_status.
Qed.

(** One invocation of [connectWithRetry] when it is due. *)
Lemma connectWithRetry_settled (env : Bp.ConnectEnv) (v s : Vars) :
  settled v true ->
  settled (final (Main.connectWithRetry env v))
          (existsb Main.isSetTimeout (events (Main.connectWithRetry env v))) /\
  (In s (observed (events (Main.connectWithRetry env v))) -> settled s false).
Proof.
  intros [Hdue _]. destruct (Hdue eq_refl) as [Hk Hi].
  destruct (shutdownInProgress (state v)) eqn:Hs.
  { assert (E : Main.connectWithRetry env v = (Ok tt, v, [])).
    { unfold Main.connectWithRetry, bind, read. cbv beta. now rewrite Hs. }
    rewrite E. cbn. split; [|tauto]. split; [discriminate | intros _; exact Hi]. }
  rewrite (connectWithRetry_eq env v Hs).
  destruct (Bp.clientConnected v) eqn:Hc.
  { rewrite (connect_already _ _ env v Hi Hc). cbn. split; [|tauto].
    split; [discriminate | intros _; exact Hi]. }
  destruct (rejects env) eqn:Hr.
  - destruct (connect_rejected (Main.BUTTPLUG_URL Main.CONFIG) 10000 env v Hi Hc Hr)
      as (e & t & E & Hf & _).
    rewrite E. unfold final, events. cbn [fst snd]. split.
    + split; [intros _; split; reflexivity | discriminate].
    + intros Hin.
      assert (Hin' : In s (observed t)).
      { revert Hin. clear. generalize (connectRetries (state (idleVars e v)) + 1 <? Main.CONNECTION_RETRIES Main.CONFIG).
        intros b. induction t as [|x t IH]; [destruct b; cbn; tauto|].
        destruct x; cbn; intuition. }
      rewrite forallb_forall in Hf. specialize (Hf s Hin').
      apply andb_prop in Hf. destruct Hf as [_ Hf]. apply eqb_prop in Hf.
      split; [discriminate|]. rewrite Hf, Hk. discriminate.
  - destruct (connect_accepted (Main.BUTTPLUG_URL Main.CONFIG) 10000 env v Hi Hc Hr)
      as (d & t & _ & E & Hf & _ & Hst).
    rewrite E. unfold final, events. cbn [fst snd]. rewrite Hst. split.
    + split; [discriminate | reflexivity].
    + intros Hin. rewrite forallb_forall in Hf. specialize (Hf s Hin).
      apply andb_prop in Hf. destruct Hf as [_ Hf]. apply eqb_prop in Hf.
      split; [discriminate|]. rewrite Hf, Hk. discriminate.
Qed.

Lemma settled_shrinks (v v' : Vars) (due : bool) :
  settled v due -> statusShrinks v v' -> settled v' due.
Proof.
  unfold settled, statusShrinks. intros [H1 H2] [S1 S2]. split.
  - intros Hd. destruct (H1 Hd) as [Hk Hi]. split; [|congruence].
    destruct (isConnected (connectionStatus v')); [|reflexivity].
    rewrite (S2 eq_refl) in Hk. discriminate.
  - intros Hk. rewrite S1. auto.
Qed.

(** In every state main.js goes through, no attempt is due or in flight
    while [isConnected] is set, whether or not the service dropped the
    connection. *)
Lemma running_settled (v : Vars) (due : bool) : running v due -> settled v due.
Proof.
  induction 1 as [proc|env v Hv IH|env v s Hv IH Hin|cb v due Hv IH Hc
                  |cb v s due Hv IH Hc Hin|v due Hv IH].
  - split; [intros _; split; reflexivity | discriminate].
  - apply (connectWithRetry_settled env v v IH).
  - now apply (connectWithRetry_settled env v s IH).
  - apply (settled_shrinks v _ due IH). now apply (dispatch_status cb v v).
  - apply (settled_shrinks v _ due IH). now apply (dispatch_status cb v s).
  - apply (settled_shrinks v _ due IH). apply statusShrinks_same.
    unfold Bp.connectionLost. destruct (client v); reflexivity.
Qed.

Lemma settled_mutex (v : Vars) (due : bool) : settled v due -> mutex v = true.
Proof.
  unfold settled, mutex. intros [_ H].
  destruct (isConnected (connectionStatus v)).
  - rewrite (H eq_refl). reflexivity.
  - now rewrite andb_false_r.
Qed.

Lemma safeDisconnect_mutex (env : Bp.DisconnectEnv) (v : Vars) :
  mutex v = true ->
  mutex (final (Bp.safeDisconnect env v)) = true /\
  forallb mutex (observed (events (Bp.safeDisconnect env v))) = true.
Proof.
  intros Hm. split.
  - destruct (safeDisconnect_final env v) as [E|[E _]].
    + now rewrite E.
    + unfold mutex. rewrite E. now rewrite andb_false_r.
  - apply forallb_forall. intros s Hin.
    now rewrite (safeDisconnect_observed env v s Hin).
Qed.

Lemma connect_mutex (url : string) (timeoutMs : Z) (env : Bp.ConnectEnv) (v : Vars) :
  mutex v = true -> mutex (final (Bp.connectToButtplug url timeoutMs env v)) = true.
Proof.
  intros Hm.
  destruct (connect_cases url timeoutMs env v)
    as [[E _]|[[E _]|[(d & _ & F & _)|(e & _ & F & _)]]];
    rewrite ?E, ?F; trivial.
Qed.

(** C8.  At most one of [isConnecting] and [isConnected] is true in every
    state main.js goes through: between callbacks and at the awaits of
    every operation, connection attempts included, whether or not the
    actuator service has dropped an established connection.  The operations
    keep it so: from any state where it holds, [connectToButtplug],
    [safeDisconnect] and [disconnectButtplug] end in a state where it holds,
    and it holds in the states [safeDisconnect] and [disconnectButtplug] are
    suspended in. *)
Theorem status_mutex :
  forall (v : Vars) (due : bool) (w : Vars),
    running v due ->
    mutex v = true /\
    (mutex w = true ->
     (forall url timeoutMs env,
        mutex (final (Bp.connectToButtplug url timeoutMs env w)) = true) /\
     (forall env,
        mutex (final (Bp.safeDisconnect env w)) = true /\
        forallb mutex (observed (events (Bp.safeDisconnect env w))) = true /\
        mutex (final (Bp.disconnectButtplug env w)) = true /\
        forallb mutex (observed (events (Bp.disconnectButtplug env w))) = true)).
Proof.
  intros v due w Hv.
  split; [exact (settled_mutex v due (running_settled v due Hv))|].
  intros Hm. split.
  - intros url tm env. now apply connect_mutex.
  - intros env. unfold Bp.disconnectButtplug.
    destruct (safeDisconnect_mutex env w Hm) as [H1 H2]. auto.
Qed.

Lemma status_mutex_witness :
  mutex (Bp.connectionLost (final (Main.connectWithRetry serverUp (Main.initialVars true))))
  = true /\
  mutex (final (Bp.disconnectButtplug brokenDisconnect
                  (Bp.connectionLost
                     (final (Main.connectWithRetry serverUp (Main.initialVars true))))))
  = true.
Proof.
  destruct (status_mutex _ _
              (Bp.connectionLost
                 (final (Main.connectWithRetry serverUp (Main.initialVars true))))
              (run_lost _ _ (run_connect serverUp _ (run_load true))))
    as (H1 & H2).
  split; [exact H1|].
  destruct (H2 H1) as (_ & H3). destruct (H3 brokenDisconnect) as (_ & _ & H4 & _).
  exact H4.
Defined.

Lemma retry_bound_witness :
  exists v' t,
    Main.retryChain 5 (fun _ => serverDown) (Main.initialVars true)
    = Some (5%nat, v', t) /\
    connectRetries (state v') = 5 /\
    count isClientConnect t = 5%nat /\
    S (count Main.isSetTimeout t) = 5%nat.
Proof.
  apply (retry_bound (fun _ => serverDown) (Main.initialVars true) 5);
    reflexivity.
Defined.

(* ===================================================================== *)
(** ** Concrete runs *)
(* ===================================================================== *)

Example parseInt10_digits : Js.parseInt10 "95" = Some 95.
Proof. reflexivity. Qed.

Example parseInt10_prefix : Js.parseInt10 "  12abc" = Some 12.
Proof. reflexivity. Qed.

Example parseInt10_nan : Js.parseInt10 "fast" = None.
Proof. reflexivity. Qed.

Example parseInt10_empty : Js.parseInt10 "" = None.
Proof. reflexivity. Qed.

Example toString_array :
  Js.toString (Some (Js.JArr [Js.JNum 95; Js.JNull; Js.JStr "x"])) = Some "95,,x".
Proof. reflexivity. Qed.

(** An object with an own [toString] property has no primitive value, on
    its own or as an element of an array. *)
Example toString_throws :
  Js.toString (Some noPrimitive) = None /\
  Js.toString (Some (Js.JArr [Js.JNum 7; noPrimitive])) = None /\
  Js.toString (Some (Js.JObj [("valueOf", Js.JNum 1)])) = Some "[object Object]".
Proof. repeat split; reflexivity. Qed.

(** Beyond 2^53 [parseInt] gives the nearest double, and [Infinity] for
    digits that denote 2^1024 - 2^970 or more. *)
Example parseInt10_rounds :
  Js.parseInt10 "9007199254740993" = Some 9007199254740992 /\
  Js.parseInt10 "9007199254740995" = Some 9007199254740996 /\
  Js.parseInt10 (nines 309) = Some Js.infinity.
Proof. repeat split; vm_compute; reflexivity. Qed.

(** Numbers print with the fewest digits that denote them, in exponent form
    from 10^21 on. *)
Example numberToString_forms :
  Js.numberToString 95 = "95" /\
  Js.numberToString (2 ^ 64) = "18446744073709552000" /\
  Js.numberToString (10 ^ 21) = "1e+21" /\
  Js.numberToString (2 ^ 70) = "1.1805916207174113e+21" /\
  Js.numberToString (2 ^ 1024 - 2 ^ 971) = "1.7976931348623157e+308" /\
  Js.numberToString Js.infinity = "Infinity".
Proof. repeat split; vm_compute; reflexivity. Qed.

(** A text that is the JSON number 10^21 prints as ["1e+21"], in which
    [parseInt] reads 1. *)
Example exponent_text_stores_leading_digit :
  heartRate (state (final (Main.onMessage
     (Main.Parsed (requestWith (Some (Js.JStr "r1")) "heartrate" (Js.JNum (10 ^ 21))))
     (readyVars 120 Off)))) = 1.
Proof. vm_compute. reflexivity. Qed.

(** The samples 120, 95, 95, 105, a tick after each, on a ready actuator
    that starts switched off: the device is switched on once and off once. *)
Example four_samples_two_commands :
  filter isDeviceCommand
    (snd (Main.dispatchAll
            [sample "120"; Main.Tick obeys; sample "95"; Main.Tick obeys;
             sample "95"; Main.Tick obeys; sample "105"; Main.Tick obeys]
            (readyVars 0 Off)))
  = [DeviceVibrate; DeviceStop].
Proof. reflexivity. Qed.

(** A command that fails leaves the state alone and is issued again at the
    next tick. *)
Example failed_command_retried :
  filter isDeviceCommand
    (snd (Main.ticks 2
            (fun i => match i with
                      | O => {| Main.vibrate_outcome := Rejects "busy";
                                Main.stop_outcome := Resolves |}
                      | _ => obeys
                      end)
            (readyVars 95 Off)))
  = [DeviceVibrate; DeviceVibrate] /\
  vibrationState
    (state (fst (Main.ticks 1
                   (fun _ => {| Main.vibrate_outcome := Rejects "busy";
                                Main.stop_outcome := Resolves |})
                   (readyVars 95 Off)))) = Off.
Proof. split; reflexivity. Qed.

(** A frame that is not JSON is dropped; a [null] frame throws out of the
    listener, which the uncaught-exception handler turns into a shutdown. *)
Example malformed_frame_dropped :
  Main.onMessage Main.Malformed (readyVars 95 On) = (Ok tt, readyVars 95 On, []).
Proof. reflexivity. Qed.

Example null_frame_shuts_down :
  count isProcessExit
    (snd (Main.dispatch (Main.Message (Main.Parsed Js.JNull) smoothShutdown)
            (readyVars 95 On))) = 1%nat.
Proof. reflexivity. Qed.

(** With a telemetry client still connected the shutdown closes the
    listener and stays there. *)
Example shutdown_waits_for_close :
  result (Main.gracefulShutdown clientLingers (readyVars 95 On)) = Pending /\
  count isWssClose (events (Main.gracefulShutdown clientLingers (readyVars 95 On))) = 1%nat /\
  count isProcKill (events (Main.gracefulShutdown clientLingers (readyVars 95 On))) = 0%nat /\
  count isProcessExit (events (Main.gracefulShutdown clientLingers (readyVars 95 On))) = 0%nat.
Proof. repeat split; reflexivity. Qed.

Example identify_answered :
  Main.onMessage (Main.Parsed (Js.JObj [("op", Js.JNum 1)])) (readyVars 95 On)
  = (Ok tt, readyVars 95 On, [WsSend Main.identifiedMessage]).
Proof. reflexivity. Qed.

(* ===================================================================== *)
(** ** More rules for what an operation keeps *)
(* ===================================================================== *)

Lemma sameButVibration_refl v : sameButVibration v v.
Proof. repeat split. Qed.

Lemma sameButVibration_trans a b c :
  sameButVibration a b -> sameButVibration b c -> sameButVibration a c.
Proof. unfold sameButVibration. intuition congruence. Qed.

Lemma sameButSample_refl v : sameButSample v v.
Proof. repeat split. Qed.

Lemma sameButSample_trans a b c :
  sameButSample a b -> sameButSample b c -> sameButSample a c.
Proof. unfold sameButSample. intuition congruence. Qed.

Lemma sameDisplay_refl v : sameDisplay v v.
Proof. repeat split. Qed.

Lemma sameDisplay_trans a b c : sameDisplay a b -> sameDisplay b c -> sameDisplay a c.
Proof. unfold sameDisplay. intuition congruence. Qed.

#[local] Hint Resolve sameButVibration_refl sameButVibration_trans
  sameButSample_refl sameButSample_trans sameDisplay_refl sameDisplay_trans : core.

Ltac keeps_side :=
  solve [eauto | exact Logic.I | reflexivity | intros; repeat split; reflexivity].

Ltac keeps_step :=
  first
    [ apply pres_bind; [keeps_side .. | | intros ?]
    | apply pres_tryCatch; [keeps_side .. | | intros ?]
    | apply pres_tryFinally; [keeps_side .. | | ]
    | apply pres_ret; keeps_side
    | apply pres_throw; keeps_side
    | apply pres_read; keeps_side
    | apply pres_suspend; keeps_side
    | apply pres_settle; keeps_side
    | apply pres_await; keeps_side
    | apply pres_awaitCallback; keeps_side
    | apply pres_call; keeps_side
    | apply pres_emit; keeps_side
    | apply pres_exit; keeps_side
    | apply pres_write; keeps_side
    | match goal with
      | |- preserves _ _ (if ?b then _ else _) => destruct b
      | |- preserves _ _ (match ?x with _ => _ end) => destruct x
      end ].

Ltac keeps := repeat keeps_step.

Lemma handleUIControl_vibration_only action env :
  preserves sameButVibration anyEvent (Main.handleUIControl action env).
Proof. unfold Main.handleUIControl, Main.updateUIStatus, Bp.on, Bp.off. keeps. Qed.

Lemma onMessage_sample_only data :
  preserves sameButSample isProtocolEvent (Main.onMessage data).
Proof. unfold Main.onMessage, Main.updateUIStatus, Main.prop, Main.toString. keeps. Qed.

Lemma connectWithRetry_display env :
  preserves sameDisplay noStatusUpdate (Main.connectWithRetry env).
Proof. unfold Main.connectWithRetry. keeps. Qed.

Lemma gracefulShutdown_display env :
  preserves sameDisplay noStatusUpdate (Main.gracefulShutdown env).
Proof.
  unfold Main.gracefulShutdown, Bp.disconnectButtplug, Bp.safeDisconnect,
    Bp.clientDisconnect, Bp.off.
  keeps.
Qed.

(* ===================================================================== *)
(** ** bp.js: commands, disconnecting, connecting *)
(* ===================================================================== *)

(** X1.  [on()] and [off()] reach the device only when the module is
    ready.  Otherwise they throw 'Device not connected' with no call made;
    when ready they make exactly one call ([vibrate] for [on], [stop] for
    [off]), pass on what the device answered and touch no variable. *)
Theorem device_commands_guarded :
  forall (o : Outcome) (v : Vars),
    (Bp.isReady v = false ->
     Bp.on o v = (Throw "Device not connected", v, []) /\
     Bp.off o v = (Throw "Device not connected", v, [])) /\
    (Bp.isReady v = true ->
     Bp.on o v
     = (match o with Resolves => Ok tt | Rejects e => Throw e end, v,
        [DeviceVibrate; Suspended v]) /\
     Bp.off o v
     = (match o with Resolves => Ok tt | Rejects e => Throw e end, v,
        [DeviceStop; Suspended v])).
Proof.
  intros o v. unfold Bp.on, Bp.off, bind, read. cbv beta.
  split; intros H; rewrite H; [split; reflexivity|].
  destruct o; split; reflexivity.
Qed.

(** X2.  [disconnectButtplug()] on a module that holds a client never
    throws, whatever [device.stop()] and [client.disconnect()] do, and
    leaves [client] and [device] null, [isConnected] false and [isReady()]
    false, with the state of main.js untouched.  It stops the device when
    one is held and disconnects the client when it is connected. *)
Theorem disconnect_resets :
  forall (env : Bp.DisconnectEnv) (v : Vars),
    client v <> None ->
    let o := Bp.disconnectButtplug env v in
    result o = Ok tt /\
    client (final o) = None /\ device (final o) = None /\
    isConnected (connectionStatus (final o)) = false /\
    Bp.isReady (final o) = false /\
    state (final o) = state v /\
    count isDeviceStop (events o)
    = (match device v with Some _ => 1%nat | None => 0%nat end) /\
    count isClientDisconnect (events o)
    = (if Bp.clientConnected v then 1%nat else 0%nat).
Proof.
  intros [[|e1] [|e2]] [[[[|]]|] [d|] cs st bp] H; try (now elim H);
    repeat split; reflexivity.
Qed.

Lemma disconnect_resets_witness :
  client (final (Bp.disconnectButtplug brokenDisconnect (readyVars 95 On))) = None /\
  Bp.isReady (final (Bp.disconnectButtplug brokenDisconnect (readyVars 95 On))) = false.
Proof.
  destruct (disconnect_resets brokenDisconnect (readyVars 95 On))
    as (_ & H2 & _ & _ & H5 & _); [discriminate|].
  split; [exact H2 | exact H5].
Defined.

(** X3.  Disconnecting is idempotent: after one [disconnectButtplug()],
    which never throws, a second one makes no call and changes nothing. *)
Theorem disconnect_idempotent :
  forall (env1 env2 : Bp.DisconnectEnv) (v : Vars),
    result (Bp.disconnectButtplug env1 v) = Ok tt /\
    Bp.disconnectButtplug env2 (final (Bp.disconnectButtplug env1 v))
    = (Ok tt, final (Bp.disconnectButtplug env1 v), []).
Proof.
  intros [[|e1] [|e2]] [[|e3] [|e4]] [[[[|]]|] [d|] cs st bp]; split; reflexivity.
Qed.

(** X4.  From an idle module, an attempt that the server accepts and that
    finds a device resolves, calls [connect], [startScanning] and
    [stopScanning] in that order and nothing else, and leaves the module
    ready with the device found, [isConnected] true and [lastError]
    cleared.  Connecting again from there returns at once without any call
    or change. *)
Theorem connect_success :
  forall (url : string) (timeoutMs : Z) (env : Bp.ConnectEnv) (v : Vars) (d : Device),
    isConnecting (connectionStatus v) = false ->
    Bp.clientConnected v = false ->
    Bp.connect_result env = Resolves ->
    Bp.startScanning_result env = Resolves ->
    Bp.discovery env = Some d ->
    let o := Bp.connectToButtplug url timeoutMs env v in
    result o = Ok tt /\
    final o = connectedVars d v /\
    Bp.isReady (final o) = true /\
    filter isCall (events o)
    = [ClientConnect url; ClientStartScanning; ClientStopScanning] /\
    (forall url' timeoutMs' env',
       Bp.connectToButtplug url' timeoutMs' env' (final o) = (Ok tt, final o, [])).
Proof.
  intros url tm [cr sr dv cl] [c dd [ic icd le] st bp] d Hi Hc H1 H2 H3.
  cbn in Hi, H1, H2, H3. subst.
  destruct c as [[[|]]|]; try discriminate Hc; repeat split; reflexivity.
Qed.

Lemma connect_success_witness :
  Bp.isReady (final (Bp.connectToButtplug "ws://localhost:12345" 10000 serverUp
                       (Main.initialVars true))) = true.
Proof.
  destruct (connect_success "ws://localhost:12345" 10000 serverUp
              (Main.initialVars true) {| name := "toy" |}
              eq_refl eq_refl eq_refl eq_refl eq_refl)
    as (_ & _ & H3 & _).
  exact H3.
Defined.

(** X5.  While a connection attempt is suspended, at any of its awaits, a
    further [connectToButtplug] is rejected with 'Connection already in
    progress' and neither makes a call nor changes a variable: the attempt
    in flight is left alone. *)
Theorem connect_busy_while_suspended :
  forall (url url' : string) (timeoutMs timeoutMs' : Z) (env env' : Bp.ConnectEnv)
         (v s : Vars),
    In s (observed (events (Bp.connectToButtplug url timeoutMs env v))) ->
    Bp.connectToButtplug url' timeoutMs' env' s
    = (Throw "Connection already in progress", s, []).
Proof.
  intros url url' tm tm' env env' v s Hin.
  apply connect_busy.
  destruct (isConnecting (connectionStatus v)) eqn:Hi.
  { rewrite (connect_busy url tm env v Hi) in Hin. destruct Hin. }
  destruct (Bp.clientConnected v) eqn:Hc.
  { rewrite (connect_already url tm env v Hi Hc) in Hin. destruct Hin. }
  assert (Hf : forallb (inFlight v)
                 (observed (events (Bp.connectToButtplug url tm env v))) = true).
  { destruct (rejects env) eqn:Hr.
    - destruct (connect_rejected url tm env v Hi Hc Hr) as (e & t & E & Hf & _).
      now rewrite E.
    - destruct (connect_accepted url tm env v Hi Hc Hr) as (d & t & _ & E & Hf & _).
      now rewrite E. }
  rewrite forallb_forall in Hf. specialize (Hf s Hin).
  unfold inFlight in Hf. now apply andb_prop in Hf.
Qed.

Lemma connect_busy_while_suspended_witness :
  Bp.connectToButtplug "ws://localhost:12345" 10000 serverUp firstAttempt
  = (Throw "Connection already in progress", firstAttempt, []).
Proof.
  apply (connect_busy_while_suspended "ws://localhost:12345" "ws://localhost:12345"
           10000 10000 serverDown serverUp (Main.initialVars true) firstAttempt).
  cbn. left. reflexivity.
Defined.

(** X6.  A failed attempt from an idle module holding no device cleans up
    as far as it got.  When the transport does not connect, the error is
    the transport's and nothing but [connect] was called; when scanning
    does not start, the connected client is disconnected; when no device
    shows up in time, the error is 'No device found within timeout', the
    listeners are removed, scanning is stopped and the client is
    disconnected.  In each case the module ends idle with the error in
    [lastError]. *)
Theorem connect_cleanup :
  forall (url : string) (timeoutMs : Z) (env : Bp.ConnectEnv) (v : Vars),
    isConnecting (connectionStatus v) = false ->
    Bp.clientConnected v = false ->
    device v = None ->
    let o := Bp.connectToButtplug url timeoutMs env v in
    (forall e, Bp.connect_result env = Rejects e ->
       result o = Throw e /\ final o = idleVars e v /\
       filter isCall (events o) = [ClientConnect url]) /\
    (forall e, Bp.connect_result env = Resolves ->
       Bp.startScanning_result env = Rejects e ->
       result o = Throw e /\ final o = idleVars e v /\
       filter isCall (events o)
       = [ClientConnect url; ClientStartScanning; ClientDisconnect]) /\
    (Bp.connect_result env = Resolves ->
     Bp.startScanning_result env = Resolves ->
     Bp.discovery env = None ->
     result o = Throw "No device found within timeout" /\
     final o = idleVars "No device found within timeout" v /\
     filter isCall (events o)
     = [ClientConnect url; ClientStartScanning; ClientRemoveAllListeners;
        ClientStopScanning; ClientDisconnect]).
Proof.
  intros url tm [cr sr dv [st dr]] [c dd [ic icd le] s bp] Hi Hc Hd.
  cbn in Hi, Hd. subst.
  destruct c as [[[|]]|]; try discriminate Hc;
    (split; [|split]); cbn [Bp.connect_result Bp.startScanning_result Bp.discovery];
    intros; subst; destruct dr; repeat split; reflexivity.
Qed.

Lemma connect_cleanup_witness :
  result (Bp.connectToButtplug "ws://localhost:12345" 10000 noDevice
            (Main.initialVars true))
  = Throw "No device found within timeout".
Proof.
  destruct (connect_cleanup "ws://localhost:12345" 10000 noDevice
              (Main.initialVars true) eq_refl eq_refl eq_refl)
    as (_ & _ & H3).
  destruct (H3 eq_refl eq_refl eq_refl) as (H & _). exact H.
Defined.

Lemma connect_observed_unready url tm env v :
  isConnecting (connectionStatus v) = false ->
  Bp.clientConnected v = false ->
  device v = None ->
  isConnected (connectionStatus v) = false ->
  forallb (fun s => unready s && negb (isConnected (connectionStatus s)))
    (observed (events (Bp.connectToButtplug url tm env v))) = true.
Proof.
  intros Hi Hc Hd Hk.
  destruct v as [c dd [ic icd le] st bp]. cbn in Hi, Hd, Hk. subst.
  destruct c as [[[|]]|]; try discriminate Hc;
    destruct env as [[|e1] [|e2] [dv|] [[|e3] [|e4]]]; reflexivity.
Qed.

Lemma consistent_unready (s : Vars) :
  unready s = true -> isConnected (connectionStatus s) = false -> consistent s.
Proof.
  unfold unready, consistent. intros H Hk. apply andb_prop in H. destruct H as [H1 H2].
  apply negb_true_iff in H1. rewrite H1, Hk. repeat split; trivial.
  - intros _. destruct (device s); [discriminate|reflexivity].
  - discriminate.
Qed.

(** Without drops, the status agrees with readiness in every state that
    can be seen. *)
Lemma reachable_consistent (v : Vars) : reachable false v -> consistent v.
Proof.
  induction 1 as [proc|url tm env v Hv IH|url tm env v s Hv IH Hin
                  |env v Hv IH|env v s Hv IH Hin|o v Hv IH|o v Hv IH|v Hd Hv IH].
  - repeat split; try reflexivity; try discriminate.
  - destruct (connect_cases url tm env v)
      as [[E _]|[[E _]|[(d & _ & F & _)|(e & _ & F & _)]]].
    + now rewrite E.
    + now rewrite E.
    + rewrite F. repeat split; try reflexivity; try discriminate.
    + rewrite F. repeat split; try reflexivity; try discriminate.
  - destruct (isConnecting (connectionStatus v)) eqn:Hi.
    { rewrite (connect_busy url tm env v Hi) in Hin. destruct Hin. }
    destruct (Bp.clientConnected v) eqn:Hc.
    { rewrite (connect_already url tm env v Hi Hc) in Hin. destruct Hin. }
    destruct IH as (I1 & I2 & I3).
    assert (Hr : Bp.isReady v = false).
    { unfold Bp.isReady, Bp.isReady_value. unfold Bp.clientConnected in Hc.
      destruct (client v) as [[[|]]|]; try discriminate Hc; reflexivity. }
    pose proof (connect_observed_unready url tm env v Hi Hc (I2 Hr)
                  (eq_trans I1 Hr)) as Hf.
    rewrite forallb_forall in Hf. specialize (Hf s Hin).
    apply andb_prop in Hf. destruct Hf as [H1 H2].
    apply consistent_unready; [exact H1 | now apply negb_true_iff in H2].
  - unfold Bp.disconnectButtplug.
    destruct env as [[|e1] [|e2]];
      destruct v as [[[[|]]|] [d|] cs st bp]; try exact IH;
      (repeat split; try reflexivity; try discriminate).
  - unfold Bp.disconnectButtplug in Hin.
    now rewrite (safeDisconnect_observed env v s Hin).
  - now rewrite on_final.
  - now rewrite off_final.
  - discriminate Hd.
Qed.

(** X7.  As long as the service does not drop the connection, what
    [getConnectionStatus()] reports agrees with [isReady()] in every state
    that can be seen, between operations and at their awaits:
    [isConnected] is true exactly when the module is ready, [deviceName]
    is non-null exactly then, and a ready module is never reported as
    connecting. *)
Theorem report_agrees_with_readiness :
  forall v : Vars,
    reachable false v ->
    let r := Report.getConnectionStatus v in
    isConnected (Report.status r) = Bp.isReady v /\
    (Report.deviceName r <> None <-> Bp.isReady v = true) /\
    (Bp.isReady v = true -> isConnecting (Report.status r) = false).
Proof.
  intros v Hv r. destruct (reachable_consistent v Hv) as (H1 & H2 & H3).
  subst r. unfold Report.getConnectionStatus. cbn [Report.status Report.deviceName].
  split; [exact H1|]. split; [|exact H3].
  split.
  - intros Hn. destruct (Bp.isReady v) eqn:Hr; [reflexivity|].
    rewrite (H2 eq_refl) in Hn. now elim Hn.
  - intros Hr. destruct (isReady_inv v Hr) as (d & _ & Hd). rewrite Hd. discriminate.
Qed.

Lemma report_agrees_with_readiness_witness :
  isConnected
    (Report.status
       (Report.getConnectionStatus
          (final (Bp.connectToButtplug "ws://localhost:12345" 10000 noDevice
                    (Main.initialVars true)))))
  = Bp.isReady (final (Bp.connectToButtplug "ws://localhost:12345" 10000 noDevice
                         (Main.initialVars true))).
Proof.
  destruct (report_agrees_with_readiness
              (final (Bp.connectToButtplug "ws://localhost:12345" 10000 noDevice
                        (Main.initialVars true)))) as (H & _).
  - apply reach_connect. apply reach_init.
  - exact H.
Defined.

(* ===================================================================== *)
(** ** main.js: manual control, ticks, retries, shutdown order *)
(* ===================================================================== *)

(** [handleUIControl] case by case. *)
Lemma handleUIControl_cases (action : string) (env : Main.CommandEnv) (v : Vars) :
  (Bp.isReady v = false -> Main.handleUIControl action env v = (Ok false, v, [])) /\
  (Bp.isReady v = true ->
   (action = "on" ->
    Main.handleUIControl action env v
    = match Main.vibrate_outcome env with
      | Resolves => (Ok true, set_vibrationState On v,
                     [DeviceVibrate; Suspended v; UpdateUIStatus (heartRate (state v)) On])
      | Rejects _ => (Ok false, v, [DeviceVibrate; Suspended v])
      end) /\
   (action = "off" ->
    Main.handleUIControl action env v
    = match Main.stop_outcome env with
      | Resolves => (Ok true, set_vibrationState Off v,
                     [DeviceStop; Suspended v; UpdateUIStatus (heartRate (state v)) Off])
      | Rejects _ => (Ok false, v, [DeviceStop; Suspended v])
      end) /\
   (action <> "on" -> action <> "off" ->
    Main.handleUIControl action env v
    = (Ok true, v,
       [UpdateUIStatus (heartRate (state v)) (vibrationState (state v))]))).
Proof.
  destruct env as [vo so]. split.
  - intros H. unfold Main.handleUIControl, bind, read. cbv beta. now rewrite H.
  - intros H. destruct (isReady_inv v H) as (d & Hc & Hd).
    destruct v as [c dd cs [h vs cr sd] bp]. cbn in Hc, Hd. subst.
    repeat split.
    + intros ->. destruct vo; reflexivity.
    + intros ->. destruct so; reflexivity.
    + intros H1 H2. apply String.eqb_neq in H1, H2.
      unfold Main.handleUIControl, bind, read, tryCatch. cbn.
      rewrite H1, H2. reflexivity.
Qed.

(** X8.  Manual control changes [vibrationState] only after the device
    obeyed.  Without a ready device it answers false and does nothing; with
    one, 'on' and 'off' send one command, and on success set the state,
    notify the dashboard and answer true, while on failure they answer false
    with the state as it was and no notification.  Any other action answers
    true and notifies the dashboard without commanding the device. *)
Theorem manual_control_outcomes :
  forall (action : string) (env : Main.CommandEnv) (v : Vars),
    (Bp.isReady v = false -> Main.handleUIControl action env v = (Ok false, v, [])) /\
    (Bp.isReady v = true ->
     (action = "on" ->
      Main.handleUIControl action env v
      = match Main.vibrate_outcome env with
        | Resolves => (Ok true, set_vibrationState On v,
                       [DeviceVibrate; Suspended v;
                        UpdateUIStatus (heartRate (state v)) On])
        | Rejects _ => (Ok false, v, [DeviceVibrate; Suspended v])
        end) /\
     (action = "off" ->
      Main.handleUIControl action env v
      = match Main.stop_outcome env with
        | Resolves => (Ok true, set_vibrationState Off v,
                       [DeviceStop; Suspended v;
                        UpdateUIStatus (heartRate (state v)) Off])
        | Rejects _ => (Ok false, v, [DeviceStop; Suspended v])
        end) /\
     (action <> "on" -> action <> "off" ->
      Main.handleUIControl action env v
      = (Ok true, v,
         [UpdateUIStatus (heartRate (state v)) (vibrationState (state v))]))).
Proof.
  intros action [vo so] v. split.
  - intros H. unfold Main.handleUIControl, bind, read. cbv beta. now rewrite H.
  - intros H. destruct (isReady_inv v H) as (d & Hc & Hd).
    destruct v as [c dd cs [h vs cr sd] bp]. cbn in Hc, Hd. subst.
    repeat split.
    + intros ->. destruct vo; reflexivity.
    + intros ->. destruct so; reflexivity.
    + intros H1 H2. apply String.eqb_neq in H1, H2.
      unfold Main.handleUIControl, bind, read, tryCatch. cbn.
      rewrite H1, H2. reflexivity.
Qed.

(** X9.  A manual override lasts at most until the next tick: whatever
    the manual control did, a tick on a ready actuator with no shutdown in
    progress and an obeying device puts [vibrationState] back where the
    sample wants it. *)
Theorem manual_override_lasts_one_tick :
  forall (action : string) (manual tick : Main.CommandEnv) (v : Vars),
    Bp.isReady v = true ->
    shutdownInProgress (state v) = false ->
    Main.vibrate_outcome tick = Resolves ->
    Main.stop_outcome tick = Resolves ->
    vibrationState
      (state (final (Main.processHeartRate tick
                       (final (Main.handleUIControl action manual v)))))
    = desired (heartRate (state v)).
Proof.
  intros action manual tick v Hr Hs Hv Ho.
  destruct (handleUIControl_vibration_only action manual v)
    as [(Hc & Hd & _ & _ & Hh & _ & Hl) _].
  rewrite tick_desired; trivial.
  - now rewrite Hh.
  - destruct (isReady_inv v Hr) as (d & H1 & H2).
    unfold Bp.isReady, Bp.isReady_value. rewrite Hc, Hd, H1, H2. reflexivity.
  - now rewrite Hl.
Qed.

Lemma manual_override_lasts_one_tick_witness :
  vibrationState
    (state (final (Main.processHeartRate obeys
                     (final (Main.handleUIControl "on" obeys (readyVars 120 Off))))))
  = Off.
Proof.
  exact (manual_override_lasts_one_tick "on" obeys obeys (readyVars 120 Off)
           eq_refl eq_refl eq_refl eq_refl).
Defined.

(** X10.  A tick never throws and sends at most one device command.
    Either it leaves every variable as it was and notifies nobody, or the
    state disagreed with the sample and the tick sent one command, set
    [vibrationState] to what the sample wants and notified the dashboard
    once with the sample and the new state.  When the device refuses its
    commands, the tick changes nothing. *)
Theorem tick_outcomes :
  forall (env : Main.CommandEnv) (v : Vars),
    let o := Main.processHeartRate env v in
    let want := desired (heartRate (state v)) in
    result o = Ok tt /\
    (count isDeviceCommand (events o) <= 1)%nat /\
    ((final o = v /\ count isStatusUpdate (events o) = 0%nat) \/
     (vibrationState (state v) <> want /\
      final o = set_vibrationState want v /\
      filter isStatusUpdate (events o) = [UpdateUIStatus (heartRate (state v)) want] /\
      count isDeviceCommand (events o) = 1%nat)) /\
    (failed (Main.vibrate_outcome env) = true ->
     failed (Main.stop_outcome env) = true ->
     final o = v).
Proof.
  intros [[|e1] [|e2]] [[[[|]]|] [d|] cs [hr vs cr [|]] bp];
    cbv zeta; unfold desired; cbn [state heartRate vibrationState];
    cbv -[Z.ltb Z.geb Nat.le]; rewrite ?geb_ltb;
    destruct (hr <? 100); destruct vs; cbn;
    repeat split; try lia; try discriminate;
    try (left; split; reflexivity);
    try (right; repeat split; (reflexivity || discriminate)).
Qed.

(** X11.  Once shutdown is in progress, a tick and a firing retry timer do
    nothing: no call, no change, and the retry chain ends at that
    invocation without an attempt. *)
Theorem quiet_after_shutdown_begins :
  forall (tick : Main.CommandEnv) (envs : nat -> Bp.ConnectEnv) (fuel : nat) (v : Vars),
    shutdownInProgress (state v) = true ->
    Main.processHeartRate tick v = (Ok tt, v, []) /\
    Main.connectWithRetry (envs O) v = (Ok tt, v, []) /\
    Main.retryChain (S fuel) envs v = Some (1%nat, v, []).
Proof.
  intros tick envs fuel v H.
  assert (Hc : forall env, Main.connectWithRetry env v = (Ok tt, v, [])).
  { intros env. unfold Main.connectWithRetry, bind, read. cbv beta. now rewrite H. }
  split; [|split].
  - unfold Main.processHeartRate, bind, read. cbv beta. rewrite H.
    now rewrite orb_true_r.
  - apply Hc.
  - cbn [Main.retryChain]. rewrite Hc. reflexivity.
Qed.

Lemma quiet_after_shutdown_begins_witness :
  Main.processHeartRate obeys
    (final (Main.gracefulShutdown stuckDevice (readyVars 95 On)))
  = (Ok tt, final (Main.gracefulShutdown stuckDevice (readyVars 95 On)), []).
Proof.
  destruct (quiet_after_shutdown_begins obeys (fun _ => serverUp) 0
              (final (Main.gracefulShutdown stuckDevice (readyVars 95 On))) eq_refl)
    as (H & _).
  exact H.
Defined.

(** One invocation whose attempt goes through. *)
Lemma retry_step_ok (env : Bp.ConnectEnv) (v : Vars) :
  shutdownInProgress (state v) = false ->
  Bp.clientConnected v = false ->
  isConnecting (connectionStatus v) = false ->
  rejects env = false ->
  let o := Main.connectWithRetry env v in
  connectRetries (state (final o)) = 0 /\
  Bp.isReady (final o) = true /\
  count isClientConnect (events o) = 1%nat /\
  existsb Main.isSetTimeout (events o) = false /\
  count Main.isSetTimeout (events o) = 0%nat.
Proof.
  intros Hs Hc Hi Hr o. subst o. rewrite (connectWithRetry_eq env v Hs).
  destruct (connect_accepted (Main.BUTTPLUG_URL Main.CONFIG) 10000 env v Hi Hc Hr)
    as (d & t & _ & E & _ & Hcc & Hst).
  rewrite E. unfold final, events. cbn [fst snd].
  repeat split; trivial.
  unfold count. clear -Hst. induction t as [|x t IH]; [reflexivity|].
  cbn in *. destruct (Main.isSetTimeout x); [discriminate|]. now apply IH.
Qed.

Lemma retry_chain_until (k : nat) :
  forall (envs : nat -> Bp.ConnectEnv) (v : Vars) (fuel : nat),
    0 <= connectRetries (state v) ->
    connectRetries (state v) + Z.of_nat k < Main.CONNECTION_RETRIES Main.CONFIG ->
    (S k <= fuel)%nat ->
    shutdownInProgress (state v) = false ->
    Bp.clientConnected v = false ->
    isConnecting (connectionStatus v) = false ->
    (forall i, (i < k)%nat -> rejects (envs i) = true) ->
    rejects (envs k) = false ->
    exists v' t,
      Main.retryChain fuel envs v = Some (S k, v', t) /\
      connectRetries (state v') = 0 /\
      Bp.isReady v' = true /\
      count isClientConnect t = S k /\
      count Main.isSetTimeout t = k.
Proof.
  change (Main.CONNECTION_RETRIES Main.CONFIG) with 5.
  induction k as [|k IH]; intros envs v fuel H0 Hk Hf Hs Hc Hi Hrej Hok;
    (destruct fuel as [|fuel]; [lia|]); cbn [Main.retryChain]; unfold Main.forget.
  - destruct (retry_step_ok (envs O) v Hs Hc Hi Hok) as (H1 & H2 & H3 & H4 & H5).
    rewrite H4. eauto 10.
  - destruct (retry_step (envs O) v Hs Hc Hi (Hrej O ltac:(lia)))
      as (H1 & H2 & H3 & H4 & H5 & H6 & H7).
    change (Main.CONNECTION_RETRIES Main.CONFIG) with 5 in H6, H7.
    assert (Hlt : (connectRetries (state v) + 1 <? 5) = true) by (apply Z.ltb_lt; lia).
    rewrite Hlt in H6, H7. rewrite H6.
    destruct (IH (fun i => envs (S i)) (final (Main.connectWithRetry (envs O) v)) fuel)
      as (v' & t & E & Hn & Hr & Hcc & Hst); trivial; try (rewrite H1; lia); try lia.
    { intros i Hi'. apply Hrej. lia. }
    rewrite E. exists v', (events (Main.connectWithRetry (envs O) v) ++ t).
    rewrite !count_app, H5, H7, Hcc, Hst. repeat split; trivial.
Qed.

(** X12.  Retries until connected.  Started with the counter at zero, no
    shutdown and no connection, when the first [k] attempts are let down
    ([k] below [CONNECTION_RETRIES]) and the next one goes through, the
    chain makes exactly [k + 1] attempts, sets the timer [k] times, and ends
    with the module ready and the counter back at zero. *)
Theorem retry_until_connected :
  forall (k : nat) (envs : nat -> Bp.ConnectEnv) (v : Vars) (fuel : nat),
    Z.of_nat k < Main.CONNECTION_RETRIES Main.CONFIG ->
    (S k <= fuel)%nat ->
    shutdownInProgress (state v) = false ->
    connectRetries (state v) = 0 ->
    Bp.clientConnected v = false ->
    isConnecting (connectionStatus v) = false ->
    (forall i, (i < k)%nat -> rejects (envs i) = true) ->
    rejects (envs k) = false ->
    exists v' t,
      Main.retryChain fuel envs v = Some (S k, v', t) /\
      connectRetries (state v') = 0 /\
      Bp.isReady v' = true /\
      count isClientConnect t = S k /\
      count Main.isSetTimeout t = k.
Proof.
  intros k envs v fuel Hk Hf Hs H0 Hc Hi Hrej Hok.
  apply retry_chain_until; trivial; rewrite H0; lia.
Qed.

Lemma retry_until_connected_witness :
  exists v' t,
    Main.retryChain 5 thirdTimeLucky (Main.initialVars true) = Some (3%nat, v', t) /\
    connectRetries (state v') = 0 /\
    Bp.isReady v' = true /\
    count isClientConnect t = 3%nat /\
    count Main.isSetTimeout t = 2%nat.
Proof.
  apply (retry_until_connected 2 thirdTimeLucky (Main.initialVars true) 5);
    try reflexivity; try (cbn; lia).
  intros [|[|i]] Hi; try reflexivity. lia.
Defined.

(** X13.  A first [gracefulShutdown] acts in a fixed order: it clears the
    tick timer and stops the device through [off()] when it is ready and
    vibrating.  When [off()] threw it exits at once with code 1.  Otherwise
    it stops the device again and disconnects the client inside
    [safeDisconnect] as far as a device and a connection are held, and
    closes the listener.  From there it goes on only when the close
    callback is called: it kills the server process when there is one
    (unless closing threw) and last of all exits.  While the callback is
    not called it neither kills the server process nor exits. *)
Theorem shutdown_order :
  forall (env : Main.ShutdownEnv) (v : Vars),
    shutdownInProgress (state v) = false ->
    filter isStep (events (Main.gracefulShutdown env v))
    = [ClearInterval]
      ++ (if Bp.isReady v && VibrationState_eqb (vibrationState (state v)) On
          then [DeviceStop] else [])
      ++ (if offFails env v then [ProcessExit 1]
          else (match client v, device v with
                | Some _, Some _ => [DeviceStop]
                | _, _ => []
                end)
               ++ (if Bp.clientConnected v then [ClientDisconnect] else [])
               ++ [WssClose]
               ++ (match Main.close_outcome env with
                   | StaysPending => []
                   | Settles o =>
                       (if failed o || negb (buttplugProc v) then [] else [ProcKill])
                       ++ [ProcessExit (if failed o || killFails env v then 1 else 0)]
                   end)).
Proof.
  intros [[|e1] [[|e2] [|e3]] [[|e4]|] [|e5]]
         [[[[|]]|] [d|] cs [hr [|] cr [|]] [|]] Hs;
    try discriminate Hs; reflexivity.
Qed.

Lemma shutdown_order_witness :
  filter isStep (events (Main.gracefulShutdown smoothShutdown (readyVars 95 On)))
  = [ClearInterval; DeviceStop; DeviceStop; ClientDisconnect; WssClose; ProcKill;
     ProcessExit 0] /\
  filter isStep (events (Main.gracefulShutdown clientLingers (readyVars 95 On)))
  = [ClearInterval; DeviceStop; DeviceStop; ClientDisconnect; WssClose].
Proof.
  split.
  - exact (shutdown_order smoothShutdown (readyVars 95 On) eq_refl).
  - exact (shutdown_order clientLingers (readyVars 95 On) eq_refl).
Defined.

(* ===================================================================== *)
(** ** main.js: more of the protocol handler *)
(* ===================================================================== *)

Lemma digits_inert (junk : string) (acc : option Z) :
  inert junk = true -> Js.digits junk acc = acc.
Proof.
  destruct junk as [|c r]; [reflexivity|]. cbn [inert Js.digits].
  destruct (Js.digitValue c); [discriminate|reflexivity].
Qed.

Lemma digits_of_uint_acc (junk : string) (d : Decimal.uint) :
  inert junk = true ->
  forall acc : positive,
    Js.digits (append (NilEmpty.string_of_uint d) junk) (Some (Zpos acc))
    = Some (Zpos (Pos.of_uint_acc d acc)).
Proof.
  intros Hj.
  induction d as [|d IH|d IH|d IH|d IH|d IH|d IH|d IH|d IH|d IH|d IH]; intros acc;
    cbn [NilEmpty.string_of_uint append Js.digits Pos.of_uint_acc];
    [now apply digits_inert|..];
    match goal with
    | |- context [Js.digitValue ?c] =>
        let k := eval vm_compute in (Js.digitValue c) in
        change (Js.digitValue c) with k
    end;
    cbv beta iota;
    match goal with
    | |- Js.digits _ (Some ?z) = Some (Zpos (Pos.of_uint_acc _ ?p)) =>
        replace z with (Zpos p) by lia
    end; apply IH.
Qed.

Lemma digits_of_uint (junk : string) (d : Decimal.uint) :
  inert junk = true ->
  Js.digits (append (NilEmpty.string_of_uint d) junk) (Some 0)
  = Some (Z.of_N (Pos.of_uint d)).
Proof.
  intros Hj.
  induction d as [|d IH|d IH|d IH|d IH|d IH|d IH|d IH|d IH|d IH|d IH];
    cbn [NilEmpty.string_of_uint append Js.digits Pos.of_uint];
    [now apply digits_inert|exact IH|..];
    apply (digits_of_uint_acc junk d Hj).
Qed.

Lemma parseInt10_of_uint (junk : string) (d : Decimal.uint) :
  inert junk = true ->
  d <> Decimal.Nil ->
  Js.parseInt10 (append (NilEmpty.string_of_uint d) junk)
  = Some (Js.double (Z.of_N (Pos.of_uint d))) /\
  Js.parseInt10 (String "-" (append (NilEmpty.string_of_uint d) junk))
  = Some (Js.double (- Z.of_N (Pos.of_uint d))).
Proof.
  intros Hj Hd. pose proof (digits_of_uint junk d Hj) as H.
  destruct d; try (now elim Hd);
    unfold Js.parseInt10;
    cbn [NilEmpty.string_of_uint append Js.trimStart Js.isWhiteSpace] in *;
    repeat match goal with
    | |- context [Js.isWhiteSpace ?c] =>
        let b := eval vm_compute in (Js.isWhiteSpace c) in
        change (Js.isWhiteSpace c) with b
    end;
    cbn -[Js.digits Js.double Z.mul Z.of_N Pos.of_uint append];
    change (Js.digits (String ?c ?r) None) with (Js.digits (String c r) (Some 0));
    rewrite H; split; do 2 f_equal; lia.
Qed.

Lemma parseInt10_decimal_junk (n : Z) (junk : string) :
  inert junk = true -> Js.parseInt10 (append (decimal n) junk) = Some (Js.double n).
Proof.
  intros Hj. destruct n as [|p|p]; unfold decimal; cbn [Z.to_int NilZero.string_of_int].
  - apply (parseInt10_of_uint junk (Decimal.D0 Decimal.Nil) Hj). discriminate.
  - unfold NilZero.string_of_uint.
    pose proof (Unsigned.to_uint_nonnil p) as Hn.
    destruct (parseInt10_of_uint junk (Pos.to_uint p) Hj Hn) as [H _].
    rewrite Unsigned.of_to in H.
    destruct (Pos.to_uint p); try (now elim Hn); exact H.
  - unfold NilZero.string_of_uint.
    pose proof (Unsigned.to_uint_nonnil p) as Hn.
    destruct (parseInt10_of_uint junk (Pos.to_uint p) Hj Hn) as [_ H].
    rewrite Unsigned.of_to in H.
    destruct (Pos.to_uint p); try (now elim Hn); exact H.
Qed.

Lemma trimStart_blank (ws s : string) :
  blank ws = true -> Js.trimStart (append ws s) = Js.trimStart s.
Proof.
  induction ws as [|c ws IH]; [reflexivity|]. cbn [blank append Js.trimStart].
  intros H. apply andb_prop in H. destruct H as [H1 H2]. rewrite H1. now apply IH.
Qed.

Lemma append_empty (s : string) : append s "" = s.
Proof. induction s as [|c s IH]; [reflexivity|]. cbn. now rewrite IH. Qed.

(** The handler on a well-formed update whose text parses. *)
Lemma onMessage_accepts (msg : Js.json)
  (d requestData inputSettings requestId : Js.value) (s : string) (hr : Z) (v : Vars) :
  Js.getProp (Some msg) "op" = Some (Some (Js.JNum 6)) ->
  Js.getProp (Some msg) "d" = Some d ->
  Js.getProp d "requestType" = Some (Some (Js.JStr "SetInputSettings")) ->
  Js.getProp d "requestData" = Some requestData ->
  Js.getProp requestData "inputName" = Some (Some (Js.JStr "heartrate")) ->
  Js.getProp requestData "inputSettings" = Some inputSettings ->
  Js.truthy (Js.getPropOpt inputSettings "text") = true ->
  Js.toString (Js.getPropOpt inputSettings "text") = Some s ->
  Js.parseInt10 s = Some hr ->
  Js.getProp d "requestId" = Some requestId ->
  Main.onMessage (Main.Parsed msg) v
  = (Ok tt, set_heartRate hr v,
     [UpdateUIStatus hr (vibrationState (state v));
      WsSend (Main.requestResponse (Some (Js.JStr "SetInputSettings")) requestId)]).
Proof.
  intros Hop Hd Hrt Hrd Hin His Htr Hs Hp Hid.
  unfold Main.onMessage, Main.prop, Main.toString, bind. rewrite Hop, Hd. req_simpl.
  rewrite Hrt. req_simpl. rewrite Hrd. req_simpl. rewrite Hin, His. req_simpl.
  rewrite Hid, Htr. req_simpl.
  assert (Htx : Js.getProp inputSettings "text"
                = Some (Js.getPropOpt inputSettings "text")).
  { destruct inputSettings as [[| | | | |f]|]; try discriminate Htr; reflexivity. }
  rewrite Htx. req_simpl. rewrite Hs. req_simpl. rewrite Hp. reflexivity.
Qed.

(** X14.  [parseInt(text, 10)] reads decimal text back: for every integer
    [n] of magnitude below 2^53, the decimal text of [n] parses to [n],
    also when white space precedes it and when text that does not start
    with a digit follows it; a JSON number [n] used as text prints as that
    decimal text, and so parses to [n] as well.  A heart-rate update whose
    text is the decimal text of [n] stores [n]. *)
Theorem parseInt10_reads_decimal :
  forall (n : Z) (ws junk : string),
    Z.abs n < 2 ^ 53 ->
    blank ws = true ->
    inert junk = true ->
    Js.parseInt10 (append ws (append (decimal n) junk)) = Some n /\
    Js.parseInt10 (decimal n) = Some n /\
    Js.toString (Some (Js.JNum n)) = Some (decimal n) /\
    (forall (requestId : Js.value) (v : Vars),
       final (Main.onMessage
                (Main.Parsed (request "SetInputSettings" requestId "heartrate" (decimal n)))
                v)
       = set_heartRate n v).
Proof.
  intros n ws junk Hn Hw Hj.
  assert (Hd : Js.parseInt10 (decimal n) = Some n).
  { rewrite <- (append_empty (decimal n)).
    rewrite parseInt10_decimal_junk by reflexivity. now rewrite double_safe. }
  split; [|split; [exact Hd|split]].
  - unfold Js.parseInt10. rewrite (trimStart_blank ws _ Hw).
    rewrite <- (double_safe n Hn) at 2.
    exact (parseInt10_decimal_junk n junk Hj).
  - cbn [Js.toString Js.jsonToString]. rewrite (double_safe n Hn).
    unfold Js.numberToString. cbv zeta.
    assert (Hi : (Js.infinity <=? Z.abs n) = false).
    { apply Z.leb_gt. eapply Z.lt_trans; [exact Hn|].
      unfold Js.infinity. apply Z.pow_lt_mono_r; lia. }
    rewrite Hi. apply Z.ltb_lt in Hn. rewrite Hn. reflexivity.
  - intros rid v.
    assert (Ht : Js.truthy (Some (Js.JStr (decimal n))) = true).
    { cbn [Js.truthy]. destruct (String.eqb_spec (decimal n) "") as [E|_]; [|reflexivity].
      rewrite E in Hd. discriminate Hd. }
    destruct rid as [rid|];
      erewrite onMessage_accepts; try reflexivity; try exact Ht; exact Hd.
Qed.

Lemma parseInt10_reads_decimal_witness :
  Js.parseInt10 (append "  " (append (decimal 87) " bpm")) = Some 87.
Proof.
  destruct (parseInt10_reads_decimal 87 "  " " bpm" eq_refl eq_refl eq_refl) as (H & _).
  exact H.
Defined.

(** X15.  An [Identify] frame (op 1) is answered with exactly one
    [Identified] carrying the negotiated version, whatever else the frame
    holds and at any time in the session; nothing is changed. *)
Theorem identify_acknowledged :
  forall (msg : Js.json) (v : Vars),
    Js.getProp (Some msg) "op" = Some (Some (Js.JNum 1)) ->
    Main.onMessage (Main.Parsed msg) v = (Ok tt, v, [WsSend Main.identifiedMessage]).
Proof.
  intros msg v Hop.
  destruct msg as [| | | | |fields]; try discriminate Hop.
  unfold Main.onMessage, Main.prop, bind. rewrite Hop. req_simpl. reflexivity.
Qed.

Lemma identify_acknowledged_witness :
  Main.onMessage (Main.Parsed (frame 1 None)) (readyVars 95 On)
  = (Ok tt, readyVars 95 On, [WsSend Main.identifiedMessage]).
Proof.
  exact (identify_acknowledged (frame 1 None) (readyVars 95 On) eq_refl).
Defined.

(** X16.  A ['SetInputSettings'] request for the field 'heartrate' whose
    text is truthy, converts to a string and parses to [hr] overwrites the
    sample with [hr] and nothing else, then notifies the dashboard with [hr]
    and the current vibration state, then sends the success response, in
    that order. *)
Theorem sample_update_accepted :
  forall (msg : Js.json) (d requestData inputSettings requestId : Js.value)
         (s : string) (hr : Z) (v : Vars),
    Js.getProp (Some msg) "op" = Some (Some (Js.JNum 6)) ->
    Js.getProp (Some msg) "d" = Some d ->
    Js.getProp d "requestType" = Some (Some (Js.JStr "SetInputSettings")) ->
    Js.getProp d "requestData" = Some requestData ->
    Js.getProp requestData "inputName" = Some (Some (Js.JStr "heartrate")) ->
    Js.getProp requestData "inputSettings" = Some inputSettings ->
    Js.truthy (Js.getPropOpt inputSettings "text") = true ->
    Js.toString (Js.getPropOpt inputSettings "text") = Some s ->
    Js.parseInt10 s = Some hr ->
    Js.getProp d "requestId" = Some requestId ->
    Main.onMessage (Main.Parsed msg) v
    = (Ok tt, set_heartRate hr v,
       [UpdateUIStatus hr (vibrationState (state v));
        WsSend (Main.requestResponse (Some (Js.JStr "SetInputSettings")) requestId)]).
Proof.
  intros msg d rd inputSettings rid s hr v Hop Hd Hrt Hrd Hin His Htr Hs Hp Hid.
  unfold Main.onMessage, Main.prop, Main.toString, bind. rewrite Hop, Hd. req_simpl.
  rewrite Hrt. req_simpl. rewrite Hrd. req_simpl. rewrite Hin, His. req_simpl.
  rewrite Hid, Htr. req_simpl.
  assert (Htx : Js.getProp inputSettings "text"
                = Some (Js.getPropOpt inputSettings "text")).
  { destruct inputSettings as [[| | | | |f]|]; try discriminate Htr; reflexivity. }
  rewrite Htx. req_simpl. rewrite Hs. req_simpl. rewrite Hp. reflexivity.
Qed.

Lemma sample_update_accepted_witness :
  Main.onMessage
    (Main.Parsed (request "SetInputSettings" (Some (Js.JStr "r1")) "heartrate" "87"))
    (readyVars 120 Off)
  = (Ok tt, set_heartRate 87 (readyVars 120 Off),
     [UpdateUIStatus 87 Off;
      WsSend (Main.requestResponse (Some (Js.JStr "SetInputSettings"))
                (Some (Js.JStr "r1")))]).
Proof.
  exact (sample_update_accepted
           (request "SetInputSettings" (Some (Js.JStr "r1")) "heartrate" "87")
           _ _ _ _ "87" 87 (readyVars 120 Off)
           eq_refl eq_refl eq_refl eq_refl eq_refl eq_refl eq_refl eq_refl eq_refl eq_refl).
Defined.

Lemma protocol_events_quiet (t : list Event) :
  Forall isProtocolEvent t ->
  observed t = [] /\ count isDeviceCommand t = 0%nat /\ count isTeardown t = 0%nat.
Proof.
  induction 1 as [|e t He _ IH]; [repeat split|].
  destruct e; try (now elim He); exact IH.
Qed.

(** X17.  The message handler only ever writes the sample.  Whatever the
    frame, it leaves the vibration state, the connection, the retry counter
    and the shutdown latch as they were, emits nothing but frames to its
    client and status notifications, sends no device command, tears nothing
    down and never suspends. *)
Theorem handler_writes_only_the_sample :
  forall (data : Main.Frame) (v : Vars),
    let o := Main.onMessage data v in
    sameButSample v (final o) /\
    Forall isProtocolEvent (events o) /\
    observed (events o) = [] /\
    count isDeviceCommand (events o) = 0%nat /\
    count isTeardown (events o) = 0%nat.
Proof.
  intros data v o. destruct (onMessage_sample_only data v) as [H1 H2].
  split; [exact H1|]. split; [exact H2|]. now apply protocol_events_quiet.
Qed.

(** X18.  A ['SetInputSettings'] request for any field other than
    'heartrate' changes nothing and is answered with the success
    response. *)
Theorem other_field_acknowledged :
  forall (msg : Js.json) (d requestData inputName requestId : Js.value) (v : Vars),
    Js.getProp (Some msg) "op" = Some (Some (Js.JNum 6)) ->
    Js.getProp (Some msg) "d" = Some d ->
    Js.getProp d "requestType" = Some (Some (Js.JStr "SetInputSettings")) ->
    Js.getProp d "requestData" = Some requestData ->
    Js.getProp requestData "inputName" = Some inputName ->
    Js.strictEqStr inputName "heartrate" = false ->
    Js.getProp d "requestId" = Some requestId ->
    Main.onMessage (Main.Parsed msg) v
    = (Ok tt, v,
       [WsSend (Main.requestResponse (Some (Js.JStr "SetInputSettings")) requestId)]).
Proof.
  intros msg d rd inputName rid v Hop Hd Hrt Hrd Hin Hne Hid.
  unfold Main.onMessage, Main.prop, bind. rewrite Hop, Hd. req_simpl.
  rewrite Hrt. req_simpl. rewrite Hrd. req_simpl. rewrite Hin.
  assert (His : exists inputSettings,
             Js.getProp rd "inputSettings" = Some inputSettings).
  { destruct rd as [[| | | | |f]|]; try discriminate Hin; eexists; reflexivity. }
  destruct His as (inputSettings & His). rewrite His. req_simpl.
  rewrite Hid, Hne. reflexivity.
Qed.

Lemma other_field_acknowledged_witness :
  Main.onMessage
    (Main.Parsed (request "SetInputSettings" (Some (Js.JStr "r1")) "title" "87"))
    (readyVars 120 Off)
  = (Ok tt, readyVars 120 Off,
     [WsSend (Main.requestResponse (Some (Js.JStr "SetInputSettings"))
                (Some (Js.JStr "r1")))]).
Proof.
  exact (other_field_acknowledged
           (request "SetInputSettings" (Some (Js.JStr "r1")) "title" "87")
           _ _ _ _ (readyVars 120 Off)
           eq_refl eq_refl eq_refl eq_refl eq_refl eq_refl eq_refl).
Defined.

(** X19.  A frame that makes the listener throw stops the bridge.  A
    [Request] frame (op 6) whose [d] is missing or null, or a
    ['SetInputSettings'] request whose [requestData] is missing or null,
    makes the listener throw.  Whenever the listener throws, nothing has
    been sent or written, and the uncaught exception runs
    [gracefulShutdown]: when no shutdown was in progress the latch is set
    and the tick timer cleared, every later tick does nothing, and the
    client gets no response.  The process exits right away when [off()]
    throws; otherwise it exits only once the listener's close callback is
    called. *)
Theorem broken_request_stops_the_bridge :
  forall (msg : Js.json) (env : Main.ShutdownEnv) (tick : Main.CommandEnv) (v : Vars),
    shutdownInProgress (state v) = false ->
    (forall d : Js.value,
       Js.getProp (Some msg) "op" = Some (Some (Js.JNum 6)) ->
       Js.getProp (Some msg) "d" = Some d ->
       (Js.getProp d "requestType" = None \/
        (Js.getProp d "requestType" = Some (Some (Js.JStr "SetInputSettings")) /\
         exists requestData,
           Js.getProp d "requestData" = Some requestData /\
           Js.getProp requestData "inputName" = None)) ->
       exists e, result (Main.onMessage (Main.Parsed msg) v) = Throw e) /\
    (forall e : Error,
       result (Main.onMessage (Main.Parsed msg) v) = Throw e ->
       let after := Main.dispatch (Main.Message (Main.Parsed msg) env) v in
       Main.onMessage (Main.Parsed msg) v = (Throw e, v, []) /\
       after = Main.forget (Main.gracefulShutdown env v) /\
       shutdownInProgress (state (fst after)) = true /\
       count isClearInterval (snd after) = 1%nat /\
       filter isResponse (snd after) = [] /\
       Main.processHeartRate tick (fst after) = (Ok tt, fst after, []) /\
       count isProcessExit (snd after)
       = (if negb (offFails env v) && closePending env then 0%nat else 1%nat)).
Proof.
  intros msg env tick v Hs. split.
  - intros d Hop Hd Hbad.
    unfold Main.onMessage, Main.prop, bind, result. rewrite Hop, Hd. req_simpl.
    destruct Hbad as [Hrt|(Hrt & rd & Hrd & Hin)]; rewrite Hrt; req_simpl.
    + eexists; reflexivity.
    + rewrite Hrd. req_simpl. rewrite Hin. eexists; reflexivity.
  - intros e Ht after. pose proof (onMessage_throw _ _ _ Ht) as E.
    assert (Ed : after = Main.forget (Main.gracefulShutdown env v)).
    { subst after. cbn [Main.dispatch]. rewrite E. unfold Main.forget, final, events.
      destruct (Main.gracefulShutdown env v) as [[r v2] t2]. reflexivity. }
    split; [exact E|]. split; [exact Ed|]. rewrite Ed. unfold Main.forget. cbn [fst snd].
    destruct (shutdown_run env v Hs) as (_ & H2 & _ & _ & _ & _ & H7 & H8 & _).
    split; [exact H8|]. split; [exact H2|]. split; [|split; [|exact H7]].
    + clear. destruct env as [[|e1] [[|e2] [|e3]] [[|e4]|] [|e5]];
        destruct v as [[[[|]]|] [dv|] cs [hr [|] cr [|]] [|]]; reflexivity.
    + unfold Main.processHeartRate, bind, read. cbv beta. rewrite H8.
      now rewrite orb_true_r.
Qed.

Lemma broken_request_stops_the_bridge_witness :
  shutdownInProgress
    (state (fst (Main.dispatch (Main.Message (Main.Parsed (frame 6 None)) clientLingers)
                   (readyVars 95 On)))) = true /\
  count isProcessExit
    (snd (Main.dispatch (Main.Message (Main.Parsed (frame 6 None)) clientLingers)
            (readyVars 95 On))) = 0%nat.
Proof.
  destruct (broken_request_stops_the_bridge (frame 6 None) clientLingers obeys
              (readyVars 95 On) eq_refl) as (H1 & H2).
  destruct (H1 None eq_refl eq_refl (or_introl eq_refl)) as (e & He).
  destruct (H2 e He) as (_ & _ & H3 & _ & _ & _ & H7).
  split; [exact H3 | exact H7].
Defined.

(* ===================================================================== *)
(** ** web_ui.js with main.js: the dashboard *)
(* ===================================================================== *)

(** The handler either notifies nobody and leaves the variables alone, or
    stores a sample and notifies once. *)
Lemma onMessage_shape (data : Main.Frame) (v : Vars) :
  (exists r t, Main.onMessage data v = (r, v, t) /\ filter isStatusUpdate t = []) \/
  (exists hr w,
     Main.onMessage data v
     = (Ok tt, set_heartRate hr v,
        [UpdateUIStatus hr (vibrationState (state v)); WsSend w])).
Proof.
  destruct (onMessage_cases data v) as [(hr & w & _ & E)|(_ & r & t & E & Hq & _)].
  - right. now exists hr, w.
  - left. now exists r, t.
Qed.

Lemma replay_app (a b : list Event) (u : WebUi.UiState) :
  WebUi.replay (a ++ b) u
  = let '(u1, o1) := WebUi.replay a u in
    let '(u2, o2) := WebUi.replay b u1 in (u2, o1 ++ o2).
Proof.
  revert u. induction a as [|e a IH]; intros u; cbn [app WebUi.replay].
  - destruct (WebUi.replay b u). reflexivity.
  - destruct e; try apply IH.
    cbn [WebUi.update]. rewrite IH.
    destruct (WebUi.replay a _) as [u1 o1]. destruct (WebUi.replay b u1). reflexivity.
Qed.

Lemma replay_quiet (t : list Event) (u : WebUi.UiState) :
  filter isStatusUpdate t = [] -> WebUi.replay t u = (u, []).
Proof.
  induction t as [|e t IH]; [reflexivity|].
  destruct e; cbn; try exact IH. discriminate.
Qed.

Lemma replay_connections (t : list Event) :
  forall u, WebUi.connections (fst (WebUi.replay t u)) = WebUi.connections u.
Proof.
  induction t as [|e t IH]; intros u; [reflexivity|].
  destruct e; cbn [WebUi.replay]; try apply IH.
  cbn [WebUi.update].
  specialize (IH {| WebUi.heartRate := hr; WebUi.vibrationState := vs;
                    WebUi.connections := WebUi.connections u |}).
  destruct (WebUi.replay t _) as [u2 o2]. exact IH.
Qed.

Lemma quiet_filter (t : list Event) :
  Forall noStatusUpdate t -> filter isStatusUpdate t = [].
Proof.
  induction 1 as [|e t He _ IH]; [reflexivity|]. cbn. now rewrite He.
Qed.

Lemma mirrors_same (u : WebUi.UiState) (v v' : Vars) :
  sameDisplay v v' -> mirrors u v -> mirrors u v'.
Proof. unfold sameDisplay, mirrors. intuition congruence. Qed.

(** Each callback of main.js leaves the dashboard showing what main.js
    holds. *)
Lemma backend_mirrors (cb : Main.Callback) (v : Vars) (u : WebUi.UiState) :
  mirrors u v ->
  mirrors (fst (WebUi.replay (snd (Main.dispatch cb v)) u)) (fst (Main.dispatch cb v)).
Proof.
  intros Hm.
  assert (Quiet : forall (A : Type) (m : M A),
             preserves sameDisplay noStatusUpdate m ->
             forall w u', mirrors u' w ->
               WebUi.replay (events (m w)) u' = (u', []) /\ mirrors u' (final (m w))).
  { intros A m Hp w u' Hw. destruct (Hp w) as [H1 H2]. split.
    - apply replay_quiet, quiet_filter, H2.
    - now apply (mirrors_same u' w). }
  destruct cb as [env|data env|action env|env|env]; cbn [Main.dispatch].
  - destruct u as [uh uv uc]. destruct Hm as [H1 H2]. cbn in H1, H2. subst.
    destruct env as [[|e1] [|e2]];
      destruct v as [[[[|]]|] [d|] cs [hr vs cr [|]] bp];
      try (split; reflexivity);
      cbv -[Z.ltb Z.geb]; rewrite ?geb_ltb;
      destruct (hr <? 100); destruct vs; split; reflexivity.
  - assert (Hd : mirrors (fst (WebUi.replay (events (Main.onMessage data v)) u))
                   (final (Main.onMessage data v))).
    { destruct (onMessage_shape data v) as [(r & t & E & Hq)|(hr & w & E)]; rewrite E.
      - unfold events, final. cbn [fst snd]. now rewrite (replay_quiet t u Hq).
      - split; reflexivity. }
    unfold final, events in Hd.
    destruct (Main.onMessage data v) as [[[[]|e|c|] v1] t1]; cbn [fst snd] in *;
      try exact Hd.
    destruct (WebUi.replay t1 u) as [u1 o1] eqn:E1. cbn [fst] in Hd.
    destruct (Quiet _ _ (gracefulShutdown_display env) v1 u1 Hd) as [Eq Hq].
    unfold Main.forget, final, events in *.
    destruct (Main.gracefulShutdown env v1) as [[r2 v2] t2]. cbn [fst snd] in *.
    rewrite replay_app, E1, Eq. exact Hq.
  - destruct u as [uh uv uc]. destruct Hm as [H1 H2]. cbn in H1, H2. subst.
    unfold Main.forget.
    destruct (Bp.isReady v) eqn:Hr.
    + destruct (proj2 (handleUIControl_cases action env v) Hr) as (Hon & Hoff & Hother).
      destruct (String.eqb_spec action "on") as [->|Hn1].
      { rewrite (Hon eq_refl). destruct (Main.vibrate_outcome env); split; reflexivity. }
      destruct (String.eqb_spec action "off") as [->|Hn2].
      { rewrite (Hoff eq_refl). destruct (Main.stop_outcome env); split; reflexivity. }
      rewrite (Hother Hn1 Hn2). split; reflexivity.
    + rewrite (proj1 (handleUIControl_cases action env v) Hr). split; reflexivity.
  - unfold Main.forget. cbn [fst snd].
    destruct (Quiet _ _ (connectWithRetry_display env) v u Hm) as [Eq Hq].
    rewrite Eq. exact Hq.
  - unfold Main.forget. cbn [fst snd].
    destruct (Quiet _ _ (gracefulShutdown_display env) v u Hm) as [Eq Hq].
    rewrite Eq. exact Hq.
Qed.

(** One callback of the wired application: the dashboard still shows what
    main.js holds, and only sockets coming and going move the counter. *)
Lemma app_dispatch_keeps (c : App.Callback) (v : Vars) (u : WebUi.UiState) :
  (mirrors u v -> mirrors (appUi (App.dispatch c v u)) (appVars (App.dispatch c v u))) /\
  WebUi.connections (appUi (App.dispatch c v u))
  = WebUi.connections u
    + (if isSocketConnect c then 1 else 0) - (if isSocketDisconnect c then 1 else 0).
Proof.
  assert (Manual : forall action message env socket,
            (mirrors u v ->
             mirrors
               (appUi (WebUi.manual action message
                         (fun a => Main.handleUIControl a env) socket v u))
               (appVars (WebUi.manual action message
                           (fun a => Main.handleUIControl a env) socket v u))) /\
            WebUi.connections
              (appUi (WebUi.manual action message
                        (fun a => Main.handleUIControl a env) socket v u))
            = WebUi.connections u).
  { intros action message env socket. unfold WebUi.manual, appUi, appVars.
    pose proof (backend_mirrors (Main.UIControl action env) v u) as Hb.
    cbn [Main.dispatch] in Hb. unfold Main.forget, final, events in Hb.
    cbn [fst snd] in Hb.
    destruct (Main.handleUIControl action env v) as [[r v1] t]. cbn [fst snd] in Hb.
    pose proof (replay_connections t u) as Hc.
    destruct (WebUi.replay t u) as [u1 outs]. cbn [fst snd] in *. now split. }
  destruct c as [socket|socket|socket env|socket env|cb];
    cbn [App.dispatch isSocketConnect isSocketDisconnect].
  - unfold appUi, appVars. cbn. split; [trivial|lia].
  - unfold appUi, appVars. cbn. split; [trivial|lia].
  - destruct (Manual "on" "Failed to turn device on" env socket) as [H1 H2].
    split; [exact H1|]. unfold WebUi.onManualOn. rewrite H2. lia.
  - destruct (Manual "off" "Failed to turn device off" env socket) as [H1 H2].
    split; [exact H1|]. unfold WebUi.onManualOff. rewrite H2. lia.
  - pose proof (backend_mirrors cb v u) as Hb.
    destruct (Main.dispatch cb v) as [v1 t]. cbn [fst snd] in Hb.
    pose proof (replay_connections t u) as Hc.
    destruct (WebUi.replay t u) as [u1 outs]. unfold appUi, appVars. cbn [fst snd] in *.
    split; [exact Hb|]. rewrite Hc. lia.
Qed.

Lemma app_dispatchAll_keeps (cs : list App.Callback) :
  forall (v : Vars) (u : WebUi.UiState),
    (mirrors u v ->
     mirrors (appUi (App.dispatchAll cs v u)) (appVars (App.dispatchAll cs v u))) /\
    WebUi.connections (appUi (App.dispatchAll cs v u))
    = WebUi.connections u
      + Z.of_nat (List.length (filter isSocketConnect cs))
      - Z.of_nat (List.length (filter isSocketDisconnect cs)).
Proof.
  induction cs as [|c rest IH]; intros v u.
  - unfold appUi, appVars. cbn. split; [trivial|lia].
  - cbn [App.dispatchAll filter].
    destruct (app_dispatch_keeps c v u) as [D1 D2]. unfold appUi, appVars in D1, D2.
    destruct (App.dispatch c v u) as [[[v1 u1] t1] o1]. cbn [fst snd] in D1, D2.
    destruct (IH v1 u1) as [I1 I2]. unfold appUi, appVars in I1, I2 |- *.
    destruct (App.dispatchAll rest v1 u1) as [[[v2 u2] t2] o2]. cbn [fst snd] in *.
    split; [auto|]. rewrite I2, D2.
    destruct (isSocketConnect c), (isSocketDisconnect c); cbn [List.length]; lia.
Qed.

(** X20.  The dashboard's [connections] counter moves only when a socket
    connects or disconnects: after any sequence of callbacks it is where it
    started plus the connections minus the disconnections, whatever the
    manual controls, ticks, messages, retries and shutdowns in between. *)
Theorem dashboard_counts_sockets :
  forall (cs : list App.Callback) (v : Vars) (u : WebUi.UiState),
    WebUi.connections (appUi (App.dispatchAll cs v u))
    = WebUi.connections u
      + Z.of_nat (List.length (filter isSocketConnect cs))
      - Z.of_nat (List.length (filter isSocketDisconnect cs)).
Proof.
  induction cs as [|c rest IH]; intros v u.
  - unfold appUi. cbn. lia.
  - cbn [App.dispatchAll filter].
    destruct (app_dispatch_keeps c v u) as [_ D]. unfold appUi in D.
    destruct (App.dispatch c v u) as [[[v1 u1] t1] o1]. cbn [fst snd] in D.
    specialize (IH v1 u1). unfold appUi in IH |- *.
    destruct (App.dispatchAll rest v1 u1) as [[[v2 u2] t2] o2]. cbn [fst snd] in *.
    rewrite IH, D.
    destruct (isSocketConnect c), (isSocketDisconnect c); cbn [List.length]; lia.
Qed.

(** X21.  The dashboard never shows stale data.  If it shows what main.js
    holds (as it does at start), it still does after any sequence of
    callbacks: every write of the sample or of the vibration state is
    followed by a status notification carrying the new values.  A
    dashboard client that connects then receives exactly the current
    sample and vibration state. *)
Theorem dashboard_mirrors_state :
  forall (cs : list App.Callback) (socket : nat) (v : Vars) (u : WebUi.UiState),
    mirrors u v ->
    mirrors (appUi (App.dispatchAll cs v u)) (appVars (App.dispatchAll cs v u)) /\
    snd (WebUi.onConnection socket (appUi (App.dispatchAll cs v u)))
    = [WebUi.ToSocket socket
         (WebUi.Status (heartRate (state (appVars (App.dispatchAll cs v u))))
                       (vibrationState (state (appVars (App.dispatchAll cs v u)))))].
Proof.
  intros cs socket v u Hm.
  destruct (app_dispatchAll_keeps cs v u) as [H _]. specialize (H Hm).
  split; [exact H|]. destruct H as [H1 H2].
  unfold WebUi.onConnection. cbn [snd WebUi.heartRate WebUi.vibrationState].
  now rewrite H1, H2.
Qed.

Lemma dashboard_mirrors_state_witness :
  snd (WebUi.onConnection 7
         (appUi (App.dispatchAll
                   [App.Backend (sample "95"); App.Backend (Main.Tick obeys)]
                   (readyVars 0 Off) (showing 0 Off 0))))
  = [WebUi.ToSocket 7 (WebUi.Status 95 On)].
Proof.
  destruct (dashboard_mirrors_state
              [App.Backend (sample "95"); App.Backend (Main.Tick obeys)] 7
              (readyVars 0 Off) (showing 0 Off 0)) as (_ & H).
  - split; reflexivity.
  - exact H.
Defined.

(** X22.  Manual control from the dashboard, end to end.  Without a ready
    device the asking socket gets the error 'Failed to turn device on' (or
    'off'), no command goes to the device and nothing is broadcast.  With a
    ready device that obeys, the state changes, every dashboard client gets
    the new status and the asking socket gets no error; when the device
    refuses, the asking socket gets the error and nothing else changes. *)
Theorem manual_control_end_to_end :
  forall (socket : nat) (env : Main.CommandEnv) (v : Vars) (u : WebUi.UiState),
    (Bp.isReady v = false ->
     App.dispatch (App.ManualOn socket env) v u
     = (v, u, [], [WebUi.ToSocket socket (WebUi.Failure "Failed to turn device on")]) /\
     App.dispatch (App.ManualOff socket env) v u
     = (v, u, [], [WebUi.ToSocket socket (WebUi.Failure "Failed to turn device off")])) /\
    (Bp.isReady v = true ->
     App.dispatch (App.ManualOn socket env) v u
     = match Main.vibrate_outcome env with
       | Resolves =>
           (set_vibrationState On v,
            showing (heartRate (state v)) On (WebUi.connections u),
            [DeviceVibrate; Suspended v; UpdateUIStatus (heartRate (state v)) On],
            [WebUi.ToAll (WebUi.Status (heartRate (state v)) On)])
       | Rejects _ =>
           (v, u, [DeviceVibrate; Suspended v],
            [WebUi.ToSocket socket (WebUi.Failure "Failed to turn device on")])
       end /\
     App.dispatch (App.ManualOff socket env) v u
     = match Main.stop_outcome env with
       | Resolves =>
           (set_vibrationState Off v,
            showing (heartRate (state v)) Off (WebUi.connections u),
            [DeviceStop; Suspended v; UpdateUIStatus (heartRate (state v)) Off],
            [WebUi.ToAll (WebUi.Status (heartRate (state v)) Off)])
       | Rejects _ =>
           (v, u, [DeviceStop; Suspended v],
            [WebUi.ToSocket socket (WebUi.Failure "Failed to turn device off")])
       end).
Proof.
  intros socket env v u.
  cbn [App.dispatch]. unfold WebUi.onManualOn, WebUi.onManualOff, WebUi.manual.
  split; intros Hr.
  - rewrite !(proj1 (handleUIControl_cases _ env v) Hr). split; reflexivity.
  - destruct (proj2 (handleUIControl_cases "on" env v) Hr) as (Hon & _).
    destruct (proj2 (handleUIControl_cases "off" env v) Hr) as (_ & Hoff & _).
    rewrite (Hon eq_refl), (Hoff eq_refl).
    destruct (Main.vibrate_outcome env), (Main.stop_outcome env); split; reflexivity.
Qed.
